(** * ReportesServicio: the Activity / Report data model

    A shallow embedding of [src/models/activity_model.py] and
    [src/models/report_model.py], with the Python builtins they call
    ([str.strip], [str.split], [int], [format], [datetime.strptime],
    [date.isoformat], [date.fromisoformat], [os.path.splitext]) modelled in
    [Module Py].

    Conventions.
    - A Python [str] is a [string] whose characters are the code points
      0..255; code points above 255 are outside the model.
    - Python [int] is [Z]; a JSON number is modelled as an integer.
    - A method that mutates [self] returns the new object next to its result.
    - An exception raised by a builtin is [None]; every [try]/[except] of
      the source is a [match] on that option.
    - The file system is a finite map from paths to sizes in bytes. *)

From Stdlib Require Import ZArith Lia Ascii String DecimalString.
From stdpp Require Import base option list gmap strings.

Set Warnings "-register-all,-clear-no-such-hyp".

Local Open Scope Z_scope.

(** * Python builtins *)

Module Py.

(** ** Characters *)

(** [\d] of [re] and the digits of [int()]: below code point 256 the only
    decimal digits are the ASCII ones. *)
Definition is_digit (c : ascii) : bool :=
  match c with
  | "0" | "1" | "2" | "3" | "4" | "5" | "6" | "7" | "8" | "9" => true
  | _ => false
  end%char.

Definition digit_val (c : ascii) : Z := Z.of_N (N_of_ascii c) - 48.

Definition code_in (lo hi : N) (c : ascii) : bool :=
  ((lo <=? N_of_ascii c) && (N_of_ascii c <=? hi))%N.

(** [str.isspace]: TAB..CR, FS..US, space, NEL and NBSP. *)
Definition is_space (c : ascii) : bool :=
  code_in 9 13 c || code_in 28 32 c || code_in 133 133 c || code_in 160 160 c.

(** The blanks [int()] skips: C [isspace] on ASCII, plus the non-ASCII
    blanks, which it first turns into spaces. *)
Definition is_int_space (c : ascii) : bool :=
  code_in 9 13 c || code_in 32 32 c || code_in 133 133 c || code_in 160 160 c.

(** [str.lower] on one code point: A..Z and the Latin-1 capitals. *)
Definition lower_char (c : ascii) : ascii :=
  if code_in 65 90 c || code_in 192 214 c || code_in 216 222 c
  then ascii_of_N (N_of_ascii c + 32) else c.

(** ** Strings *)

Fixpoint lower (s : string) : string :=
  match s with
  | EmptyString => EmptyString
  | String c r => String (lower_char c) (lower r)
  end.

Fixpoint lstrip (sp : ascii -> bool) (s : string) : string :=
  match s with
  | EmptyString => EmptyString
  | String c r => if sp c then lstrip sp r else s
  end.

Fixpoint rstrip (sp : ascii -> bool) (s : string) : string :=
  match s with
  | EmptyString => EmptyString
  | String c r =>
      match rstrip sp r with
      | EmptyString => if sp c then EmptyString else String c EmptyString
      | r' => String c r'
      end
  end.

(** [s.strip()] *)
Definition strip (s : string) : string := rstrip is_space (lstrip is_space s).

(** [c in s] for a one-character [c] *)
Fixpoint contains (c : ascii) (s : string) : bool :=
  match s with
  | EmptyString => false
  | String d r => Ascii.eqb d c || contains c r
  end.

(** [s.split(sep)] for a one-character separator *)
Fixpoint split (sep : ascii) (s : string) : list string :=
  match s with
  | EmptyString => [EmptyString]
  | String c r =>
      if Ascii.eqb c sep then EmptyString :: split sep r
      else match split sep r with
           | h :: t => String c h :: t
           | [] => [String c EmptyString]
           end
  end.

(** [sep.join(l)] *)
Fixpoint join (sep : string) (l : list string) : string :=
  match l with
  | [] => EmptyString
  | [s] => s
  | s :: r => s +:+ sep +:+ join sep r
  end.

(** [s.rfind(c)]: the last index of [c], or -1. *)
Fixpoint rfind (c : ascii) (s : string) : Z :=
  match s with
  | EmptyString => -1
  | String d r =>
      let k := rfind c r in
      if 0 <=? k then k + 1 else if Ascii.eqb d c then 0 else -1
  end.

(** [s[:n]] and [s[n:]] for [0 <= n] *)
Fixpoint str_take (n : nat) (s : string) : string :=
  match n, s with
  | S k, String c r => String c (str_take k r)
  | _, _ => EmptyString
  end.

Fixpoint str_drop (n : nat) (s : string) : string :=
  match n, s with
  | S k, String _ r => str_drop k r
  | _, _ => s
  end.

(** ** [int(s)] *)

(** After the sign: digits, with single underscores between digits only. *)
Fixpoint digits_wf (s : string) : bool :=
  match s with
  | EmptyString => false
  | String c r =>
      is_digit c &&
      match r with
      | EmptyString => true
      | String c' r' => if Ascii.eqb c' "_" then digits_wf r' else digits_wf r
      end
  end.

Fixpoint digits_value (acc : Z) (s : string) : Z :=
  match s with
  | EmptyString => acc
  | String c r =>
      if is_digit c then digits_value (acc * 10 + digit_val c) r
      else digits_value acc r
  end.

Fixpoint count_digits (s : string) : Z :=
  match s with
  | EmptyString => 0
  | String c r => (if is_digit c then 1 else 0) + count_digits r
  end.

(** [sys.get_int_max_str_digits()] *)
Definition int_max_str_digits : Z := 4300.

(** [int(s)] in base 10; [None] is [ValueError]. *)
Definition int (s : string) : option Z :=
  let t := rstrip is_int_space (lstrip is_int_space s) in
  let '(neg, body) :=
    match t with
    | String c r =>
        if Ascii.eqb c "+" then (false, r)
        else if Ascii.eqb c "-" then (true, r)
        else (false, t)
    | EmptyString => (false, t)
    end in
  if digits_wf body && (count_digits body <=? int_max_str_digits)
  then Some (if neg then - digits_value 0 body else digits_value 0 body)
  else None.

(** ** [format(z, "0<w>d")] *)

Definition str_of_nonneg (z : Z) : string :=
  NilZero.string_of_uint (N.to_uint (Z.to_N z)).

Fixpoint zeros (n : nat) : string :=
  match n with
  | O => EmptyString
  | S k => String "0" (zeros k)
  end.

Definition zfill (w : nat) (s : string) : string :=
  zeros (w - String.length s) +:+ s.

(** The sign counts in the width: [format(-5, "03d") = "-05"]. *)
Definition format_0d (w : nat) (z : Z) : string :=
  if z <? 0 then String "-" (zfill (w - 1) (str_of_nonneg (- z)))
  else zfill w (str_of_nonneg z).

(** [str(z)] *)
Definition str_of_int (z : Z) : string := format_0d 0 z.

(** [f"{hours:02d}:{minutes:02d}"] *)
Definition hhmm (hours minutes : Z) : string :=
  format_0d 2 hours +:+ ":" +:+ format_0d 2 minutes.

(** [f"{x:.1f}"] for [x = num / 2^20] with [0 <= num]: the quotient is
    exact in binary floating point below 2^53, and the decimal is rounded
    half to even. *)
Definition format_1f_mib (num : Z) : string :=
  let q := (num * 10) / 1048576 in
  let r := (num * 10) mod 1048576 in
  let t := if (524288 <? r) || ((r =? 524288) && Z.odd q) then q + 1 else q in
  str_of_int (t / 10) +:+ "." +:+ str_of_int (t mod 10).

(** ** [datetime.strptime(s, "%H:%M")] *)

(** The directive [%H] is the group [2[0-3]|[0-1]\d|\d]: the matches of
    its alternatives at the head of [s], in the order [re] tries them,
    each with the rest of the input. *)
Definition re_H (s : string) : list (string * string) :=
  match s with
  | String c1 (String c2 r) =>
      (if Ascii.eqb c1 "2" && code_in 48 51 c2
       then [(String c1 (String c2 EmptyString), r)] else []) ++
      (if code_in 48 49 c1 && is_digit c2
       then [(String c1 (String c2 EmptyString), r)] else []) ++
      (if is_digit c1 then [(String c1 EmptyString, String c2 r)] else [])
  | String c1 EmptyString =>
      if is_digit c1 then [(String c1 EmptyString, EmptyString)] else []
  | EmptyString => []
  end.

(** [%M] is [[0-5]\d|\d]. *)
Definition re_M (s : string) : list (string * string) :=
  match s with
  | String c1 (String c2 r) =>
      (if code_in 48 53 c1 && is_digit c2
       then [(String c1 (String c2 EmptyString), r)] else []) ++
      (if is_digit c1 then [(String c1 EmptyString, String c2 r)] else [])
  | String c1 EmptyString =>
      if is_digit c1 then [(String c1 EmptyString, EmptyString)] else []
  | EmptyString => []
  end.

(** The first alternative whose continuation matches (backtracking). *)
Fixpoint first_match {A B : Type} (k : A -> option B) (l : list A) : option B :=
  match l with
  | [] => None
  | a :: r => match k a with
              | Some b => Some b
              | None => first_match k r
              end
  end.

(** [re.match] of [(?P<H>...):(?P<M>...)]: the two groups and the input
    left after the match. *)
Definition re_match_HM (s : string) : option (string * string * string) :=
  first_match
    (fun '(h, r1) =>
       match r1 with
       | String c r2 =>
           if Ascii.eqb c ":"
           then first_match (fun '(m, r3) => Some (h, m, r3)) (re_M r2)
           else None
       | EmptyString => None
       end)
    (re_H s).

(** The hour and minute of the parsed [datetime] (its date is 1900-01-01);
    [None] is [ValueError], raised when the format does not match or when
    unconverted data remains. *)
Definition strptime_HM (s : string) : option (Z * Z) :=
  match re_match_HM s with
  | None => None
  | Some (h, m, rest) =>
      if negb (String.eqb rest EmptyString) then None
      else
        match int h, int m with
        | Some hv, Some mv => Some (hv, mv)
        | _, _ => None
        end
  end.

(** Seconds from 1900-01-01T00:00 to the parsed [datetime]. *)
Definition seconds_of (t : Z * Z) : Z := fst t * 3600 + snd t * 60.

(** [timedelta(days=1).total_seconds()] *)
Definition one_day : Z := 86400.

(** ** [datetime.date] *)

Record date := mkdate { year : Z; month : Z; day : Z }.

Definition is_leap (y : Z) : bool :=
  (y mod 4 =? 0) && (negb (y mod 100 =? 0) || (y mod 400 =? 0)).

Definition days_in_month (y m : Z) : Z :=
  if m =? 2 then (if is_leap y then 29 else 28)
  else if (m =? 4) || (m =? 6) || (m =? 9) || (m =? 11) then 30
  else 31.

(** The values the [date] constructor accepts. *)
Definition valid_date (d : date) : bool :=
  (1 <=? year d) && (year d <=? 9999) &&
  (1 <=? month d) && (month d <=? 12) &&
  (1 <=? day d) && (day d <=? days_in_month (year d) (month d)).

(** [a == b] on dates *)
Definition date_eqb (a b : date) : bool :=
  (year a =? year b) && (month a =? month b) && (day a =? day b).

(** [bool(d)]: a [date] object is always true. *)
Definition date_truthy (d : date) : bool := true.

(** [d.isoformat()] *)
Definition isoformat (d : date) : string :=
  format_0d 4 (year d) +:+ "-" +:+ format_0d 2 (month d) +:+ "-" +:+
  format_0d 2 (day d).

Definition all_digits (s : string) : bool :=
  forallb is_digit (list_ascii_of_string s).

(** [date.fromisoformat(s)] on a [str], in the extended format
    YYYY-MM-DD; [None] is [ValueError].  (From Python 3.11 the basic and
    the week formats parse too; those strings are refused here.  Every
    version starts by reading a year of four digits, so the model agrees
    with all of them on the strings that do not start with four digits,
    and on the strings YYYY-MM-DD; nothing below is stated about other
    strings.) *)
Definition fromisoformat (s : string) : option date :=
  let y := str_take 4 s in
  let m := str_take 2 (str_drop 5 s) in
  let d := str_take 2 (str_drop 8 s) in
  if (String.length s =? 10)%nat
     && String.eqb (str_take 1 (str_drop 4 s)) "-"
     && String.eqb (str_take 1 (str_drop 7 s)) "-"
     && all_digits y && all_digits m && all_digits d
  then
    let r := mkdate (digits_value 0 y) (digits_value 0 m) (digits_value 0 d) in
    if valid_date r then Some r else None
  else None.

(** ** [os.path] (POSIX) *)

(** [True] when some character of [s[lo:hi]] is not a dot. *)
Definition non_dot_between (lo hi : Z) (s : string) : bool :=
  existsb (fun c => negb (Ascii.eqb c "."))
          (list_ascii_of_string
             (str_take (Z.to_nat (hi - lo)) (str_drop (Z.to_nat lo) s))).

(** [os.path.splitext(p)]: the extension starts at the last dot of the
    last component, unless that component has only dots before it. *)
Definition splitext (p : string) : string * string :=
  let sepIndex := rfind "/" p in
  let dotIndex := rfind "." p in
  if (sepIndex <? dotIndex) && non_dot_between (sepIndex + 1) dotIndex p
  then (str_take (Z.to_nat dotIndex) p, str_drop (Z.to_nat dotIndex) p)
  else (p, EmptyString).

(** [l[i]] with Python's negative indices; [None] is [IndexError]. *)
Definition index {A : Type} (l : list A) (i : Z) : option A :=
  let n := Z.of_nat (length l) in
  if (0 <=? i) && (i <? n) then l !! Z.to_nat i
  else if (- n <=? i) && (i <? 0) then l !! Z.to_nat (n + i)
  else None.

(** [l.insert(i, x)] for [0 <= i] *)
Definition list_insert_at {A : Type} (i : nat) (x : A) (l : list A) : list A :=
  take i l ++ x :: drop i l.

(** ** Comparisons and searches *)

(** [a <= b] on [str]: the order of the code points, the shorter string
    first when it is a prefix of the other. *)
Fixpoint str_leb (a b : string) : bool :=
  match a, b with
  | EmptyString, _ => true
  | String _ _, EmptyString => false
  | String c a', String d b' =>
      if (N_of_ascii c <? N_of_ascii d)%N then true
      else if (N_of_ascii d <? N_of_ascii c)%N then false
      else str_leb a' b'
  end.

(** [s.startswith(p)] *)
Fixpoint startswith (p s : string) : bool :=
  match p, s with
  | EmptyString, _ => true
  | String _ _, EmptyString => false
  | String c p', String d s' => Ascii.eqb c d && startswith p' s'
  end.

(** [needle in hay] on [str] *)
Fixpoint is_substring (needle hay : string) : bool :=
  startswith needle hay
  || match hay with
     | EmptyString => false
     | String _ r => is_substring needle r
     end.

(** [l.remove(x)]: without the first [x]; [None] is [ValueError]. *)
Fixpoint list_remove (x : string) (l : list string) : option (list string) :=
  match l with
  | [] => None
  | y :: r =>
      if String.eqb y x then Some r
      else match list_remove x r with
           | Some r' => Some (y :: r')
           | None => None
           end
  end.

(** ** Values of a JSON document, exceptions *)

(** What [json.load] and [to_dict] produce.  A [dict] keeps its items in
    insertion order; its keys are distinct, and [dict_get] reads the first
    item with the key. *)
Inductive pyval : Type :=
  | PNone
  | PBool (b : bool)
  | PInt (z : Z)
  | PStr (s : string)
  | PList (l : list pyval)
  | PDict (d : list (string * pyval)).

Definition pydict : Type := list (string * pyval).

(** [bool(v)] *)
Definition truthy (v : pyval) : bool :=
  match v with
  | PNone => false
  | PBool b => b
  | PInt z => negb (z =? 0)
  | PStr s => negb (String.eqb s EmptyString)
  | PList l => match l with [] => false | _ => true end
  | PDict d => match d with [] => false | _ => true end
  end.

(** [type(v).__name__] *)
Definition type_name (v : pyval) : string :=
  match v with
  | PNone => "NoneType"
  | PBool _ => "bool"
  | PInt _ => "int"
  | PStr _ => "str"
  | PList _ => "list"
  | PDict _ => "dict"
  end.

Fixpoint dict_lookup (d : pydict) (k : string) : option pyval :=
  match d with
  | [] => None
  | (k', v) :: r => if String.eqb k' k then Some v else dict_lookup r k
  end.

(** [d.get(k, default)]; [d.get(k)] is [dict_get d k PNone]. *)
Definition dict_get (d : pydict) (k : string) (default : pyval) : pyval :=
  match dict_lookup d k with
  | Some v => v
  | None => default
  end.

Inductive exn : Type :=
  | ValueError (msg : string)
  | TypeError (msg : string)
  | AttributeError (msg : string).

(** [str(e)] *)
Definition exn_message (e : exn) : string :=
  match e with
  | ValueError m | TypeError m | AttributeError m => m
  end.

(** The result of a call that may raise.  [IllTyped] stands for a call
    that returns an object one of whose attributes is not of its annotated
    type (a [title] that is not a [str], say): the records below do not
    represent such objects. *)
Inductive outcome (A : Type) : Type :=
  | Returns (a : A)
  | Raises (e : exn)
  | IllTyped.

Arguments Returns {A} a.
Arguments Raises {A} e.
Arguments IllTyped {A}.

(** The results of the elements of a list comprehension, evaluated in
    order: the first exception leaves the comprehension. *)
Fixpoint collect {A : Type} (l : list (outcome A)) : outcome (list A) :=
  match l with
  | [] => Returns []
  | Raises e :: _ => Raises e
  | Returns a :: r =>
      match collect r with
      | Returns r' => Returns (a :: r')
      | Raises e => Raises e
      | IllTyped => IllTyped
      end
  | IllTyped :: r =>
      match collect r with
      | Raises e => Raises e
      | _ => IllTyped
      end
  end.

Definition no_attribute (v : pyval) (attr : string) : exn :=
  AttributeError ("'" +:+ type_name v +:+ "' object has no attribute '" +:+ attr +:+ "'").

(** The items [for x in v] visits; a [str] yields its characters, a
    [dict] its keys. *)
Definition iterate (v : pyval) : outcome (list pyval) :=
  match v with
  | PList l => Returns l
  | PStr s => Returns (map (fun c => PStr (String c EmptyString)) (list_ascii_of_string s))
  | PDict d => Returns (map (fun kv => PStr (fst kv)) d)
  | _ => Raises (TypeError ("'" +:+ type_name v +:+ "' object is not iterable"))
  end.

(** A value that is a [str], for an attribute annotated [str]. *)
Definition as_str (v : pyval) : outcome string :=
  match v with
  | PStr s => Returns s
  | _ => IllTyped
  end.

End Py.


(** The file system: the size in bytes of what is at each path. *)
Abbreviation filesystem := (gmap string Z).

(** [os.path.exists(path)] *)
Definition path_exists (fs : filesystem) (path : string) : bool :=
  bool_decide (is_Some (fs !! path)).

(** [os.path.getsize(path)], called on existing paths only *)
Definition getsize (fs : filesystem) (path : string) : Z :=
  default 0 (fs !! path).

(** * [models/activity_model.py] *)

Module Activity.

Record t : Type := mk {
  title : string;
  description : string;
  start_time : string;
  end_time : string;
  images : list string;
  _duration : string
}.

Definition MAX_IMAGES : Z := 5.
Definition MAX_SIZE_IMAGE_MB : Z := 10.
Definition FORMATS_ALLOW_IMAGE : list string := [".jpg"; ".jpeg"; ".png"].

(** Attribute assignments *)
Definition set_start_time (a : t) (v : string) : t :=
  mk (title a) (description a) v (end_time a) (images a) (_duration a).
Definition set_end_time (a : t) (v : string) : t :=
  mk (title a) (description a) (start_time a) v (images a) (_duration a).
Definition set_images (a : t) (v : list string) : t :=
  mk (title a) (description a) (start_time a) (end_time a) v (_duration a).
Definition set__duration (a : t) (v : string) : t :=
  mk (title a) (description a) (start_time a) (end_time a) (images a) v.

(** [self._duration = v; return self._duration] *)
Definition store (a : t) (v : string) : t * string := (set__duration a v, v).

(** [hour] is a [str], so the [isinstance] test passes. *)
(* activity_model.py, lines 148-165 *)
Definition _validate_format_hour (hour : string) : bool :=
  if String.eqb hour EmptyString then false
  else match Py.strptime_HM hour with
       | Some _ => true
       | None => false
       end.

(* activity_model.py, lines 45-79 *)
Definition calculate_duration (a : t) : t * string :=
  if negb (_validate_format_hour (start_time a)) then
    store a "Invalid start time"
  else if negb (_validate_format_hour (end_time a)) then
    store a "Invalid end time"
  else
    match Py.strptime_HM (start_time a), Py.strptime_HM (end_time a) with
    | Some start, Some end_ =>
        let start := Py.seconds_of start in
        let end_ := Py.seconds_of end_ in
        let end_ := if end_ <=? start then end_ + Py.one_day else end_ in
        let difference := end_ - start in
        let hours := difference / 3600 in
        let minutes := (difference mod 3600) / 60 in
        store a (Py.hhmm hours minutes)
    | _, _ => store a "Calculate Error"
    end.

(** [Activity(title, description, start_time, end_time, images)] *)
(* activity_model.py, lines 24-39 *)
Definition init (title description start_time end_time : string)
    (images : option (list string)) : t :=
  let self := mk title description start_time end_time (default [] images)
                 EmptyString in
  if negb (String.eqb start_time EmptyString)
     && negb (String.eqb end_time EmptyString)
  then fst (calculate_duration self)
  else self.

(** [hours, minutes = s.split(":"); int(hours) * 60 + int(minutes)];
    [None] is [ValueError]. *)
Definition minutes_of_string (s : string) : option Z :=
  match Py.split ":" s with
  | [hours; minutes] =>
      match Py.int hours, Py.int minutes with
      | Some h, Some m => Some (h * 60 + m)
      | _, _ => None
      end
  | _ => None
  end.

(* activity_model.py, lines 81-99 *)
Definition get_duration_in_minutes (a : t) : t * Z :=
  let a :=
    if String.eqb (_duration a) EmptyString
       || negb (Py.contains ":" (_duration a))
    then fst (calculate_duration a) else a in
  if negb (Py.contains ":" (_duration a)) then (a, 0)
  else match minutes_of_string (_duration a) with
       | Some n => (a, n)
       | None => (a, 0)
       end.

(** The [duration] property *)
(* activity_model.py, lines 101-112 *)
Definition duration (a : t) : t * string :=
  let a :=
    if String.eqb (_duration a) EmptyString
    then fst (calculate_duration a) else a in
  (a, _duration a).

(** [h, m = map(int, s.split(":"))]; [None] is [ValueError]. *)
Definition unpack_ints (s : string) : option (Z * Z) :=
  match Py.split ":" s with
  | [h; m] =>
      match Py.int h, Py.int m with
      | Some hv, Some mv => Some (hv, mv)
      | _, _ => None
      end
  | _ => None
  end.

Definition in_range (hm : Z * Z) : bool :=
  (0 <=? fst hm) && (fst hm <=? 23) && (0 <=? snd hm) && (snd hm <=? 59).

(* activity_model.py, lines 118-146 *)
Definition validate_hours (a : t) : bool * string :=
  if negb (_validate_format_hour (start_time a)) then
    (false, "Invalid start time: '" +:+ start_time a +:+
            "'. Use HH:MM format (00:00 - 23:59)")
  else if negb (_validate_format_hour (end_time a)) then
    (false, "Invalid end time: '" +:+ end_time a +:+
            "'. Use HH:MM format (00:00 - 23:59)")
  else
    match unpack_ints (start_time a), unpack_ints (end_time a) with
    | Some s, Some e =>
        if negb (in_range s) then
          (false, "Start time out of range (00:00 - 23:59)")
        else if negb (in_range e) then
          (false, "End time out of range (00:00 - 23:59)")
        else (true, "Valid hours")
    | _, _ => (false, "Error processing times")
    end.

(* activity_model.py, lines 167-187 *)
Definition validate_required_fields (a : t) : bool * string :=
  if String.eqb (title a) EmptyString
     || String.eqb (Py.strip (title a)) EmptyString then
    (false, "Title is required")
  else if String.eqb (description a) EmptyString
          || String.eqb (Py.strip (description a)) EmptyString then
    (false, "Description is required")
  else if String.eqb (start_time a) EmptyString then
    (false, "Start time is required")
  else if String.eqb (end_time a) EmptyString then
    (false, "End time is required")
  else (true, "All fields complete").

Definition allowed_extension (path : string) : bool :=
  bool_decide (Py.lower (snd (Py.splitext path)) ∈ FORMATS_ALLOW_IMAGE).

(** The loop [for i, path in enumerate(self.images)] of
    [validate_images], from position [i]. *)
Fixpoint validate_images_from (fs : filesystem) (i : Z) (paths : list string)
    : bool * string :=
  match paths with
  | [] => (true, "Valid images")
  | path :: rest =>
      if negb (path_exists fs path) then
        (false, "Image " +:+ Py.str_of_int (i + 1) +:+ " not found: " +:+ path)
      else if negb (allowed_extension path) then
        (false, "Image " +:+ Py.str_of_int (i + 1) +:+ " with invalid format")
      else validate_images_from fs (i + 1) rest
  end.

(* activity_model.py, lines 305-323 *)
Definition validate_images (fs : filesystem) (a : t) : bool * string :=
  if MAX_IMAGES <? Z.of_nat (length (images a)) then
    (false, "Too many images (max: " +:+ Py.str_of_int MAX_IMAGES +:+ ")")
  else validate_images_from fs 0 (images a).

(* activity_model.py, lines 189-211 *)
Definition complete_validate (fs : filesystem) (a : t) : bool * string :=
  let '(valid, message) := validate_required_fields a in
  if negb valid then (false, message)
  else
    let '(valid, message) := validate_hours a in
    if negb valid then (false, message)
    else
      let '(valid, message) := validate_images fs a in
      if negb valid then (false, message)
      else (true, "Valid activity").

(* activity_model.py, lines 217-247 *)
Definition add_image (fs : filesystem) (a : t) (path_image : string)
    : t * (bool * string) :=
  if MAX_IMAGES <=? Z.of_nat (length (images a)) then
    (a, (false, "Limit of " +:+ Py.str_of_int MAX_IMAGES +:+ " images reached"))
  else if negb (path_exists fs path_image) then
    (a, (false, "File does not exist"))
  else if negb (allowed_extension path_image) then
    (a, (false, "Invalid format. Use: " +:+ Py.join ", " FORMATS_ALLOW_IMAGE))
  else if MAX_SIZE_IMAGE_MB * (1024 * 1024) <? getsize fs path_image then
    (a, (false, "Image too large (" +:+ Py.format_1f_mib (getsize fs path_image)
                +:+ "MB). Maximum " +:+ Py.str_of_int MAX_SIZE_IMAGE_MB +:+ "MB"))
  else
    let a := set_images a (images a ++ [path_image]) in
    (a, (true, "Image added (" +:+ Py.str_of_int (Z.of_nat (length (images a)))
               +:+ "/" +:+ Py.str_of_int MAX_IMAGES +:+ ")")).

(* activity_model.py, lines 249-262 *)
Definition delete_image (a : t) (index : Z) : t * (bool * string) :=
  if (0 <=? index) && (index <? Z.of_nat (length (images a))) then
    (set_images a (delete (Z.to_nat index) (images a)), (true, "Image deleted"))
  else (a, (false, "Invalid index")).

(** [set(range(n))] *)
Definition range_set (n : nat) : gset Z := list_to_set (seqZ 0 (Z.of_nat n)).

(* activity_model.py, lines 279-303 *)
Definition reorganize_images (a : t) (new_order : list Z) : t * (bool * string) :=
  if negb (length new_order =? length (images a))%nat then
    (a, (false, "Number of indices doesn't match"))
  else if negb (bool_decide (list_to_set new_order = range_set (length (images a)))) then
    (a, (false, "Invalid indices"))
  else
    match mapM (Py.index (images a)) new_order with
    | Some new_images => (set_images a new_images, (true, "Images reordered"))
    | None => (a, (false, "Error reordering images"))
    end.

(** [to_dict] reads the [duration] property, which may fill the memo. *)
(* activity_model.py, lines 337-352 *)
Definition to_dict (a : t) : t * Py.pydict :=
  let '(a', d) := duration a in
  (a', [("title", Py.PStr (title a));
       ("description", Py.PStr (description a));
       ("start_time", Py.PStr (start_time a));
       ("end_time", Py.PStr (end_time a));
       ("duration", Py.PStr d);
       ("images", Py.PList (map Py.PStr (images a)));
       ("number_images", Py.PInt (Z.of_nat (length (images a))))]%string).

(** [data.get('images', []).copy() if data.get('images') else []] *)
Definition images_of (data : Py.pydict) : Py.outcome (list string) :=
  let v := Py.dict_get data "images" Py.PNone in
  if Py.truthy v then
    match Py.dict_get data "images" (Py.PList []) with
    | Py.PList l => Py.collect (map Py.as_str l)
    | Py.PDict _ => Py.IllTyped
    | w => Py.Raises (Py.no_attribute w "copy")
    end
  else Py.Returns [].

(** [Activity.from_dict(data)]; [data] is any value of the document. *)
(* activity_model.py, lines 354-371 *)
Definition from_dict (data : Py.pyval) : Py.outcome t :=
  match data with
  | Py.PDict d =>
      match images_of d with
      | Py.Raises e => Py.Raises e
      | Py.IllTyped => Py.IllTyped
      | Py.Returns imgs =>
          match Py.as_str (Py.dict_get d "title" (Py.PStr EmptyString)),
                Py.as_str (Py.dict_get d "description" (Py.PStr EmptyString)),
                Py.as_str (Py.dict_get d "start_time" (Py.PStr "00:00")),
                Py.as_str (Py.dict_get d "end_time" (Py.PStr "00:00")) with
          | Py.Returns ti, Py.Returns de, Py.Returns st, Py.Returns en =>
              Py.Returns (init ti de st en (Some imgs))
          | _, _, _, _ => Py.IllTyped
          end
      end
  | v => Py.Raises (Py.no_attribute v "get")
  end.

(* activity_model.py, lines 264-277 *)
(** [remove] is called on a path that is in the list, so its
    [ValueError] is never raised. *)
Definition delete_image_by_path (a : t) (path : string) : t * (bool * string) :=
  if bool_decide (path ∈ images a) then
    match Py.list_remove path (images a) with
    | Some l => (set_images a l, (true, "Image deleted"))
    | None => (a, (false, "Image not found"))
    end
  else (a, (false, "Image not found")).

(* activity_model.py, lines 325-327 *)
Definition clean_images (a : t) : t := set_images a [].

(* activity_model.py, lines 329-331 *)
Definition get_number_of_images (a : t) : Z := Z.of_nat (length (images a)).

(* activity_model.py, lines 373-380 *)
(** [self.to_dict()] may fill the memo of [self]: the activity after the
    call, and the copy. *)
Definition copy (a : t) : t * Py.outcome t :=
  let '(a', d) := to_dict a in
  (a', from_dict (Py.PDict d)).

(* activity_model.py, lines 404-415 *)
(** [self == other] for two activities *)
Definition eq (self other : t) : bool :=
  String.eqb (title self) (title other)
  && String.eqb (description self) (description other)
  && String.eqb (start_time self) (start_time other)
  && String.eqb (end_time self) (end_time other)
  && bool_decide (images self = images other).

(* activity_model.py, lines 426-434 *)
Definition is_valid (fs : filesystem) (a : t) : bool :=
  fst (complete_validate fs a).

End Activity.

(** * [models/report_model.py] *)

Module Report.

(** [date] is always a [datetime.date]: the constructor replaces [None]
    by today's date. *)
Record t : Type := mk {
  responsible : string;
  student : string;
  date : Py.date;
  entry_time : string;
  exit_time : string;
  activities : list Activity.t;
  _instance_hours : string
}.

(** Attribute assignments *)
Definition set_entry_time (r : t) (v : string) : t :=
  mk (responsible r) (student r) (date r) v (exit_time r) (activities r)
     (_instance_hours r).
Definition set_exit_time (r : t) (v : string) : t :=
  mk (responsible r) (student r) (date r) (entry_time r) v (activities r)
     (_instance_hours r).
Definition set_activities (r : t) (v : list Activity.t) : t :=
  mk (responsible r) (student r) (date r) (entry_time r) (exit_time r) v
     (_instance_hours r).
Definition set__instance_hours (r : t) (v : string) : t :=
  mk (responsible r) (student r) (date r) (entry_time r) (exit_time r)
     (activities r) v.

(** [self._instance_hours = v; return self._instance_hours] *)
Definition store (r : t) (v : string) : t * string :=
  (set__instance_hours r v, v).

(** [hour] is a [str], so the [isinstance] test passes. *)
(* report_model.py, lines 142-159 *)
Definition _validate_format_hour (hour : string) : bool :=
  if String.eqb hour EmptyString then false
  else match Py.strptime_HM hour with
       | Some _ => true
       | None => false
       end.

(* report_model.py, lines 58-91 *)
Definition calculate_instance_hours (r : t) : t * string :=
  if negb (_validate_format_hour (entry_time r)) then
    store r "Invalid entry time"
  else if negb (_validate_format_hour (exit_time r)) then
    store r "Invalid exit time"
  else
    match Py.strptime_HM (entry_time r), Py.strptime_HM (exit_time r) with
    | Some entry, Some exit_dt =>
        let entry := Py.seconds_of entry in
        let exit_dt := Py.seconds_of exit_dt in
        let exit_dt :=
          if exit_dt <=? entry then exit_dt + Py.one_day else exit_dt in
        let difference := exit_dt - entry in
        let hours := difference / 3600 in
        let minutes := (difference mod 3600) / 60 in
        store r (Py.hhmm hours minutes)
    | _, _ => store r "Calculate Error"
    end.

(** [Report(responsible, student, report_date, entry_time, exit_time,
    activities)]; [today] is [date.today()]. *)
(* report_model.py, lines 22-52 *)
Definition init (today : Py.date) (responsible student : string)
    (report_date : option Py.date) (entry_time exit_time : string)
    (activities : option (list Activity.t)) : t :=
  let self := mk responsible student (default today report_date)
                 entry_time exit_time (default [] activities) EmptyString in
  if negb (String.eqb entry_time EmptyString)
     && negb (String.eqb exit_time EmptyString)
  then fst (calculate_instance_hours self)
  else self.

(** The [instance_hours] property *)
(* report_model.py, lines 93-103 *)
Definition instance_hours (r : t) : t * string :=
  let r :=
    if String.eqb (_instance_hours r) EmptyString
    then fst (calculate_instance_hours r) else r in
  (r, _instance_hours r).

(** [activity.get_duration_in_minutes() for activity in self.activities]:
    the activities after the calls (their memo may be filled) and the
    values. *)
Definition refreshed (acts : list Activity.t) : list Activity.t :=
  map (fun a => fst (Activity.get_duration_in_minutes a)) acts.

Definition minutes_each (acts : list Activity.t) : list Z :=
  map (fun a => snd (Activity.get_duration_in_minutes a)) acts.

(** [sum(...)] *)
Definition sum (l : list Z) : Z := foldl Z.add 0 l.

(* report_model.py, lines 105-120 *)
Definition calculate_total_activity_hours (r : t) : t * string :=
  let total_minutes := sum (minutes_each (activities r)) in
  let hours := total_minutes / 60 in
  let minutes := total_minutes mod 60 in
  (set_activities r (refreshed (activities r)), Py.hhmm hours minutes).

(* report_model.py, lines 122-140 *)
Definition get_instance_hours_in_minutes (r : t) : t * Z :=
  let r :=
    if String.eqb (_instance_hours r) EmptyString
       || negb (Py.contains ":" (_instance_hours r))
    then fst (calculate_instance_hours r) else r in
  if negb (Py.contains ":" (_instance_hours r)) then (r, 0)
  else match Activity.minutes_of_string (_instance_hours r) with
       | Some n => (r, n)
       | None => (r, 0)
       end.

(** [activity] is an [Activity], so the [isinstance] test passes (in
    [edit_activity] too). *)
(* report_model.py, lines 165-184 *)
Definition add_activity (fs : filesystem) (r : t) (activity : Activity.t)
    : t * (bool * string) :=
  let '(valid, message) := Activity.complete_validate fs activity in
  if negb valid then (r, (false, "Invalid activity: " +:+ message))
  else
    let r := set_activities r (activities r ++ [activity]) in
    (r, (true, "Activity added (Total: " +:+
               Py.str_of_int (Z.of_nat (length (activities r))) +:+ ")")).

(* report_model.py, lines 186-199 *)
Definition remove_activity (r : t) (index : Z) : t * (bool * string) :=
  if (0 <=? index) && (index <? Z.of_nat (length (activities r))) then
    match activities r !! Z.to_nat index with
    | Some removed =>
        (set_activities r (delete (Z.to_nat index) (activities r)),
         (true, "Activity '" +:+ Activity.title removed +:+ "' removed"))
    | None => (r, (false, "Invalid index"))
    end
  else (r, (false, "Invalid index")).

(* report_model.py, lines 201-225 *)
Definition edit_activity (fs : filesystem) (r : t) (index : Z)
    (updated_activity : Activity.t) : t * (bool * string) :=
  if negb ((0 <=? index) && (index <? Z.of_nat (length (activities r)))) then
    (r, (false, "Invalid index"))
  else
    let '(valid, message) := Activity.complete_validate fs updated_activity in
    if negb valid then (r, (false, "Invalid activity: " +:+ message))
    else
      match activities r !! Z.to_nat index with
      | Some old =>
          (set_activities r (<[Z.to_nat index := updated_activity]> (activities r)),
           (true, "Activity '" +:+ Activity.title old +:+ "' updated"))
      | None => (r, (false, "Invalid index"))
      end.

(* report_model.py, lines 254-273 *)
Definition move_activity (r : t) (from_index to_index : Z)
    : t * (bool * string) :=
  if negb ((0 <=? from_index) && (from_index <? Z.of_nat (length (activities r)))) then
    (r, (false, "Invalid source index"))
  else if negb ((0 <=? to_index) && (to_index <? Z.of_nat (length (activities r)))) then
    (r, (false, "Invalid destination index"))
  else
    match activities r !! Z.to_nat from_index with
    | Some activity =>
        (set_activities r
           (Py.list_insert_at (Z.to_nat to_index) activity
              (delete (Z.to_nat from_index) (activities r))),
         (true, "Activity '" +:+ Activity.title activity +:+ "' moved"))
    | None => (r, (false, "Invalid source index"))
    end.

(* report_model.py, lines 279-305 *)
Definition validate_times (r : t) : bool * string :=
  if negb (_validate_format_hour (entry_time r)) then
    (false, "Invalid entry time: '" +:+ entry_time r +:+
            "'. Use HH:MM format (00:00 - 23:59)")
  else if negb (_validate_format_hour (exit_time r)) then
    (false, "Invalid exit time: '" +:+ exit_time r +:+
            "'. Use HH:MM format (00:00 - 23:59)")
  else
    match Activity.unpack_ints (entry_time r), Activity.unpack_ints (exit_time r) with
    | Some en, Some ex =>
        if negb (Activity.in_range en) then
          (false, "Entry time out of range (00:00 - 23:59)")
        else if negb (Activity.in_range ex) then
          (false, "Exit time out of range (00:00 - 23:59)")
        else (true, "Valid times")
    | _, _ => (false, "Error processing times")
    end.

(* report_model.py, lines 307-329 *)
Definition validate_required_fields (r : t) : bool * string :=
  if String.eqb (responsible r) EmptyString
     || String.eqb (Py.strip (responsible r)) EmptyString then
    (false, "Responsible name is required")
  else if String.eqb (student r) EmptyString
          || String.eqb (Py.strip (student r)) EmptyString then
    (false, "Student name is required")
  else if negb (Py.date_truthy (date r)) then
    (false, "Date is required")
  else if String.eqb (entry_time r) EmptyString then
    (false, "Entry time is required")
  else if String.eqb (exit_time r) EmptyString then
    (false, "Exit time is required")
  else (true, "All required fields complete").

(** The loop [for i, activity in enumerate(self.activities)] of
    [validate_activities], from position [i]. *)
Fixpoint validate_activities_from (fs : filesystem) (i : Z)
    (acts : list Activity.t) : bool * string :=
  match acts with
  | [] => (true, "All activities valid")
  | activity :: rest =>
      let '(valid, message) := Activity.complete_validate fs activity in
      if negb valid then
        (false, "Activity " +:+ Py.str_of_int (i + 1) +:+ " invalid: " +:+ message)
      else validate_activities_from fs (i + 1) rest
  end.

(* report_model.py, lines 331-346 *)
Definition validate_activities (fs : filesystem) (r : t) : bool * string :=
  if (length (activities r) =? 0)%nat then
    (false, "Report must contain at least one activity")
  else validate_activities_from fs 0 (activities r).

(* report_model.py, lines 348-370 *)
Definition complete_validate (fs : filesystem) (r : t) : bool * string :=
  let '(valid, message) := validate_required_fields r in
  if negb valid then (false, message)
  else
    let '(valid, message) := validate_times r in
    if negb valid then (false, message)
    else
      let '(valid, message) := validate_activities fs r in
      if negb valid then (false, message)
      else (true, "Valid report").

(* report_model.py, lines 423-433 *)
Definition get_activities_with_images (r : t) : list Activity.t :=
  filter (fun a => (0 < length (Activity.images a))%nat) (activities r).

(* report_model.py, lines 435-442 *)
Definition get_total_images_count (r : t) : Z :=
  sum (map (fun a => Z.of_nat (length (Activity.images a))) (activities r)).

(* report_model.py, lines 466-480 *)
Definition _calculate_average_duration (r : t) : t * string :=
  match activities r with
  | [] => (r, "00:00")
  | _ =>
      let total_minutes := sum (minutes_each (activities r)) in
      let avg_minutes := total_minutes / Z.of_nat (length (activities r)) in
      let hours := avg_minutes / 60 in
      let minutes := avg_minutes mod 60 in
      (set_activities r (refreshed (activities r)), Py.hhmm hours minutes)
  end.

(** [max(l, key=...)] and [min(l, key=...)] keep the first best item:
    [better k b] says that key [k] replaces the best key [b] so far. *)
Fixpoint first_best {A : Type} (better : Z -> Z -> bool) (best : A * Z)
    (l : list (A * Z)) : A :=
  match l with
  | [] => fst best
  | x :: rest =>
      if better (snd x) (snd best) then first_best better x rest
      else first_best better best rest
  end.

Definition keyed (acts : list Activity.t) : list (Activity.t * Z) :=
  map Activity.get_duration_in_minutes acts.

(* report_model.py, lines 482-491 *)
Definition _get_longest_activity (r : t) : t * option string :=
  match keyed (activities r) with
  | [] => (r, None)
  | x :: rest =>
      (set_activities r (refreshed (activities r)),
       Some (Activity.title (first_best (fun k b => b <? k) x rest)))
  end.

(* report_model.py, lines 493-502 *)
Definition _get_shortest_activity (r : t) : t * option string :=
  match keyed (activities r) with
  | [] => (r, None)
  | x :: rest =>
      (set_activities r (refreshed (activities r)),
       Some (Activity.title (first_best (fun k b => k <? b) x rest)))
  end.

Definition opt_str (o : option string) : Py.pyval :=
  match o with
  | Some s => Py.PStr s
  | None => Py.PNone
  end.

(* report_model.py, lines 448-464 *)
Definition get_statistics (r : t) : t * Py.pydict :=
  let n := Z.of_nat (length (activities r)) in
  let '(r, total) := calculate_total_activity_hours r in
  let '(r, ih) := instance_hours r in
  let images := get_total_images_count r in
  let with_images := Z.of_nat (length (get_activities_with_images r)) in
  let '(r, avg) := _calculate_average_duration r in
  let '(r, longest) := _get_longest_activity r in
  let '(r, shortest) := _get_shortest_activity r in
  (r, [("total_activities", Py.PInt n);
       ("total_activity_hours", Py.PStr total);
       ("instance_hours", Py.PStr ih);
       ("total_images", Py.PInt images);
       ("activities_with_images", Py.PInt with_images);
       ("average_activity_duration", Py.PStr avg);
       ("longest_activity", opt_str longest);
       ("shortest_activity", opt_str shortest)]%string).

(* report_model.py, lines 508-524 *)
Definition to_dict (r : t) : t * Py.pydict :=
  let '(r1, ih) := instance_hours r in
  let acts := map Activity.to_dict (activities r1) in
  let r2 := set_activities r1 (map fst acts) in
  let '(r3, stats) := get_statistics r2 in
  (r3, [("responsible", Py.PStr (responsible r));
       ("student", Py.PStr (student r));
       ("date", Py.PStr (Py.isoformat (date r)));
       ("entry_time", Py.PStr (entry_time r));
       ("exit_time", Py.PStr (exit_time r));
       ("instance_hours", Py.PStr ih);
       ("activities", Py.PList (map (fun x => Py.PDict (snd x)) acts));
       ("statistics", Py.PDict stats)]%string).

(** The date part of [from_dict]: the value for the constructor's
    [report_date]. *)
Definition parse_date (today : Py.date) (data : Py.pydict)
    : Py.outcome (option Py.date) :=
  let v := Py.dict_get data "date" Py.PNone in
  if Py.truthy v then
    match v with
    | Py.PStr s =>
        match Py.fromisoformat s with
        | Some d => Py.Returns (Some d)
        | None => Py.Returns (Some today)
        end
    | _ => Py.Raises (Py.TypeError "fromisoformat: argument must be str")
    end
  else Py.Returns None.

(** The activities part of [from_dict]. *)
Definition parse_activities (data : Py.pydict) : Py.outcome (list Activity.t) :=
  let v := Py.dict_get data "activities" Py.PNone in
  if Py.truthy v then
    match Py.iterate v with
    | Py.Returns items => Py.collect (map Activity.from_dict items)
    | Py.Raises e => Py.Raises e
    | Py.IllTyped => Py.IllTyped
    end
  else Py.Returns [].

(** [Report.from_dict(data)]; [data] is any value of the document. *)
(* report_model.py, lines 526-560 *)
Definition from_dict (today : Py.date) (data : Py.pyval) : Py.outcome t :=
  match data with
  | Py.PDict d =>
      match parse_date today d with
      | Py.Raises e => Py.Raises e
      | Py.IllTyped => Py.IllTyped
      | Py.Returns report_date =>
          match parse_activities d with
          | Py.Raises e => Py.Raises e
          | Py.IllTyped => Py.IllTyped
          | Py.Returns acts =>
              match Py.as_str (Py.dict_get d "responsible" (Py.PStr EmptyString)),
                    Py.as_str (Py.dict_get d "student" (Py.PStr EmptyString)),
                    Py.as_str (Py.dict_get d "entry_time" (Py.PStr "00:00")),
                    Py.as_str (Py.dict_get d "exit_time" (Py.PStr "00:00")) with
              | Py.Returns re, Py.Returns st, Py.Returns en, Py.Returns ex =>
                  Py.Returns (init today re st report_date en ex (Some acts))
              | _, _, _, _ => Py.IllTyped
              end
          end
      end
  | v => Py.Raises (Py.no_attribute v "get")
  end.

(** The files [from_json] may open: a path holds the value [json.load]
    reads from it, or [None] when its text is not JSON. *)
Abbreviation documents := (gmap string (option Py.pyval)).

(* report_model.py, lines 579-600 *)
Definition from_json (today : Py.date) (files : documents) (filepath : string)
    : Py.outcome (option t * string) :=
  match files !! filepath with
  | None => Py.Returns (None, "File not found")
  | Some None => Py.Returns (None, "Invalid JSON format")
  | Some (Some data) =>
      match from_dict today data with
      | Py.Returns report =>
          Py.Returns (Some report, "Report loaded from " +:+ filepath)
      | Py.Raises e =>
          Py.Returns (None, "Error loading report: " +:+ Py.exn_message e)
      | Py.IllTyped => Py.IllTyped
      end
  end.

(* report_model.py, lines 227-239 *)
Definition get_activity (r : t) (index : Z) : option Activity.t :=
  if (0 <=? index) && (index <? Z.of_nat (length (activities r)))
  then activities r !! Z.to_nat index
  else None.

(* report_model.py, lines 241-248 *)
Definition get_activity_count (r : t) : Z := Z.of_nat (length (activities r)).

(* report_model.py, lines 250-252 *)
Definition clear_activities (r : t) : t := set_activities r [].

(* report_model.py, lines 372-380 *)
Definition is_valid (fs : filesystem) (r : t) : bool :=
  fst (complete_validate fs r).

(* report_model.py, lines 386-400 *)
Definition find_activities_by_title (r : t) (title : string) : list Activity.t :=
  let title_lower := Py.lower title in
  filter (fun activity =>
            Is_true (Py.is_substring title_lower (Py.lower (Activity.title activity))))
         (activities r).

(* report_model.py, lines 402-421 *)
Definition find_activities_by_time_range (r : t) (start_time end_time : string)
    : list Activity.t :=
  filter (fun activity =>
            Is_true (Py.str_leb start_time (Activity.start_time activity)
                     && Py.str_leb (Activity.start_time activity) end_time))
         (activities r).

(* report_model.py, lines 562-577 *)
(** [open_error] is the environment: the text of the error [open(path,
    'w')] raises, or [None] when the file opens.  [json.dump] then writes
    the dictionary, which [json.load] reads back unchanged. *)
Definition to_json (open_error : string -> option string) (files : documents)
    (r : t) (filepath : string) : t * documents * (bool * string) :=
  match open_error filepath with
  | Some e => (r, files, (false, "Error saving report: " +:+ e))
  | None =>
      let '(r', d) := to_dict r in
      (r', <[filepath := Some (Py.PDict d)]> files,
       (true, "Report saved to " +:+ filepath))
  end.

(* report_model.py, lines 602-609 *)
Definition copy (today : Py.date) (r : t) : t * Py.outcome t :=
  let '(r', d) := to_dict r in
  (r', from_dict today (Py.PDict d)).

(* report_model.py, lines 636-648 *)
(** [self == other] for two reports: the activities are compared by
    their number only. *)
Definition eq (self other : t) : bool :=
  String.eqb (responsible self) (responsible other)
  && String.eqb (student self) (student other)
  && Py.date_eqb (date self) (date other)
  && String.eqb (entry_time self) (entry_time other)
  && String.eqb (exit_time self) (exit_time other)
  && (length (activities self) =? length (activities other))%nat.

End Report.

(** * The words of the specification *)

(** ** Times and durations *)

(** A time in the strict form HH:MM: two digits, a colon, two digits,
    hours 00-23 and minutes 00-59. *)
Definition strict_HHMM (s : string) (h m : Z) : Prop :=
  exists h1 h2 m1 m2 : ascii,
    s = String h1 (String h2 (String ":" (String m1 (String m2 EmptyString))))
    /\ Py.is_digit h1 = true /\ Py.is_digit h2 = true
    /\ Py.is_digit m1 = true /\ Py.is_digit m2 = true
    /\ h = 10 * Py.digit_val h1 + Py.digit_val h2 /\ h <= 23
    /\ m = 10 * Py.digit_val m1 + Py.digit_val m2 /\ m <= 59.

(** A time [%H:%M] accepts, with hour and minute in range. *)
Definition well_formed_time (s : string) : Prop :=
  exists h m, Py.strptime_HM s = Some (h, m) /\ 0 <= h <= 23 /\ 0 <= m <= 59.

(** [F] is one or two digits that read [v], at most [bound]. *)
Definition time_field (F : string) (v bound : Z) : Prop :=
  (String.length F = 1%nat \/ String.length F = 2%nat)
  /\ Py.all_digits F = true
  /\ Py.digits_value 0 F = v
  /\ v <= bound.

(** What [%H:%M] makes of two fields of one or two digits. *)
Definition parse_of_fields (H M : string) : option (Z * Z) :=
  if (Py.digits_value 0 H <=? 23) && (Py.digits_value 0 M <=? 59)
  then Some (Py.digits_value 0 H, Py.digits_value 0 M)
  else None.

(** Minutes since midnight *)
Definition minute_of_day (hm : Z * Z) : Z := 60 * fst hm + snd hm.

(** Minutes from [a] to [b] on the clock, [b] on the next day when it is
    not after [a]. *)
Definition elapsed (a b : Z) : Z := if a <? b then b - a else b + 24 * 60 - a.

(** Whole minutes as zero-padded hours and minutes, the hours unbounded. *)
Definition fmt_minutes (n : Z) : string := Py.hhmm (n / 60) (n mod 60).

(** [s] is [w] digits that read [v]. *)
Definition fixed_digits (w : nat) (s : string) (v : Z) : bool :=
  (String.length s =? w)%nat && Py.all_digits s && (Py.digits_value 0 s =? v).

(** The shapes of the strings [%H:%M] accepts. *)
Inductive time_shape : string -> Prop :=
  | shape_1_1 c1 c3 :
      Py.is_digit c1 = true -> Py.is_digit c3 = true ->
      time_shape (String c1 (String ":" (String c3 EmptyString)))
  | shape_1_2 c1 c3 c4 :
      Py.is_digit c1 = true -> Py.is_digit c3 = true -> Py.is_digit c4 = true ->
      time_shape (String c1 (String ":" (String c3 (String c4 EmptyString))))
  | shape_2_1 c1 c2 c3 :
      Py.is_digit c1 = true -> Py.is_digit c2 = true -> Py.is_digit c3 = true ->
      time_shape (String c1 (String c2 (String ":" (String c3 EmptyString))))
  | shape_2_2 c1 c2 c3 c4 :
      Py.is_digit c1 = true -> Py.is_digit c2 = true ->
      Py.is_digit c3 = true -> Py.is_digit c4 = true ->
      time_shape (String c1 (String c2 (String ":" (String c3 (String c4 EmptyString))))).

(** What is checked, by enumeration of the digits, of every string of one
    of these shapes: when it parses, the hour and minute are in range,
    [split] and [int] read the same two numbers, and it is not blank. *)
Definition time_props (s : string) : bool :=
  match Py.strptime_HM s with
  | Some hm =>
      Activity.in_range hm
      && bool_decide (Activity.unpack_ints s = Some hm)
      && negb (String.eqb (Py.strip s) EmptyString)
  | None => true
  end.

Definition digits10 : list ascii :=
  ["0"; "1"; "2"; "3"; "4"; "5"; "6"; "7"; "8"; "9"]%char.

(** ** Statistics *)

(** An activity's duration-in-minutes, and their total over a list. *)
Definition duration_minutes (a : Activity.t) : Z :=
  snd (Activity.get_duration_in_minutes a).

Fixpoint total_minutes (acts : list Activity.t) : Z :=
  match acts with
  | [] => 0
  | a :: rest => duration_minutes a + total_minutes rest
  end.

(** The images of all the activities of a list, counted. *)
Fixpoint total_images (acts : list Activity.t) : Z :=
  match acts with
  | [] => 0
  | a :: rest => Z.of_nat (length (Activity.images a)) + total_images rest
  end.

(** ** Round trips *)

(** What [from_dict] rebuilds from the dictionary of an activity. *)
Definition reloaded (a : Activity.t) : Activity.t :=
  Activity.init (Activity.title a) (Activity.description a)
    (Activity.start_time a) (Activity.end_time a) (Some (Activity.images a)).

(** The fields of an activity that a round trip keeps. *)
Definition same_activity (a b : Activity.t) : Prop :=
  Activity.title b = Activity.title a
  /\ Activity.description b = Activity.description a
  /\ Activity.start_time b = Activity.start_time a
  /\ Activity.end_time b = Activity.end_time a
  /\ Activity.images b = Activity.images a.

(** [s] starts with four decimal digits, as every ISO date does. *)
Definition starts_with_year (s : string) : bool :=
  (4 <=? String.length s)%nat && Py.all_digits (Py.str_take 4 s).

(** ** Images *)

(** A file [add_image] takes: it exists, its extension is allowed and it
    is at most 10 MB. *)
Definition image_ok (fs : filesystem) (p : string) : Prop :=
  is_Some (fs !! p)
  /\ Activity.allowed_extension p = true
  /\ getsize fs p <= Activity.MAX_SIZE_IMAGE_MB * (1024 * 1024).

(** At most five images, each one [add_image] would take. *)
Definition images_within_limits (fs : filesystem) (a : Activity.t) : Prop :=
  Z.of_nat (length (Activity.images a)) <= Activity.MAX_IMAGES
  /\ Forall (image_ok fs) (Activity.images a).

(** ** Concrete objects *)

(** A file system with one image of 11 MB, and an activity that holds it. *)
Definition big_image_fs : filesystem := {[ "big.png" := 11 * 1024 * 1024 ]}.

Definition big_image_activity : Activity.t :=
  Activity.init "Reading" "Notes" "09:00" "11:30" (Some ["big.png"]).

(** A report with no activity and a blank responsible. *)
Definition blank_report : Report.t :=
  Report.init (Py.mkdate 2024 1 1) " " "Student" None "08:00" "17:00" None.

(** Two activities that last 02:30 and 01:30, and three that last 100
    minutes together. *)
Definition two_activities : Report.t :=
  Report.init (Py.mkdate 2024 1 1) "Dr. Smith" "John" None "08:00" "17:00"
    (Some [Activity.init "Reading" "Notes" "09:00" "11:30" None;
           Activity.init "Writing" "Draft" "13:00" "14:30" None]).

Definition three_activities : Report.t :=
  Report.init (Py.mkdate 2024 1 1) "Dr. Smith" "John" None "08:00" "17:00"
    (Some [Activity.init "A" "a" "09:00" "09:33" None;
           Activity.init "B" "b" "10:00" "10:33" None;
           Activity.init "C" "c" "11:00" "11:34" None]).

(** A file system with two small images, and a report whose first
    activity holds both. *)
Definition small_image_fs : filesystem :=
  {[ "a.png" := 1000; "b.jpg" := 2000 ]}.

Definition one_image_activity : Activity.t :=
  Activity.init "Reading" "Notes" "09:00" "11:30" (Some ["a.png"]).

Definition illustrated_report : Report.t :=
  Report.init (Py.mkdate 2024 1 1) "Dr. Smith" "John" None "08:00" "17:00"
    (Some [Activity.init "Reading" "Notes" "09:00" "11:30"
             (Some ["a.png"; "b.jpg"]);
           Activity.init "Writing" "Draft" "13:00" "14:30" None]).

(** A report whose entry time has one digit for the hour and one for the
    minute, and a report whose activity starts at such a time. *)
Definition unpadded_report : Report.t :=
  Report.init (Py.mkdate 2024 1 1) "Dr. Smith" "John" None "9:5" "17:00"
    (Some [Activity.init "Reading" "Notes" "09:00" "11:30" None]).

Definition unpadded_start_report : Report.t :=
  Report.init (Py.mkdate 2024 1 1) "Dr. Smith" "John" None "08:00" "17:00"
    (Some [Activity.init "Reading" "Notes" "9:30" "11:30" None]).

(** A saved report whose date is the number 20240101, one whose date is
    not a date, and the files that hold them. *)
Definition numeric_date_document : Py.pyval :=
  Py.PDict [("responsible", Py.PStr "Dr. Smith"); ("student", Py.PStr "John");
            ("date", Py.PInt 20240101); ("entry_time", Py.PStr "08:00");
            ("exit_time", Py.PStr "17:00"); ("activities", Py.PList [])].

Definition not_a_date_document : Py.pyval :=
  Py.PDict [("responsible", Py.PStr "Dr. Smith"); ("student", Py.PStr "John");
            ("date", Py.PStr "not-a-date"); ("entry_time", Py.PStr "08:00");
            ("exit_time", Py.PStr "17:00")].

Definition saved_files : Report.documents :=
  {[ "numeric.json" := Some numeric_date_document;
     "text.json" := Some not_a_date_document ]}.

(** * The time parser *)

Section Digits.

Lemma is_digit_digits10 c : Py.is_digit c = true -> c ∈ digits10.
Proof.
  destruct c as [[] [] [] [] [] [] [] []]; try discriminate; intros _;
    unfold digits10; set_solver.
Qed.

Lemma forall_digit (P : ascii -> bool) :
  forallb P digits10 = true -> forall c, Py.is_digit c = true -> P c = true.
Proof.
  intros H c Hc. rewrite forallb_forall in H.
  apply H, list_elem_of_In, is_digit_digits10, Hc.
Qed.

Lemma forall_digit2 (P : ascii -> ascii -> bool) :
  forallb (fun a => forallb (P a) digits10) digits10 = true ->
  forall a b, Py.is_digit a = true -> Py.is_digit b = true -> P a b = true.
Proof.
  intros H a b Ha Hb.
  apply (forall_digit (P a)); [|done].
  by apply (forall_digit (fun a => forallb (P a) digits10)).
Qed.

Lemma forall_digit3 (P : ascii -> ascii -> ascii -> bool) :
  forallb (fun a => forallb (fun b => forallb (P a b) digits10) digits10)
          digits10 = true ->
  forall a b c, Py.is_digit a = true -> Py.is_digit b = true ->
                Py.is_digit c = true -> P a b c = true.
Proof.
  intros H a b c Ha Hb Hc.
  apply (forall_digit2 (P a)); [|done..].
  by apply (forall_digit
              (fun a => forallb (fun b => forallb (P a b) digits10) digits10)).
Qed.

Lemma forall_digit4 (P : ascii -> ascii -> ascii -> ascii -> bool) :
  forallb (fun a => forallb (fun b => forallb (fun c => forallb (P a b c)
             digits10) digits10) digits10) digits10 = true ->
  forall a b c d, Py.is_digit a = true -> Py.is_digit b = true ->
                  Py.is_digit c = true -> Py.is_digit d = true ->
                  P a b c d = true.
Proof.
  intros H a b c d Ha Hb Hc Hd.
  apply (forall_digit3 (P a)); [|done..].
  by apply (forall_digit
              (fun a => forallb (fun b => forallb (fun c => forallb (P a b c)
                 digits10) digits10) digits10)).
Qed.

End Digits.

Section TimeParser.

Lemma code_in_digit lo hi c :
  (48 <= lo)%N -> (hi <= 57)%N -> Py.code_in lo hi c = true -> Py.is_digit c = true.
Proof.
  unfold Py.code_in. intros Hlo Hhi H.
  apply andb_true_iff in H as [H1 H2].
  apply N.leb_le in H1, H2.
  assert (Hc : (48 <= N_of_ascii c <= 57)%N) by lia.
  rewrite <- (ascii_N_embedding c).
  destruct (N_of_ascii c) as [|p]; [lia|].
  do 6 (destruct p as [p|p|]; try lia; try reflexivity).
Qed.

Lemma time_props_shape s : time_shape s -> time_props s = true.
Proof.
  destruct 1 as [c1 c3 H1 H3|c1 c3 c4 H1 H3 H4|c1 c2 c3 H1 H2 H3
                |c1 c2 c3 c4 H1 H2 H3 H4].
  - revert c1 c3 H1 H3. apply forall_digit2. vm_compute. reflexivity.
  - revert c1 c3 c4 H1 H3 H4. apply forall_digit3. vm_compute. reflexivity.
  - revert c1 c2 c3 H1 H2 H3. apply forall_digit3. vm_compute. reflexivity.
  - revert c1 c2 c3 c4 H1 H2 H3 H4. apply forall_digit4. vm_compute. reflexivity.
Qed.

End TimeParser.

Ltac digit_facts :=
  repeat match goal with
  | H : _ && _ = true |- _ => apply andb_true_iff in H as [? ?]
  | H : Ascii.eqb _ _ = true |- _ => apply Ascii.eqb_eq in H; subst
  | H : Py.code_in _ _ _ = true |- _ => apply code_in_digit in H; [|lia..]
  | H : Py.is_digit ":" = true |- _ => discriminate H
  end.

Section TimeParserFacts.

Lemma re_match_HM_shape s h m :
  Py.re_match_HM s = Some (h, m, EmptyString) -> time_shape s.
Proof.
  unfold Py.re_match_HM, Py.re_H, Py.re_M.
  destruct s as [|c1 [|c2 [|c3 [|c4 [|c5 [|c6 s]]]]]];
    cbn -[Py.is_digit Py.code_in].
  all: repeat (case_match; cbn -[Py.is_digit Py.code_in] in * );
    try discriminate.
  all: intros; simplify_eq; digit_facts; try (constructor; done).
Qed.

Lemma strptime_HM_shape s hm : Py.strptime_HM s = Some hm -> time_shape s.
Proof.
  unfold Py.strptime_HM.
  destruct (Py.re_match_HM s) as [[[h m] rest]|] eqn:E; [|done].
  destruct (String.eqb_spec rest EmptyString) as [->|]; [|done].
  intros _. by eapply re_match_HM_shape.
Qed.

Lemma strptime_HM_props s hm :
  Py.strptime_HM s = Some hm ->
  Activity.in_range hm = true
  /\ Activity.unpack_ints s = Some hm
  /\ Py.strip s <> EmptyString.
Proof.
  intros H. pose proof (time_props_shape s (strptime_HM_shape s hm H)) as P.
  unfold time_props in P. rewrite H in P.
  apply andb_true_iff in P as [P P3]. apply andb_true_iff in P as [P1 P2].
  apply bool_decide_eq_true in P2.
  split; [done|]. split; [done|].
  intros E. rewrite E in P3. discriminate.
Qed.

Lemma strptime_HM_range s h m :
  Py.strptime_HM s = Some (h, m) -> 0 <= h <= 23 /\ 0 <= m <= 59.
Proof.
  intros H. apply strptime_HM_props in H as [H _].
  unfold Activity.in_range in H. simpl in H.
  repeat (apply andb_true_iff in H as [H ?]). lia.
Qed.

Lemma strptime_HM_nonempty s hm :
  Py.strptime_HM s = Some hm -> String.eqb s EmptyString = false.
Proof. destruct s; [discriminate|reflexivity]. Qed.

(** Every time in the strict form HH:MM is accepted, with its value. *)
Lemma strict_HHMM_parses s h m :
  strict_HHMM s h m -> Py.strptime_HM s = Some (h, m).
Proof.
  intros (h1 & h2 & m1 & m2 & -> & H1 & H2 & H3 & H4 & -> & Hh & -> & Hm).
  pose (P := fun h1 h2 m1 m2 : ascii =>
    let h := 10 * Py.digit_val h1 + Py.digit_val h2 in
    let m := 10 * Py.digit_val m1 + Py.digit_val m2 in
    negb ((h <=? 23) && (m <=? 59))
    || bool_decide
         (Py.strptime_HM
            (String h1 (String h2 (String ":" (String m1 (String m2 EmptyString)))))
          = Some (h, m))).
  assert (HP : P h1 h2 m1 m2 = true).
  { revert H1 H2 H3 H4. apply forall_digit4. vm_compute. reflexivity. }
  unfold P in HP. cbv zeta in HP.
  apply orb_true_iff in HP as [HP|HP].
  - apply negb_true_iff, andb_false_iff in HP as [HP|HP];
      apply Z.leb_gt in HP; lia.
  - by apply bool_decide_eq_true in HP.
Qed.

Lemma _validate_format_hour_Some s hm :
  Py.strptime_HM s = Some hm -> Activity._validate_format_hour s = true.
Proof.
  intros H. unfold Activity._validate_format_hour.
  by rewrite (strptime_HM_nonempty s hm H), H.
Qed.

Lemma _validate_format_hour_true s :
  Activity._validate_format_hour s = true <-> is_Some (Py.strptime_HM s).
Proof.
  unfold Activity._validate_format_hour. split.
  - destruct (String.eqb s EmptyString); [done|].
    destruct (Py.strptime_HM s); [eauto|done].
  - intros [hm H]. by rewrite (strptime_HM_nonempty s hm H), H.
Qed.

Lemma _validate_format_hour_None s :
  Py.strptime_HM s = None -> Activity._validate_format_hour s = false.
Proof.
  intros H. unfold Activity._validate_format_hour. rewrite H.
  by destruct (String.eqb s EmptyString).
Qed.

(** The two classes share the test. *)
Lemma report_validate_format_hour s :
  Report._validate_format_hour s = Activity._validate_format_hour s.
Proof. reflexivity. Qed.

Lemma report_validate_format_hour_Some s hm :
  Py.strptime_HM s = Some hm -> Report._validate_format_hour s = true.
Proof. apply _validate_format_hour_Some. Qed.

Lemma report_validate_format_hour_None s :
  Py.strptime_HM s = None -> Report._validate_format_hour s = false.
Proof. apply _validate_format_hour_None. Qed.

(** The seconds arithmetic of the source, in minutes. *)
Lemma seconds_to_hhmm t1 t2 :
  let start := Py.seconds_of t1 in
  let end_ := Py.seconds_of t2 in
  let end_ := if end_ <=? start then end_ + Py.one_day else end_ in
  let d := elapsed (minute_of_day t1) (minute_of_day t2) in
  (end_ - start) / 3600 = d / 60 /\ ((end_ - start) mod 3600) / 60 = d mod 60.
Proof.
  destruct t1 as [h1 m1], t2 as [h2 m2].
  unfold Py.seconds_of, Py.one_day, elapsed, minute_of_day. cbn [fst snd].
  set (a := 60 * h1 + m1). set (b := 60 * h2 + m2).
  replace (h1 * 3600 + m1 * 60) with (60 * a) by lia.
  replace (h2 * 3600 + m2 * 60) with (60 * b) by lia.
  assert (E : forall d, (60 * d) / 3600 = d / 60
                        /\ ((60 * d) mod 3600) / 60 = d mod 60).
  { intros d. split.
    - change 3600 with (60 * 60). by rewrite Z.div_mul_cancel_l.
    - change 3600 with (60 * 60). rewrite Z.mul_mod_distr_l by lia.
      rewrite Z.mul_comm. by rewrite Z.div_mul. }
  destruct (Z.leb_spec (60 * b) (60 * a)); destruct (Z.ltb_spec a b); try lia.
  - replace (60 * b + 86400 - 60 * a) with (60 * (b + 24 * 60 - a)) by lia.
    apply E.
  - replace (60 * b - 60 * a) with (60 * (b - a)) by lia. apply E.
Qed.

Lemma elapsed_bounds t1 t2 :
  Activity.in_range t1 = true -> Activity.in_range t2 = true ->
  0 < elapsed (minute_of_day t1) (minute_of_day t2) <= 24 * 60.
Proof.
  destruct t1 as [h1 m1], t2 as [h2 m2].
  unfold Activity.in_range, elapsed, minute_of_day. cbn [fst snd].
  intros H1 H2.
  repeat (apply andb_true_iff in H1 as [H1 ?]).
  repeat (apply andb_true_iff in H2 as [H2 ?]).
  destruct (Z.ltb_spec (60 * h1 + m1) (60 * h2 + m2)); lia.
Qed.

Lemma calculate_duration_Some a t1 t2 :
  Py.strptime_HM (Activity.start_time a) = Some t1 ->
  Py.strptime_HM (Activity.end_time a) = Some t2 ->
  let d := elapsed (minute_of_day t1) (minute_of_day t2) in
  Activity.calculate_duration a = Activity.store a (fmt_minutes d).
Proof.
  intros H1 H2 d. unfold Activity.calculate_duration.
  rewrite (_validate_format_hour_Some _ _ H1), (_validate_format_hour_Some _ _ H2).
  cbn [negb]. rewrite H1, H2.
  destruct (seconds_to_hhmm t1 t2) as [-> ->]. reflexivity.
Qed.

Lemma calculate_instance_hours_Some r t1 t2 :
  Py.strptime_HM (Report.entry_time r) = Some t1 ->
  Py.strptime_HM (Report.exit_time r) = Some t2 ->
  let d := elapsed (minute_of_day t1) (minute_of_day t2) in
  Report.calculate_instance_hours r = Report.store r (fmt_minutes d).
Proof.
  intros H1 H2 d. unfold Report.calculate_instance_hours.
  rewrite (report_validate_format_hour_Some _ _ H1),
          (report_validate_format_hour_Some _ _ H2).
  cbn [negb]. rewrite H1, H2.
  destruct (seconds_to_hhmm t1 t2) as [-> ->]. reflexivity.
Qed.

End TimeParserFacts.

(** * Durations (C1, C2, C3) *)

Section Durations.

Lemma calculate_duration_None a :
  Py.strptime_HM (Activity.start_time a) = None
  \/ Py.strptime_HM (Activity.end_time a) = None ->
  exists msg,
    (msg = "Invalid start time" \/ msg = "Invalid end time")
    /\ Activity.calculate_duration a = Activity.store a msg.
Proof.
  intros H. unfold Activity.calculate_duration.
  destruct (Activity._validate_format_hour (Activity.start_time a)) eqn:E1; cbn [negb].
  - destruct H as [H|H].
    + apply _validate_format_hour_None in H. congruence.
    + rewrite (_validate_format_hour_None _ H). cbn [negb]. eauto.
  - eauto.
Qed.

Lemma calculate_instance_hours_None r :
  Py.strptime_HM (Report.entry_time r) = None
  \/ Py.strptime_HM (Report.exit_time r) = None ->
  exists msg,
    (msg = "Invalid entry time" \/ msg = "Invalid exit time")
    /\ Report.calculate_instance_hours r = Report.store r msg.
Proof.
  intros H. unfold Report.calculate_instance_hours.
  destruct (Report._validate_format_hour (Report.entry_time r)) eqn:E1; cbn [negb].
  - destruct H as [H|H].
    + apply report_validate_format_hour_None in H. congruence.
    + rewrite (report_validate_format_hour_None _ H). cbn [negb]. eauto.
  - eauto.
Qed.

(** C1. For well-formed 24-hour times [s] and [e] (anything [%H:%M]
    accepts, the strict form HH:MM included by [strict_HHMM_parses]),
    with [a] and [b] their minutes since midnight: when [a < b] the
    duration is [b - a] minutes written as zero-padded hours and minutes;
    when [b <= a] it is [b + 24h - a], which is positive; the rule is the
    same for [Activity.calculate_duration] and
    [Report.calculate_instance_hours], and the value is stored as well as
    returned.  From 09:00 to 11:30 is 02:30, from 23:00 to 01:00 is 02:00,
    and the hour field passes 23 from 00:00 to 00:00. *)
Theorem C1_duration_rule (s e : string) (t1 t2 : Z * Z) :
  Py.strptime_HM s = Some t1 ->
  Py.strptime_HM e = Some t2 ->
  let a := minute_of_day t1 in
  let b := minute_of_day t2 in
  (a < b ->
     (forall act, Activity.start_time act = s -> Activity.end_time act = e ->
        Activity.calculate_duration act
        = (Activity.set__duration act (fmt_minutes (b - a)), fmt_minutes (b - a)))
     /\ (forall r, Report.entry_time r = s -> Report.exit_time r = e ->
        Report.calculate_instance_hours r
        = (Report.set__instance_hours r (fmt_minutes (b - a)), fmt_minutes (b - a))))
  /\ (b <= a ->
     0 < b + 24 * 60 - a
     /\ (forall act, Activity.start_time act = s -> Activity.end_time act = e ->
        Activity.calculate_duration act
        = (Activity.set__duration act (fmt_minutes (b + 24 * 60 - a)),
           fmt_minutes (b + 24 * 60 - a)))
     /\ (forall r, Report.entry_time r = s -> Report.exit_time r = e ->
        Report.calculate_instance_hours r
        = (Report.set__instance_hours r (fmt_minutes (b + 24 * 60 - a)),
           fmt_minutes (b + 24 * 60 - a))))
  /\ snd (Activity.calculate_duration
            (Activity.mk "t" "d" "09:00" "11:30" [] EmptyString)) = "02:30"
  /\ snd (Activity.calculate_duration
            (Activity.mk "t" "d" "23:00" "01:00" [] EmptyString)) = "02:00"
  /\ snd (Activity.calculate_duration
            (Activity.mk "t" "d" "00:00" "00:00" [] EmptyString)) = "24:00".
Proof.
  intros Hs He a b.
  pose proof (proj1 (strptime_HM_props _ _ Hs)) as R1.
  pose proof (proj1 (strptime_HM_props _ _ He)) as R2.
  pose proof (elapsed_bounds _ _ R1 R2) as B.
  fold a b in B. unfold elapsed in B.
  assert (A : forall act, Activity.start_time act = s -> Activity.end_time act = e ->
            Activity.calculate_duration act = Activity.store act (fmt_minutes (elapsed a b))).
  { intros act <- <-. by apply calculate_duration_Some. }
  assert (R : forall r, Report.entry_time r = s -> Report.exit_time r = e ->
            Report.calculate_instance_hours r = Report.store r (fmt_minutes (elapsed a b))).
  { intros r <- <-. by apply calculate_instance_hours_Some. }
  unfold elapsed in A, R.
  split; [|split].
  - intros Hlt. apply Z.ltb_lt in Hlt. rewrite Hlt in A, R. split; assumption.
  - intros Hle. apply Z.ltb_ge in Hle. rewrite Hle in A, R, B.
    split; [lia|]. split; assumption.
  - repeat split; reflexivity.
Qed.

Lemma C1_duration_rule_witness :
  Activity.calculate_duration (Activity.mk "t" "d" "09:00" "11:30" [] EmptyString)
  = (Activity.mk "t" "d" "09:00" "11:30" [] "02:30", "02:30")
  /\ Report.calculate_instance_hours
       (Report.mk "R" "S" (Py.mkdate 2024 1 1) "23:00" "01:00" [] EmptyString)
     = (Report.mk "R" "S" (Py.mkdate 2024 1 1) "23:00" "01:00" [] "02:00", "02:00").
Proof.
  split.
  - apply (proj1 (proj1 (C1_duration_rule "09:00" "11:30" (9, 0) (11, 30)
                           eq_refl eq_refl) ltac:(vm_compute; reflexivity)));
      reflexivity.
  - apply (proj2 (proj2 (proj1 (proj2 (C1_duration_rule "23:00" "01:00" (23, 0) (1, 0)
                           eq_refl eq_refl)) ltac:(vm_compute; discriminate))));
      reflexivity.
Defined.

(** Minutes are read back from a formatted duration. *)
Lemma minutes_of_fmt_minutes n :
  0 <= n <= 24 * 60 -> Activity.minutes_of_string (fmt_minutes n) = Some n.
Proof.
  intros Hn.
  assert (H : forallb (fun k => bool_decide
             (Activity.minutes_of_string (fmt_minutes k) = Some k))
             (seqZ 0 1441) = true) by (vm_compute; reflexivity).
  rewrite forallb_forall in H.
  eapply bool_decide_eq_true_1, H, list_elem_of_In, elem_of_seqZ. lia.
Qed.

Lemma contains_colon_fmt_minutes n :
  0 <= n <= 24 * 60 -> Py.contains ":" (fmt_minutes n) = true.
Proof.
  intros Hn.
  assert (H : forallb (fun k => Py.contains ":" (fmt_minutes k))
             (seqZ 0 1441) = true) by (vm_compute; reflexivity).
  rewrite forallb_forall in H.
  apply H, list_elem_of_In, elem_of_seqZ. lia.
Qed.

(** A stored sentinel, or an empty memo: the minutes are 0 while a time
    does not parse. *)
Lemma get_duration_in_minutes_unparsed a :
  Py.contains ":" (Activity._duration a) = false ->
  Py.strptime_HM (Activity.start_time a) = None
  \/ Py.strptime_HM (Activity.end_time a) = None ->
  exists msg,
    (msg = "Invalid start time" \/ msg = "Invalid end time")
    /\ Activity.get_duration_in_minutes a = (Activity.set__duration a msg, 0).
Proof.
  intros Hc H. destruct (calculate_duration_None a H) as (msg & Hm & E).
  exists msg. split; [done|].
  unfold Activity.get_duration_in_minutes. rewrite Hc, orb_true_r, E.
  cbn [negb fst Activity.store Activity._duration Activity.set__duration].
  by destruct Hm as [-> | ->].
Qed.

Lemma get_instance_hours_in_minutes_unparsed r :
  Py.contains ":" (Report._instance_hours r) = false ->
  Py.strptime_HM (Report.entry_time r) = None
  \/ Py.strptime_HM (Report.exit_time r) = None ->
  exists msg,
    (msg = "Invalid entry time" \/ msg = "Invalid exit time")
    /\ Report.get_instance_hours_in_minutes r
       = (Report.set__instance_hours r msg, 0).
Proof.
  intros Hc H. destruct (calculate_instance_hours_None r H) as (msg & Hm & E).
  exists msg. split; [done|].
  unfold Report.get_instance_hours_in_minutes. rewrite Hc, orb_true_r, E.
  cbn [negb fst Report.store Report._instance_hours Report.set__instance_hours].
  by destruct Hm as [-> | ->].
Qed.

(** C2. When a time does not parse as [%H:%M], the calculation raises
    nothing: it stores and returns a sentinel (which names the first time
    that failed), and the minutes read from the object that holds the
    sentinel are 0.  The same holds of [Report.calculate_instance_hours]
    and [Report.get_instance_hours_in_minutes].  A memo that has a colon
    but is not two integers reads as 0 minutes too. *)
Theorem C2_parse_failure_gives_sentinel :
  (forall a : Activity.t,
     Py.strptime_HM (Activity.start_time a) = None
     \/ Py.strptime_HM (Activity.end_time a) = None ->
     exists msg,
       (msg = "Invalid start time" \/ msg = "Invalid end time")
       /\ Activity.calculate_duration a = (Activity.set__duration a msg, msg)
       /\ Activity._duration (fst (Activity.calculate_duration a)) = msg
       /\ snd (Activity.get_duration_in_minutes
                 (fst (Activity.calculate_duration a))) = 0)
  /\ (forall r : Report.t,
     Py.strptime_HM (Report.entry_time r) = None
     \/ Py.strptime_HM (Report.exit_time r) = None ->
     exists msg,
       (msg = "Invalid entry time" \/ msg = "Invalid exit time")
       /\ Report.calculate_instance_hours r = (Report.set__instance_hours r msg, msg)
       /\ Report._instance_hours (fst (Report.calculate_instance_hours r)) = msg
       /\ snd (Report.get_instance_hours_in_minutes
                 (fst (Report.calculate_instance_hours r))) = 0)
  /\ (forall a : Activity.t,
     Py.contains ":" (Activity._duration a) = true ->
     Activity.minutes_of_string (Activity._duration a) = None ->
     Activity.get_duration_in_minutes a = (a, 0))
  /\ (forall r : Report.t,
     Py.contains ":" (Report._instance_hours r) = true ->
     Activity.minutes_of_string (Report._instance_hours r) = None ->
     Report.get_instance_hours_in_minutes r = (r, 0)).
Proof.
  split; [|split; [|split]].
  - intros a H. destruct (calculate_duration_None a H) as (msg & Hm & E).
    exists msg. rewrite E. cbn [fst Activity.store].
    split; [done|]. split; [done|]. split; [done|].
    destruct (get_duration_in_minutes_unparsed (Activity.set__duration a msg))
      as (msg' & _ & E'); [by destruct Hm as [-> | ->]|done|].
    by rewrite E'.
  - intros r H. destruct (calculate_instance_hours_None r H) as (msg & Hm & E).
    exists msg. rewrite E. cbn [fst Report.store].
    split; [done|]. split; [done|]. split; [done|].
    destruct (get_instance_hours_in_minutes_unparsed
                (Report.set__instance_hours r msg))
      as (msg' & _ & E'); [by destruct Hm as [-> | ->]|done|].
    by rewrite E'.
  - intros a Hc Hp. unfold Activity.get_duration_in_minutes.
    rewrite Hc. cbn [negb]. rewrite orb_false_r.
    destruct (String.eqb_spec (Activity._duration a) EmptyString) as [E|_].
    + rewrite E in Hc. discriminate.
    + by rewrite Hc, Hp.
  - intros r Hc Hp. unfold Report.get_instance_hours_in_minutes.
    rewrite Hc. cbn [negb]. rewrite orb_false_r.
    destruct (String.eqb_spec (Report._instance_hours r) EmptyString) as [E|_].
    + rewrite E in Hc. discriminate.
    + by rewrite Hc, Hp.
Qed.

Lemma C2_parse_failure_gives_sentinel_witness :
  exists msg,
    (msg = "Invalid start time" \/ msg = "Invalid end time")
    /\ Activity.calculate_duration
         (Activity.mk "t" "d" "nine" "11:30" [] "02:30")
       = (Activity.set__duration
            (Activity.mk "t" "d" "nine" "11:30" [] "02:30") msg, msg)
    /\ Activity._duration
         (fst (Activity.calculate_duration
                 (Activity.mk "t" "d" "nine" "11:30" [] "02:30"))) = msg
    /\ snd (Activity.get_duration_in_minutes
              (fst (Activity.calculate_duration
                      (Activity.mk "t" "d" "nine" "11:30" [] "02:30")))) = 0.
Proof.
  apply (proj1 C2_parse_failure_gives_sentinel
           (Activity.mk "t" "d" "nine" "11:30" [] "02:30")).
  left. reflexivity.
Defined.

(** The [duration] property recomputes only when the memo is empty. *)
Lemma duration_memo a :
  Activity._duration a <> EmptyString -> Activity.duration a = (a, Activity._duration a).
Proof.
  intros H. unfold Activity.duration.
  by destruct (String.eqb_spec (Activity._duration a) EmptyString).
Qed.

Lemma instance_hours_memo r :
  Report._instance_hours r <> EmptyString ->
  Report.instance_hours r = (r, Report._instance_hours r).
Proof.
  intros H. unfold Report.instance_hours.
  by destruct (String.eqb_spec (Report._instance_hours r) EmptyString).
Qed.

(** C3. The code at the failing input: an activity built from 09:00 to
    11:30 whose [start_time] is then set to 10:00 still reads 02:30 from
    [duration], while the times give 01:30; a report built from 08:00 to
    17:00 whose [exit_time] is then set to 12:00 still reads 09:00 from
    [instance_hours], while the times give 04:00. *)
Theorem C3_stale_duration_after_assignment :
  snd (Activity.duration
         (Activity.set_start_time
            (Activity.init "t" "d" "09:00" "11:30" None) "10:00")) = "02:30"
  /\ snd (Activity.calculate_duration
            (Activity.set_start_time
               (Activity.init "t" "d" "09:00" "11:30" None) "10:00")) = "01:30"
  /\ snd (Report.instance_hours
            (Report.set_exit_time
               (Report.init (Py.mkdate 2024 1 1) "R" "S" None "08:00" "17:00" None)
               "12:00")) = "09:00"
  /\ snd (Report.calculate_instance_hours
            (Report.set_exit_time
               (Report.init (Py.mkdate 2024 1 1) "R" "S" None "08:00" "17:00" None)
               "12:00")) = "04:00".
Proof. repeat split; vm_compute; reflexivity. Qed.

End Durations.

(** * Validation (C4, C6) *)

Section Validation.

Variable fs : filesystem.

Lemma validate_images_from_true i paths :
  fst (Activity.validate_images_from fs i paths) = true <->
  Forall (fun p => path_exists fs p = true /\ Activity.allowed_extension p = true)
         paths.
Proof.
  revert i. induction paths as [|p rest IH]; intros i; cbn [Activity.validate_images_from].
  - split; [constructor|reflexivity].
  - destruct (path_exists fs p) eqn:E1; cbn [negb].
    + destruct (Activity.allowed_extension p) eqn:E2; cbn [negb].
      * rewrite IH. split; [by constructor|by inversion 1].
      * split; [discriminate|]. inversion 1 as [|? ? [_ ?] ?]; subst. congruence.
    + split; [discriminate|]. inversion 1 as [|? ? [? _] ?]; subst. congruence.
Qed.

(** The first image that fails is named by its position, counted from 1. *)
Lemma validate_images_from_first_failure i good bad rest :
  Forall (fun p => path_exists fs p = true /\ Activity.allowed_extension p = true)
         good ->
  path_exists fs bad = false \/ Activity.allowed_extension bad = false ->
  Activity.validate_images_from fs i (good ++ bad :: rest)
  = (false,
     if path_exists fs bad
     then "Image " +:+ Py.str_of_int (i + Z.of_nat (length good) + 1)
          +:+ " with invalid format"
     else "Image " +:+ Py.str_of_int (i + Z.of_nat (length good) + 1)
          +:+ " not found: " +:+ bad).
Proof.
  intros Hg Hb. revert i.
  induction Hg as [|p good [E1 E2] _ IH]; intros i.
  - cbn [app length Activity.validate_images_from]. rewrite Z.add_0_r.
    destruct (path_exists fs bad); cbn [negb]; [|reflexivity].
    destruct Hb as [Hb|Hb]; [discriminate|]. by rewrite Hb.
  - cbn [app Activity.validate_images_from]. rewrite E1, E2. cbn [negb].
    rewrite IH. rewrite length_cons.
    replace (i + 1 + Z.of_nat (length good) + 1)
      with (i + Z.of_nat (S (length good)) + 1) by lia.
    reflexivity.
Qed.

Lemma validate_images_true a :
  fst (Activity.validate_images fs a) = true <->
  Z.of_nat (length (Activity.images a)) <= Activity.MAX_IMAGES
  /\ Forall (fun p => path_exists fs p = true /\ Activity.allowed_extension p = true)
            (Activity.images a).
Proof.
  unfold Activity.validate_images.
  destruct (Z.ltb_spec Activity.MAX_IMAGES (Z.of_nat (length (Activity.images a)))).
  - split; [discriminate|]. intros [? _]. lia.
  - rewrite validate_images_from_true. split; [by split|by intros [_ ?]].
Qed.

(** The three checks of an activity, in their order. *)
Lemma activity_complete_validate_true a :
  fst (Activity.complete_validate fs a) = true <->
  fst (Activity.validate_required_fields a) = true
  /\ fst (Activity.validate_hours a) = true
  /\ fst (Activity.validate_images fs a) = true.
Proof.
  unfold Activity.complete_validate.
  destruct (Activity.validate_required_fields a) as [[] m1]; cbn [negb fst];
    [|split; [discriminate|by intros [? _]]].
  destruct (Activity.validate_hours a) as [[] m2]; cbn [negb fst];
    [|split; [discriminate|by intros (_ & ? & _)]].
  destruct (Activity.validate_images fs a) as [[] m3]; cbn [negb fst];
    [done|split; [discriminate|by intros (_ & _ & ?)]].
Qed.

(** What a valid activity guarantees about its images: the count, the
    presence of each path, its extension.  The size is not among them. *)
Lemma activity_complete_validate_images a :
  fst (Activity.complete_validate fs a) = true ->
  Z.of_nat (length (Activity.images a)) <= 5
  /\ forall p, p ∈ Activity.images a ->
       is_Some (fs !! p)
       /\ Py.lower (snd (Py.splitext p)) ∈ [".jpg"; ".jpeg"; ".png"].
Proof.
  intros H. apply activity_complete_validate_true in H as (_ & _ & H).
  apply validate_images_true in H as [Hn Hall]. split; [done|].
  intros p Hp. rewrite Forall_forall in Hall.
  destruct (Hall p Hp) as [E1 E2].
  split.
  - by apply bool_decide_eq_true in E1.
  - by apply bool_decide_eq_true in E2.
Qed.

Lemma validate_times_true r :
  fst (Report.validate_times r) = true <->
  is_Some (Py.strptime_HM (Report.entry_time r))
  /\ is_Some (Py.strptime_HM (Report.exit_time r)).
Proof.
  unfold Report.validate_times.
  destruct (Py.strptime_HM (Report.entry_time r)) as [t1|] eqn:E1.
  - rewrite (report_validate_format_hour_Some _ _ E1). cbn [negb].
    destruct (Py.strptime_HM (Report.exit_time r)) as [t2|] eqn:E2.
    + rewrite (report_validate_format_hour_Some _ _ E2). cbn [negb].
      destruct (strptime_HM_props _ _ E1) as (R1 & -> & _).
      destruct (strptime_HM_props _ _ E2) as (R2 & -> & _).
      rewrite R1, R2. cbn [negb fst]. split; eauto.
    + rewrite (report_validate_format_hour_None _ E2). cbn [negb fst].
      split; [discriminate|]. intros [_ [? ?]]. discriminate.
  - rewrite (report_validate_format_hour_None _ E1). cbn [negb fst].
    split; [discriminate|]. intros [[? ?] _]. discriminate.
Qed.

Lemma strip_empty s : s = EmptyString -> Py.strip s = EmptyString.
Proof. by intros ->. Qed.

Lemma blank_test s :
  String.eqb s EmptyString || String.eqb (Py.strip s) EmptyString = false <->
  Py.strip s <> EmptyString.
Proof.
  destruct (String.eqb_spec s EmptyString) as [->|Hs]; cbn [orb].
  - split; [discriminate|]. intros H. by destruct H.
  - destruct (String.eqb_spec (Py.strip s) EmptyString); split; done.
Qed.

Lemma report_required_fields_true r :
  fst (Report.validate_required_fields r) = true <->
  Py.strip (Report.responsible r) <> EmptyString
  /\ Py.strip (Report.student r) <> EmptyString
  /\ Report.entry_time r <> EmptyString
  /\ Report.exit_time r <> EmptyString.
Proof.
  unfold Report.validate_required_fields.
  destruct (String.eqb (Report.responsible r) EmptyString
            || String.eqb (Py.strip (Report.responsible r)) EmptyString) eqn:E1.
  { cbn [fst]. split; [discriminate|]. intros (H & _).
    apply blank_test in H. congruence. }
  apply blank_test in E1.
  destruct (String.eqb (Report.student r) EmptyString
            || String.eqb (Py.strip (Report.student r)) EmptyString) eqn:E2.
  { cbn [fst]. split; [discriminate|]. intros (_ & H & _).
    apply blank_test in H. congruence. }
  apply blank_test in E2. cbn [Py.date_truthy negb].
  destruct (String.eqb_spec (Report.entry_time r) EmptyString) as [E3|E3].
  { cbn [fst]. split; [discriminate|]. by intros (_ & _ & ? & _). }
  destruct (String.eqb_spec (Report.exit_time r) EmptyString) as [E4|E4].
  { cbn [fst]. split; [discriminate|]. by intros (_ & _ & _ & ?). }
  cbn [fst]. done.
Qed.

Lemma validate_activities_from_true i acts :
  fst (Report.validate_activities_from fs i acts) = true <->
  Forall (fun a => fst (Activity.complete_validate fs a) = true) acts.
Proof.
  revert i. induction acts as [|a rest IH]; intros i;
    cbn [Report.validate_activities_from].
  - split; [constructor|reflexivity].
  - destruct (Activity.complete_validate fs a) as [[] m] eqn:E; cbn [negb fst].
    + rewrite IH. split; [intros; constructor; [by rewrite E|done]|by inversion 1].
    + split; [discriminate|]. inversion 1 as [|? ? Ha ?]; subst.
      rewrite E in Ha. discriminate.
Qed.

Lemma validate_activities_true r :
  fst (Report.validate_activities fs r) = true <->
  Report.activities r <> []
  /\ Forall (fun a => fst (Activity.complete_validate fs a) = true)
            (Report.activities r).
Proof.
  unfold Report.validate_activities.
  destruct (Report.activities r) as [|a rest] eqn:E.
  - cbn. split; [discriminate|]. by intros [? _].
  - cbn [length Nat.eqb]. rewrite validate_activities_from_true.
    split; [by split|by intros [_ ?]].
Qed.

Lemma report_complete_validate_true r :
  fst (Report.complete_validate fs r) = true <->
  fst (Report.validate_required_fields r) = true
  /\ fst (Report.validate_times r) = true
  /\ fst (Report.validate_activities fs r) = true.
Proof.
  unfold Report.complete_validate.
  destruct (Report.validate_required_fields r) as [[] m1]; cbn [negb fst];
    [|split; [discriminate|by intros [? _]]].
  destruct (Report.validate_times r) as [[] m2]; cbn [negb fst];
    [|split; [discriminate|by intros (_ & ? & _)]].
  destruct (Report.validate_activities fs r) as [[] m3]; cbn [negb fst];
    [done|split; [discriminate|by intros (_ & _ & ?)]].
Qed.

End Validation.

(** C4. The code at the failing input: an activity whose only image
    exists, is a [.png] and weighs 11 MB passes [complete_validate],
    although [add_image] refuses the same file as too large. *)
Theorem C4_oversized_image_passes_validate :
  10 * 1024 * 1024 < getsize big_image_fs "big.png"
  /\ Activity.images big_image_activity = ["big.png"]
  /\ Activity.complete_validate big_image_fs big_image_activity
     = (true, "Valid activity")
  /\ snd (Activity.add_image big_image_fs
            (Activity.init "Reading" "Notes" "09:00" "11:30" None) "big.png")
     = (false, "Image too large (11.0MB). Maximum 10MB").
Proof. repeat split; vm_compute; reflexivity. Qed.

Lemma well_formed_time_parses s :
  well_formed_time s <-> is_Some (Py.strptime_HM s).
Proof.
  split.
  - intros (h & m & H & _). eauto.
  - intros [[h m] H]. exists h, m. split; [done|]. by apply strptime_HM_range in H.
Qed.

Lemma well_formed_time_not_blank s :
  well_formed_time s -> Py.strip s <> EmptyString /\ s <> EmptyString.
Proof.
  intros (h & m & H & _). split.
  - by apply strptime_HM_props in H as (_ & _ & ?).
  - apply strptime_HM_nonempty in H. intros ->. discriminate.
Qed.

(** What holds of [Report.complete_validate] for every report.  It
    passes exactly when responsible, student, entry time and exit time are
    not blank, the date is present (a date always is), both times are
    accepted by [%H:%M], there is an activity, and every activity passes
    [Activity.complete_validate].  The checks run in the order required
    fields, times, activities, and the first that fails gives the message.
    A report without activities fails whatever its other fields are, and
    the message asks for an activity when its other fields are valid. *)
Lemma report_complete_validate_spec (fs : filesystem) (r : Report.t) :
  (fst (Report.complete_validate fs r) = true <->
     Py.strip (Report.responsible r) <> EmptyString
     /\ Py.strip (Report.student r) <> EmptyString
     /\ Py.date_truthy (Report.date r) = true
     /\ Py.strip (Report.entry_time r) <> EmptyString
     /\ Py.strip (Report.exit_time r) <> EmptyString
     /\ well_formed_time (Report.entry_time r)
     /\ well_formed_time (Report.exit_time r)
     /\ Report.activities r <> []
     /\ Forall (fun a => fst (Activity.complete_validate fs a) = true)
               (Report.activities r))
  /\ (fst (Report.validate_required_fields r) = false ->
      Report.complete_validate fs r
      = (false, snd (Report.validate_required_fields r)))
  /\ (fst (Report.validate_required_fields r) = true ->
      fst (Report.validate_times r) = false ->
      Report.complete_validate fs r = (false, snd (Report.validate_times r)))
  /\ (fst (Report.validate_required_fields r) = true ->
      fst (Report.validate_times r) = true ->
      fst (Report.validate_activities fs r) = false ->
      Report.complete_validate fs r
      = (false, snd (Report.validate_activities fs r)))
  /\ (Report.activities r = [] -> fst (Report.complete_validate fs r) = false)
  /\ (Report.activities r = [] ->
      fst (Report.validate_required_fields r) = true ->
      fst (Report.validate_times r) = true ->
      Report.complete_validate fs r
      = (false, "Report must contain at least one activity")).
Proof.
  split; [|split; [|split; [|split; [|split]]]].
  - rewrite report_complete_validate_true, report_required_fields_true,
      validate_times_true, validate_activities_true,
      <- !well_formed_time_parses.
    split.
    + intros ((? & ? & ? & ?) & (W1 & W2) & ? & ?).
      pose proof (well_formed_time_not_blank _ W1) as [? _].
      pose proof (well_formed_time_not_blank _ W2) as [? _].
      repeat split; first [assumption|reflexivity].
    + intros (? & ? & _ & ? & ? & W1 & W2 & ? & ?).
      pose proof (well_formed_time_not_blank _ W1) as [_ ?].
      pose proof (well_formed_time_not_blank _ W2) as [_ ?].
      repeat split; assumption.
  - unfold Report.complete_validate.
    destruct (Report.validate_required_fields r) as [[] m1]; cbn [negb fst snd];
      [discriminate|reflexivity].
  - unfold Report.complete_validate.
    destruct (Report.validate_required_fields r) as [[] m1]; cbn [negb fst snd];
      [|discriminate].
    destruct (Report.validate_times r) as [[] m2]; cbn [negb fst snd];
      [discriminate|reflexivity].
  - unfold Report.complete_validate.
    destruct (Report.validate_required_fields r) as [[] m1]; cbn [negb fst snd];
      [|discriminate].
    destruct (Report.validate_times r) as [[] m2]; cbn [negb fst snd];
      [|discriminate].
    destruct (Report.validate_activities fs r) as [[] m3]; cbn [negb fst snd];
      [discriminate|reflexivity].
  - intros E. destruct (fst (Report.complete_validate fs r)) eqn:H; [|done].
    apply report_complete_validate_true in H as (_ & _ & H).
    apply validate_activities_true in H as [H _]. done.
  - intros E. unfold Report.complete_validate, Report.validate_activities.
    rewrite E.
    destruct (Report.validate_required_fields r) as [[] m1]; cbn [negb fst snd];
      [|discriminate].
    destruct (Report.validate_times r) as [[] m2]; cbn [negb fst snd];
      [|discriminate].
    reflexivity.
Qed.

(** C6.  A report whose entry time is 9:5, and which is otherwise in
    order, passes [validate_times] and [complete_validate], although 9:5
    is not a time in the form HH:MM that the claim, the docstrings
    ("Validates hour format HH:MM") and the messages of the check ("Use
    HH:MM format (00:00 - 23:59)") ask for: [%H:%M] also takes an hour or a
    minute of one digit.  The sibling [find_activities_by_time_range]
    counts on the form HH:MM: an activity that starts at 9:30 passes the
    validation and is not found between 08:00 and 10:00. *)
Theorem C6_unpadded_time_passes_validate :
  Report.entry_time unpadded_report = "9:5"
  /\ (forall h m, ~ strict_HHMM "9:5" h m)
  /\ Report._validate_format_hour "9:5" = true
  /\ Report.validate_times unpadded_report = (true, "Valid times")
  /\ Report.complete_validate ∅ unpadded_report = (true, "Valid report")
  /\ snd (Report.instance_hours unpadded_report) = "07:55"
  /\ Report.complete_validate ∅ unpadded_start_report = (true, "Valid report")
  /\ Report.find_activities_by_time_range unpadded_start_report "08:00" "10:00"
     = [].
Proof.
  split; [vm_compute; reflexivity|]. split.
  { intros h m (h1 & h2 & m1 & m2 & E & _). discriminate E. }
  repeat split; vm_compute; reflexivity.
Qed.


(** * Lists of images and of activities (C7, C10) *)

Section Reorder.

Lemma size_list_to_set_le (l : list Z) :
  (size (list_to_set l : gset Z) <= length l)%nat.
Proof.
  induction l as [|x l IH]; [by rewrite list_to_set_nil, size_empty|].
  rewrite list_to_set_cons, size_union_alt, size_singleton, length_cons.
  assert ((size ((list_to_set l : gset Z) ∖ {[x]}) <= size (list_to_set l : gset Z))%nat)
    by (apply subseteq_size; set_solver).
  lia.
Qed.

(** A list as long as its set of elements repeats nothing. *)
Lemma NoDup_of_size (l : list Z) :
  size (list_to_set l : gset Z) = length l -> NoDup l.
Proof.
  induction l as [|x l IH]; [constructor|].
  rewrite list_to_set_cons, length_cons. intros H.
  destruct (decide (x ∈ l)) as [Hin|Hnin].
  - assert (E : ({[x]} ∪ list_to_set l : gset Z) = list_to_set l) by set_solver.
    rewrite E in H. pose proof (size_list_to_set_le l). lia.
  - rewrite size_union, size_singleton in H by set_solver.
    constructor; [done|]. apply IH. lia.
Qed.

(** The two tests of [reorganize_images] say that the order is a
    permutation of the positions. *)
Lemma order_tests_permutation (n : nat) (o : list Z) :
  length o = n /\ list_to_set o = Activity.range_set n <->
  o ≡ₚ seqZ 0 (Z.of_nat n).
Proof.
  unfold Activity.range_set. split.
  - intros [Hlen Hset]. apply NoDup_Permutation.
    + apply NoDup_of_size. rewrite Hset, size_list_to_set by apply NoDup_seqZ.
      rewrite length_seqZ. lia.
    + apply NoDup_seqZ.
    + intros x. rewrite <- (elem_of_list_to_set (C := gset Z) x o), Hset.
      apply elem_of_list_to_set.
  - intros P. split.
    + rewrite P, length_seqZ. lia.
    + by rewrite P.
Qed.

Lemma index_in_range {A : Type} (l : list A) (i : Z) :
  0 <= i < Z.of_nat (length l) -> Py.index l i = l !! Z.to_nat i.
Proof.
  intros H. unfold Py.index.
  destruct (Z.leb_spec 0 i); [|lia].
  destruct (Z.ltb_spec i (Z.of_nat (length l))); [|lia]. reflexivity.
Qed.

Lemma index_all_in_range {A : Type} (l : list A) (o : list Z) (k : list A) :
  Forall (fun j => 0 <= j < Z.of_nat (length l)) o ->
  Forall2 (fun j p => Py.index l j = Some p) o k ->
  Forall2 (fun j p => l !! Z.to_nat j = Some p) o k.
Proof.
  intros R E. induction E as [|j p o' k' Hjp E IH]; [constructor|].
  inversion R as [|? ? Hj R']; subst.
  constructor; [by rewrite <- index_in_range|by apply IH].
Qed.

Lemma reorganize_images_spec a o :
  match Activity.reorganize_images a o with
  | (a', (true, _)) =>
      o ≡ₚ seqZ 0 (Z.of_nat (length (Activity.images a)))
      /\ a' = Activity.set_images a (Activity.images a')
      /\ Forall2 (fun j p => Activity.images a !! Z.to_nat j = Some p)
                 o (Activity.images a')
  | (a', (false, _)) =>
      ~ o ≡ₚ seqZ 0 (Z.of_nat (length (Activity.images a))) /\ a' = a
  end.
Proof.
  unfold Activity.reorganize_images.
  destruct (Nat.eqb_spec (length o) (length (Activity.images a))) as [Hlen|Hlen];
    cbn [negb].
  2:{ split; [|done]. intros P. apply order_tests_permutation in P as [? _]. done. }
  destruct (decide (list_to_set o = Activity.range_set (length (Activity.images a))))
    as [Hset|Hset].
  2:{ rewrite bool_decide_eq_false_2 by done. cbn [negb].
      split; [|done]. intros P. apply order_tests_permutation in P as [_ ?]. done. }
  rewrite bool_decide_eq_true_2 by done. cbn [negb].
  assert (P : o ≡ₚ seqZ 0 (Z.of_nat (length (Activity.images a))))
    by by apply order_tests_permutation.
  assert (R : Forall (fun j => 0 <= j < Z.of_nat (length (Activity.images a))) o).
  { rewrite Forall_forall. intros j Hj. rewrite P in Hj.
    apply elem_of_seqZ in Hj. lia. }
  destruct (mapM (Py.index (Activity.images a)) o) as [new_images|] eqn:E.
  - split; [done|]. split; [done|]. cbn [Activity.images Activity.set_images].
    apply mapM_Some_1 in E. by apply index_all_in_range.
  - exfalso. assert (S : is_Some (mapM (Py.index (Activity.images a)) o)).
    { apply mapM_is_Some_2. eapply Forall_impl; [exact R|].
      intros j Hj. cbn beta in Hj. cbn. rewrite index_in_range by done.
      apply lookup_lt_is_Some. lia. }
    rewrite E in S. by destruct S.
Qed.

End Reorder.

(** C7. [reorganize_images] succeeds exactly when the order is a
    permutation of the positions 0..N-1 of the images.  On success the
    image at each position [i] of the new list is the old image at
    position [new_order[i]], and nothing else changes; on failure the
    activity is unchanged.  An order of another length fails on the count,
    an order of the right length that omits or repeats a position fails on
    the indices. *)
Theorem C7_reorganize_images (a : Activity.t) (new_order : list Z) :
  let n := length (Activity.images a) in
  let a' := fst (Activity.reorganize_images a new_order) in
  let ok := fst (snd (Activity.reorganize_images a new_order)) in
  (ok = true <-> new_order ≡ₚ seqZ 0 (Z.of_nat n))
  /\ (ok = true ->
      length (Activity.images a') = n
      /\ (forall (i : nat) (j : Z), new_order !! i = Some j ->
            Activity.images a' !! i = Activity.images a !! Z.to_nat j)
      /\ a' = Activity.set_images a (Activity.images a'))
  /\ (ok = false -> a' = a)
  /\ (length new_order <> n ->
      Activity.reorganize_images a new_order
      = (a, (false, "Number of indices doesn't match")))
  /\ (length new_order = n -> ~ new_order ≡ₚ seqZ 0 (Z.of_nat n) ->
      Activity.reorganize_images a new_order = (a, (false, "Invalid indices"))).
Proof.
  intros n a' ok. subst n a' ok.
  pose proof (reorganize_images_spec a new_order) as S.
  destruct (Activity.reorganize_images a new_order) as [a' [ok msg]] eqn:E.
  cbn [fst snd].
  split; [|split; [|split; [|split]]].
  - destruct ok; [by split; [intros _; apply S|]|].
    split; [discriminate|]. intros P. by destruct S.
  - intros ->. destruct S as (P & Ha & F).
    split; [|split; [|done]].
    + rewrite <- (Forall2_length _ _ _ F), P, length_seqZ. lia.
    + intros i j Hi.
      destruct (Forall2_lookup_l _ _ _ _ _ F Hi) as (p & -> & Hp). by rewrite Hp.
  - intros ->. by destruct S.
  - intros Hlen. unfold Activity.reorganize_images in E.
    destruct (Nat.eqb_spec (length new_order) (length (Activity.images a)));
      [done|]. cbn [negb] in E. by inversion E.
  - intros Hlen HP. unfold Activity.reorganize_images in E.
    destruct (Nat.eqb_spec (length new_order) (length (Activity.images a)));
      [|done]. cbn [negb] in E.
    destruct (decide (list_to_set new_order
                      = Activity.range_set (length (Activity.images a)))) as [Hs|Hs].
    + exfalso. apply HP. by apply order_tests_permutation.
    + rewrite bool_decide_eq_false_2 in E by done. cbn [negb] in E. by inversion E.
Qed.

Lemma C7_reorganize_images_witness :
  Activity.reorganize_images
    (Activity.mk "t" "d" "09:00" "10:00" ["a.png"; "b.png"; "c.png"] "01:00")
    [0; 0; 1]
  = (Activity.mk "t" "d" "09:00" "10:00" ["a.png"; "b.png"; "c.png"] "01:00",
     (false, "Invalid indices")).
Proof.
  apply (proj2 (proj2 (proj2 (proj2
           (C7_reorganize_images
              (Activity.mk "t" "d" "09:00" "10:00" ["a.png"; "b.png"; "c.png"] "01:00")
              [0; 0; 1]))))).
  - reflexivity.
  - intros P. apply order_tests_permutation in P as [_ P].
    assert (H : 2 ∈ (list_to_set [0; 0; 1] : gset Z)).
    { rewrite P. unfold Activity.range_set. apply elem_of_list_to_set.
      apply elem_of_seqZ. cbn. lia. }
    apply elem_of_list_to_set in H. set_solver.
Defined.

Section Indices.

(** C10. A negative index is refused by every mutation that takes one,
    and the object is unchanged: the bounds test is [0 <= index < len], so
    an index is never counted from the end. *)
Theorem C10_negative_index_rejected (index : Z) :
  index < 0 ->
  (forall a, Activity.delete_image a index = (a, (false, "Invalid index")))
  /\ (forall r, Report.remove_activity r index = (r, (false, "Invalid index")))
  /\ (forall fs r updated,
        Report.edit_activity fs r index updated = (r, (false, "Invalid index")))
  /\ (forall r to_index,
        Report.move_activity r index to_index
        = (r, (false, "Invalid source index")))
  /\ (forall r from_index,
        fst (Report.move_activity r from_index index) = r
        /\ fst (snd (Report.move_activity r from_index index)) = false).
Proof.
  intros H. assert (E : (0 <=? index) = false) by by apply Z.leb_gt.
  split; [|split; [|split; [|split]]].
  - intros a. unfold Activity.delete_image. by rewrite E.
  - intros r. unfold Report.remove_activity. by rewrite E.
  - intros fs r u. unfold Report.edit_activity. by rewrite E.
  - intros r t. unfold Report.move_activity. by rewrite E.
  - intros r f. unfold Report.move_activity. rewrite E, andb_false_l. cbn [negb].
    by destruct (negb _).
Qed.

Lemma C10_negative_index_rejected_witness :
  Activity.delete_image
    (Activity.mk "t" "d" "09:00" "10:00" ["a.png"; "b.png"] "01:00") (-1)
  = (Activity.mk "t" "d" "09:00" "10:00" ["a.png"; "b.png"] "01:00",
     (false, "Invalid index")).
Proof.
  apply (proj1 (C10_negative_index_rejected (-1) ltac:(lia))).
Defined.

End Indices.

(** * Statistics (C9) *)

Section Statistics.

Lemma calculate_duration_set__duration a v :
  Activity.calculate_duration (Activity.set__duration a v)
  = (Activity.set__duration a (snd (Activity.calculate_duration a)),
     snd (Activity.calculate_duration a)).
Proof.
  unfold Activity.calculate_duration, Activity.store.
  cbn [Activity.start_time Activity.end_time Activity.set__duration].
  repeat case_match; reflexivity.
Qed.

Lemma calculate_duration_store a :
  Activity.calculate_duration a
  = Activity.store a (snd (Activity.calculate_duration a)).
Proof.
  unfold Activity.calculate_duration, Activity.store.
  repeat case_match; reflexivity.
Qed.

Lemma get_duration_in_minutes_fst a :
  fst (Activity.get_duration_in_minutes a)
  = if String.eqb (Activity._duration a) EmptyString
       || negb (Py.contains ":" (Activity._duration a))
    then fst (Activity.calculate_duration a) else a.
Proof. unfold Activity.get_duration_in_minutes. repeat case_match; reflexivity. Qed.

(** Reading the minutes twice gives the same object and the same value:
    the activity may occur several times in a list, or be read by several
    statistics. *)
Lemma get_duration_in_minutes_idem a :
  Activity.get_duration_in_minutes (fst (Activity.get_duration_in_minutes a))
  = Activity.get_duration_in_minutes a.
Proof.
  rewrite get_duration_in_minutes_fst.
  destruct (String.eqb (Activity._duration a) EmptyString
            || negb (Py.contains ":" (Activity._duration a))) eqn:E; [|done].
  unfold Activity.get_duration_in_minutes. rewrite E.
  rewrite (calculate_duration_store a). cbn [fst Activity.store].
  set (c := snd (Activity.calculate_duration a)).
  cbn [Activity._duration Activity.set__duration].
  destruct (String.eqb c EmptyString || negb (Py.contains ":" c)); [|done].
  rewrite calculate_duration_set__duration. by fold c.
Qed.

Lemma duration_minutes_refreshed a :
  duration_minutes (fst (Activity.get_duration_in_minutes a)) = duration_minutes a.
Proof. unfold duration_minutes. by rewrite get_duration_in_minutes_idem. Qed.

Lemma minutes_each_refreshed acts :
  Report.minutes_each (Report.refreshed acts) = Report.minutes_each acts.
Proof.
  unfold Report.minutes_each, Report.refreshed. rewrite map_map.
  apply map_ext. intros a. by rewrite get_duration_in_minutes_idem.
Qed.

Lemma length_refreshed acts : length (Report.refreshed acts) = length acts.
Proof. apply length_map. Qed.

Lemma foldl_add acc l : foldl Z.add acc l = acc + foldl Z.add 0 l.
Proof.
  revert acc. induction l as [|x l IH]; intros acc; cbn [foldl]; [lia|].
  rewrite IH, (IH (0 + x)). lia.
Qed.

(** [sum] adds the minutes of every activity. *)
Lemma sum_minutes_each acts :
  Report.sum (Report.minutes_each acts) = total_minutes acts.
Proof.
  unfold Report.sum, Report.minutes_each.
  induction acts as [|a rest IH]; [reflexivity|].
  cbn [map foldl total_minutes]. rewrite foldl_add, IH.
  unfold duration_minutes. lia.
Qed.

(** An activity built from well-formed times lasts the elapsed minutes. *)
Lemma duration_minutes_init ti de s e imgs t1 t2 :
  Py.strptime_HM s = Some t1 -> Py.strptime_HM e = Some t2 ->
  duration_minutes (Activity.init ti de s e imgs)
  = elapsed (minute_of_day t1) (minute_of_day t2).
Proof.
  intros H1 H2.
  pose proof (elapsed_bounds _ _ (proj1 (strptime_HM_props _ _ H1))
                (proj1 (strptime_HM_props _ _ H2))) as B.
  set (d := elapsed (minute_of_day t1) (minute_of_day t2)) in *.
  unfold duration_minutes, Activity.init.
  rewrite (strptime_HM_nonempty _ _ H1), (strptime_HM_nonempty _ _ H2).
  cbn [negb andb].
  rewrite (calculate_duration_Some _ t1 t2) by done. fold d.
  cbn [fst Activity.store]. unfold Activity.get_duration_in_minutes.
  cbn [Activity._duration Activity.set__duration].
  rewrite contains_colon_fmt_minutes by lia. cbn [negb]. rewrite orb_false_r.
  destruct (String.eqb_spec (fmt_minutes d) EmptyString) as [E|_].
  - pose proof (contains_colon_fmt_minutes d ltac:(lia)) as C.
    rewrite E in C. discriminate.
  - cbn [Activity._duration Activity.set__duration].
    rewrite contains_colon_fmt_minutes by lia. cbn [negb].
    by rewrite minutes_of_fmt_minutes by lia.
Qed.

End Statistics.

Section Average.

Lemma calculate_average_snd r :
  snd (Report._calculate_average_duration r)
  = match Report.activities r with
    | [] => "00:00"
    | _ => fmt_minutes (total_minutes (Report.activities r)
                        / Z.of_nat (length (Report.activities r)))
    end.
Proof.
  unfold Report._calculate_average_duration.
  destruct (Report.activities r) as [|a rest] eqn:E; [reflexivity|].
  cbn [snd]. by rewrite sum_minutes_each.
Qed.

Lemma total_minutes_refreshed acts :
  total_minutes (Report.refreshed acts) = total_minutes acts.
Proof. by rewrite <- !sum_minutes_each, minutes_each_refreshed. Qed.

(** The average read after other statistics have filled the memos. *)
Lemma calculate_average_refreshed r r' :
  Report.activities r' = Report.refreshed (Report.activities r) ->
  snd (Report._calculate_average_duration r')
  = snd (Report._calculate_average_duration r).
Proof.
  intros E. rewrite !calculate_average_snd, E, total_minutes_refreshed,
    length_refreshed.
  by destruct (Report.activities r).
Qed.

Lemma instance_hours_activities r :
  Report.activities (fst (Report.instance_hours r)) = Report.activities r.
Proof.
  unfold Report.instance_hours, Report.calculate_instance_hours, Report.store.
  repeat case_match; reflexivity.
Qed.

Lemma get_statistics_average r :
  Py.dict_lookup (snd (Report.get_statistics r)) "average_activity_duration"
  = Some (Py.PStr (snd (Report._calculate_average_duration r))).
Proof.
  unfold Report.get_statistics.
  destruct (Report.calculate_total_activity_hours r) as [r1 total] eqn:E1.
  destruct (Report.instance_hours r1) as [r2 ih] eqn:E2.
  destruct (Report._calculate_average_duration r2) as [r3 avg] eqn:E3.
  destruct (Report._get_longest_activity r3) as [r4 longest].
  destruct (Report._get_shortest_activity r4) as [r5 shortest].
  cbn [snd Py.dict_lookup String.eqb Ascii.eqb Bool.eqb].
  do 2 f_equal.
  change avg with (snd (r3, avg)). rewrite <- E3.
  apply calculate_average_refreshed.
  change r2 with (fst (r2, ih)). rewrite <- E2, instance_hours_activities.
  unfold Report.calculate_total_activity_hours in E1. by inversion E1.
Qed.

End Average.

(** C9. The total is the sum of the activities' durations in minutes,
    written as zero-padded hours and minutes with the hours unbounded; the
    average is that sum divided by the number of activities, rounded down,
    written the same way, and 00:00 without activities; [get_statistics]
    reports that average.  Two activities of 02:30 and 01:30 total 04:00
    and average 02:00; three activities of 100 minutes together average
    00:33.  (By [duration_minutes_init], an activity built from well-formed
    times counts for the minutes elapsed between them.) *)
Theorem C9_total_and_average (r : Report.t) :
  snd (Report.calculate_total_activity_hours r)
  = Py.hhmm (total_minutes (Report.activities r) / 60)
            (total_minutes (Report.activities r) mod 60)
  /\ snd (Report._calculate_average_duration r)
     = match Report.activities r with
       | [] => "00:00"
       | _ =>
           Py.hhmm
             (total_minutes (Report.activities r)
              / Z.of_nat (length (Report.activities r)) / 60)
             ((total_minutes (Report.activities r)
               / Z.of_nat (length (Report.activities r))) mod 60)
       end
  /\ Py.dict_lookup (snd (Report.get_statistics r)) "average_activity_duration"
     = Some (Py.PStr (snd (Report._calculate_average_duration r)))
  /\ map (fun a => snd (Activity.duration a)) (Report.activities two_activities)
     = ["02:30"; "01:30"]
  /\ snd (Report.calculate_total_activity_hours two_activities) = "04:00"
  /\ Py.dict_lookup (snd (Report.get_statistics two_activities))
       "average_activity_duration" = Some (Py.PStr "02:00")
  /\ total_minutes (Report.activities three_activities) = 100
  /\ snd (Report._calculate_average_duration three_activities) = "00:33".
Proof.
  split; [|split; [|split]].
  - unfold Report.calculate_total_activity_hours. cbn [snd].
    by rewrite sum_minutes_each.
  - apply calculate_average_snd.
  - apply get_statistics_average.
  - repeat split; vm_compute; reflexivity.
Qed.

(** * Dictionaries (C5, C8) *)

Section Dates.

Lemma format_4_digits y :
  0 <= y <= 9999 -> fixed_digits 4 (Py.format_0d 4 y) y = true.
Proof.
  intros Hy.
  assert (H : forallb (fun k => fixed_digits 4 (Py.format_0d 4 k) k)
                (seqZ 0 10000) = true) by (vm_compute; reflexivity).
  rewrite forallb_forall in H. apply H, list_elem_of_In, elem_of_seqZ. lia.
Qed.

Lemma format_2_digits m :
  0 <= m <= 99 -> fixed_digits 2 (Py.format_0d 2 m) m = true.
Proof.
  intros Hm.
  assert (H : forallb (fun k => fixed_digits 2 (Py.format_0d 2 k) k)
                (seqZ 0 100) = true) by (vm_compute; reflexivity).
  rewrite forallb_forall in H. apply H, list_elem_of_In, elem_of_seqZ. lia.
Qed.

Lemma fromisoformat_fields Y M D y m d :
  fixed_digits 4 Y y = true -> fixed_digits 2 M m = true ->
  fixed_digits 2 D d = true ->
  Py.fromisoformat (Y +:+ "-" +:+ M +:+ "-" +:+ D)
  = if Py.valid_date (Py.mkdate y m d) then Some (Py.mkdate y m d) else None.
Proof.
  unfold fixed_digits. intros HY HM HD.
  apply andb_true_iff in HY as [HY HYv]. apply andb_true_iff in HY as [HYl HYd].
  apply andb_true_iff in HM as [HM HMv]. apply andb_true_iff in HM as [HMl HMd].
  apply andb_true_iff in HD as [HD HDv]. apply andb_true_iff in HD as [HDl HDd].
  apply Z.eqb_eq in HYv, HMv, HDv. apply Nat.eqb_eq in HYl, HMl, HDl.
  destruct Y as [|y1 [|y2 [|y3 [|y4 [|? ?]]]]]; try discriminate.
  destruct M as [|m1 [|m2 [|? ?]]]; try discriminate.
  destruct D as [|d1 [|d2 [|? ?]]]; try discriminate.
  change (_ +:+ _) with
    (String y1 (String y2 (String y3 (String y4 (String "-"
       (String m1 (String m2 (String "-" (String d1 (String d2 EmptyString)))))))))).
  unfold Py.fromisoformat.
  cbn [Py.str_take Py.str_drop String.length Nat.eqb
       String.eqb Ascii.eqb Bool.eqb andb].
  rewrite HYd, HMd, HDd, HYv, HMv, HDv. reflexivity.
Qed.

(** A date written by [isoformat] is read back by [fromisoformat]. *)
Lemma fromisoformat_isoformat d :
  Py.valid_date d = true -> Py.fromisoformat (Py.isoformat d) = Some d.
Proof.
  intros V. pose proof V as V'. unfold Py.valid_date in V'.
  repeat (apply andb_true_iff in V' as [V' ?]).
  assert (Py.days_in_month (Py.year d) (Py.month d) <= 31).
  { unfold Py.days_in_month. repeat case_match; lia. }
  unfold Py.isoformat.
  rewrite (fromisoformat_fields _ _ _ (Py.year d) (Py.month d) (Py.day d)).
  - destruct d. cbn [Py.year Py.month Py.day] in *. by rewrite V.
  - apply format_4_digits. lia.
  - apply format_2_digits. lia.
  - apply format_2_digits. lia.
Qed.

Lemma isoformat_truthy d :
  Py.valid_date d = true -> Py.truthy (Py.PStr (Py.isoformat d)) = true.
Proof.
  intros V. pose proof (fromisoformat_isoformat d V) as H.
  cbn [Py.truthy]. destruct (String.eqb_spec (Py.isoformat d) EmptyString) as [E|]; [|done].
  rewrite E in H. discriminate.
Qed.

End Dates.

Section RoundTrip.

Lemma collect_as_str l : Py.collect (map Py.as_str (map Py.PStr l)) = Py.Returns l.
Proof.
  induction l as [|s l IH]; [reflexivity|].
  cbn [map Py.as_str Py.collect]. by rewrite IH.
Qed.

Lemma images_of_to_dict a :
  Activity.images_of (snd (Activity.to_dict a)) = Py.Returns (Activity.images a).
Proof.
  unfold Activity.to_dict. destruct (Activity.duration a) as [a' d].
  unfold Activity.images_of.
  cbn [snd Py.dict_get Py.dict_lookup String.eqb Ascii.eqb Bool.eqb].
  destruct (Activity.images a) as [|p l] eqn:E; [reflexivity|].
  cbn [map Py.truthy]. rewrite <- (collect_as_str (p :: l)). reflexivity.
Qed.

(** An activity read back from its own dictionary. *)
Lemma activity_from_to_dict a :
  Activity.from_dict (Py.PDict (snd (Activity.to_dict a))) = Py.Returns (reloaded a).
Proof.
  unfold Activity.from_dict. rewrite images_of_to_dict.
  unfold Activity.to_dict. destruct (Activity.duration a) as [a' d].
  cbn [snd Py.dict_get Py.dict_lookup String.eqb Ascii.eqb Bool.eqb Py.as_str].
  reflexivity.
Qed.

Lemma calculate_duration_fields a :
  same_activity a (fst (Activity.calculate_duration a)).
Proof.
  rewrite calculate_duration_store. cbn [fst Activity.store].
  by destruct a.
Qed.

Lemma reloaded_same a : same_activity a (reloaded a).
Proof.
  unfold reloaded, Activity.init. cbn [default].
  destruct (negb _ && negb _).
  - destruct (calculate_duration_fields
                (Activity.mk (Activity.title a) (Activity.description a)
                   (Activity.start_time a) (Activity.end_time a)
                   (Activity.images a) EmptyString)) as (? & ? & ? & ? & ?).
    by repeat split.
  - by repeat split.
Qed.

Lemma collect_from_dict acts :
  Py.collect (map Activity.from_dict
                (map (fun x => Py.PDict (snd x)) (map Activity.to_dict acts)))
  = Py.Returns (map reloaded acts).
Proof.
  induction acts as [|a rest IH]; [reflexivity|].
  cbn [map Py.collect]. by rewrite activity_from_to_dict, IH.
Qed.

Lemma parse_activities_to_dict r :
  Report.parse_activities (snd (Report.to_dict r))
  = Py.Returns (map reloaded (Report.activities r)).
Proof.
  unfold Report.to_dict.
  destruct (Report.instance_hours r) as [r1 ih] eqn:E1.
  destruct (Report.get_statistics _) as [r3 stats].
  unfold Report.parse_activities.
  cbn [snd Py.dict_get Py.dict_lookup String.eqb Ascii.eqb Bool.eqb].
  assert (A : Report.activities r1 = Report.activities r).
  { change r1 with (fst (r1, ih)). rewrite <- E1. apply instance_hours_activities. }
  rewrite A.
  destruct (Report.activities r) as [|a rest]; [reflexivity|].
  cbn [map Py.truthy Py.iterate].
  exact (collect_from_dict (a :: rest)).
Qed.

Lemma parse_date_to_dict today r :
  Py.valid_date (Report.date r) = true ->
  Report.parse_date today (snd (Report.to_dict r))
  = Py.Returns (Some (Report.date r)).
Proof.
  intros V. unfold Report.to_dict.
  destruct (Report.instance_hours r) as [r1 ih].
  destruct (Report.get_statistics _) as [r3 stats].
  unfold Report.parse_date.
  cbn [snd Py.dict_get Py.dict_lookup String.eqb Ascii.eqb Bool.eqb].
  by rewrite (isoformat_truthy _ V), (fromisoformat_isoformat _ V).
Qed.

(** A report read back from its own dictionary. *)
Lemma report_from_to_dict today r :
  Py.valid_date (Report.date r) = true ->
  Report.from_dict today (Py.PDict (snd (Report.to_dict r)))
  = Py.Returns
      (Report.init today (Report.responsible r) (Report.student r)
         (Some (Report.date r)) (Report.entry_time r) (Report.exit_time r)
         (Some (map reloaded (Report.activities r)))).
Proof.
  intros V. unfold Report.from_dict.
  rewrite (parse_date_to_dict today r V), parse_activities_to_dict.
  unfold Report.to_dict.
  destruct (Report.instance_hours r) as [r1 ih].
  destruct (Report.get_statistics _) as [r3 stats].
  cbn [snd Py.dict_get Py.dict_lookup String.eqb Ascii.eqb Bool.eqb Py.as_str].
  reflexivity.
Qed.

Lemma report_init_fields today re st d en ex acts :
  let r := Report.init today re st (Some d) en ex (Some acts) in
  Report.responsible r = re /\ Report.student r = st /\ Report.date r = d
  /\ Report.entry_time r = en /\ Report.exit_time r = ex
  /\ Report.activities r = acts.
Proof.
  unfold Report.init, Report.calculate_instance_hours, Report.store.
  cbn [default]. repeat case_match; by repeat split.
Qed.

End RoundTrip.

(** C5. For every report (its date a [datetime.date]), reading back the
    dictionary [to_dict] wrote gives a report with the same responsible,
    student, date, entry time and exit time, and as many activities, the
    one at each position with the same title, description, times and
    images. *)
Theorem C5_from_dict_to_dict (today : Py.date) (r : Report.t) :
  Py.valid_date (Report.date r) = true ->
  exists r' : Report.t,
    Report.from_dict today (Py.PDict (snd (Report.to_dict r))) = Py.Returns r'
    /\ Report.responsible r' = Report.responsible r
    /\ Report.student r' = Report.student r
    /\ Report.date r' = Report.date r
    /\ Report.entry_time r' = Report.entry_time r
    /\ Report.exit_time r' = Report.exit_time r
    /\ length (Report.activities r') = length (Report.activities r)
    /\ (forall (i : nat) (a : Activity.t),
          Report.activities r !! i = Some a ->
          exists a', Report.activities r' !! i = Some a'
                     /\ Activity.title a' = Activity.title a
                     /\ Activity.description a' = Activity.description a
                     /\ Activity.start_time a' = Activity.start_time a
                     /\ Activity.end_time a' = Activity.end_time a
                     /\ Activity.images a' = Activity.images a).
Proof.
  intros V. eexists. split; [by apply report_from_to_dict|].
  destruct (report_init_fields today (Report.responsible r) (Report.student r)
              (Report.date r) (Report.entry_time r) (Report.exit_time r)
              (map reloaded (Report.activities r))) as (-> & -> & -> & -> & -> & ->).
  repeat (split; [reflexivity|]). split; [apply length_map|].
  intros i a Hi. exists (reloaded a). split.
  - by rewrite list_lookup_fmap, Hi.
  - apply reloaded_same.
Qed.

Lemma C5_from_dict_to_dict_witness :
  exists r' : Report.t,
    Report.from_dict (Py.mkdate 2026 11 3) (Py.PDict (snd (Report.to_dict two_activities)))
    = Py.Returns r'
    /\ Report.responsible r' = Report.responsible two_activities
    /\ Report.student r' = Report.student two_activities
    /\ Report.date r' = Report.date two_activities
    /\ Report.entry_time r' = Report.entry_time two_activities
    /\ Report.exit_time r' = Report.exit_time two_activities
    /\ length (Report.activities r') = length (Report.activities two_activities)
    /\ (forall (i : nat) (a : Activity.t),
          Report.activities two_activities !! i = Some a ->
          exists a', Report.activities r' !! i = Some a'
                     /\ Activity.title a' = Activity.title a
                     /\ Activity.description a' = Activity.description a
                     /\ Activity.start_time a' = Activity.start_time a
                     /\ Activity.end_time a' = Activity.end_time a
                     /\ Activity.images a' = Activity.images a).
Proof.
  apply (C5_from_dict_to_dict (Py.mkdate 2026 11 3) two_activities).
  reflexivity.
Defined.

Section Loading.

Variable today : Py.date.

Lemma parse_date_missing d :
  Py.dict_lookup d "date" = None -> Report.parse_date today d = Py.Returns None.
Proof. intros H. unfold Report.parse_date, Py.dict_get. by rewrite H. Qed.

(** A date that is a string never fails the load: a string that is not a
    date gives today's date. *)
Lemma parse_date_string d s :
  Py.dict_lookup d "date" = Some (Py.PStr s) ->
  Report.parse_date today d
  = Py.Returns (if String.eqb s EmptyString then None
                else Some (default today (Py.fromisoformat s))).
Proof.
  intros H. unfold Report.parse_date, Py.dict_get. rewrite H. cbn [Py.truthy].
  destruct (String.eqb s EmptyString); cbn [negb]; [reflexivity|].
  by destruct (Py.fromisoformat s).
Qed.

(** A date that is a number, [true], a list or a dictionary (not empty)
    raises [TypeError], which [from_dict] does not catch. *)
Lemma parse_date_not_string d v :
  Py.dict_lookup d "date" = Some v -> Py.truthy v = true ->
  (forall s, v <> Py.PStr s) ->
  Report.parse_date today d
  = Py.Raises (Py.TypeError "fromisoformat: argument must be str").
Proof.
  intros H T N. unfold Report.parse_date, Py.dict_get. rewrite H, T.
  destruct v; try reflexivity. by destruct (N s).
Qed.

Lemma from_dict_raises_on_date d e :
  Report.parse_date today d = Py.Raises e ->
  Report.from_dict today (Py.PDict d) = Py.Raises e.
Proof. intros H. unfold Report.from_dict. by rewrite H. Qed.

Lemma parse_activities_missing d :
  Py.dict_lookup d "activities" = None ->
  Report.parse_activities d = Py.Returns [].
Proof. intros H. unfold Report.parse_activities, Py.dict_get. by rewrite H. Qed.

End Loading.

(** C8. The code at the failing input: a saved report whose date is the
    number 20240101 makes [from_dict] raise [TypeError], so [from_json]
    returns no report, only an error message.  Beside it, what the code
    does tolerate: a date that is the string not-a-date gives today's
    date, and absent activities give the empty list. *)
Theorem C8_numeric_date_fails_load (today : Py.date) :
  Report.from_dict today numeric_date_document
  = Py.Raises (Py.TypeError "fromisoformat: argument must be str")
  /\ Report.from_json today saved_files "numeric.json"
     = Py.Returns
         (None, "Error loading report: fromisoformat: argument must be str")
  /\ Report.from_dict today not_a_date_document
     = Py.Returns (Report.mk "Dr. Smith" "John" today "08:00" "17:00" [] "09:00")
  /\ fst <$> (match Report.from_json today saved_files "text.json" with
              | Py.Returns x => Some x
              | _ => None
              end)
     = Some (Some (Report.mk "Dr. Smith" "John" today "08:00" "17:00" [] "09:00")).
Proof.
  assert (E1 : Report.from_dict today numeric_date_document
               = Py.Raises (Py.TypeError "fromisoformat: argument must be str")).
  { apply from_dict_raises_on_date.
    by apply (parse_date_not_string today _ (Py.PInt 20240101)). }
  assert (E2 : Report.from_dict today not_a_date_document
               = Py.Returns (Report.mk "Dr. Smith" "John" today "08:00" "17:00" []
                               "09:00")).
  { unfold Report.from_dict, not_a_date_document.
    rewrite (parse_date_string today _ "not-a-date") by reflexivity.
    rewrite parse_activities_missing by reflexivity. reflexivity. }
  split; [done|]. split; [|split; [done|]].
  - unfold Report.from_json.
    replace (saved_files !! "numeric.json") with (Some (Some numeric_date_document))
      by (vm_compute; reflexivity).
    by rewrite E1.
  - unfold Report.from_json.
    replace (saved_files !! "text.json") with (Some (Some not_a_date_document))
      by (vm_compute; reflexivity).
    by rewrite E2.
Qed.

(** * More on images *)

Section AddImage.

Variable fs : filesystem.

Lemma path_exists_true p : path_exists fs p = true <-> is_Some (fs !! p).
Proof. unfold path_exists. apply bool_decide_eq_true. Qed.

Lemma add_image_cases a p :
  (Z.of_nat (length (Activity.images a)) < Activity.MAX_IMAGES /\ image_ok fs p
   /\ Activity.add_image fs a p
      = (Activity.set_images a (Activity.images a ++ [p]),
         (true, "Image added ("
                +:+ Py.str_of_int (Z.of_nat (length (Activity.images a ++ [p])))
                +:+ "/" +:+ Py.str_of_int Activity.MAX_IMAGES +:+ ")")))
  \/ (~ (Z.of_nat (length (Activity.images a)) < Activity.MAX_IMAGES
         /\ image_ok fs p)
      /\ fst (Activity.add_image fs a p) = a
      /\ fst (snd (Activity.add_image fs a p)) = false).
Proof.
  unfold Activity.add_image, image_ok.
  destruct (Z.leb_spec Activity.MAX_IMAGES (Z.of_nat (length (Activity.images a)))).
  { right. split; [|done]. intros [? _]. lia. }
  destruct (path_exists fs p) eqn:E1; cbn [negb].
  2:{ right. split; [|done]. intros (_ & He & _).
      apply path_exists_true in He. congruence. }
  apply path_exists_true in E1.
  destruct (Activity.allowed_extension p) eqn:E2; cbn [negb].
  2:{ right. split; [|done]. by intros (_ & _ & ? & _). }
  destruct (Z.ltb_spec (Activity.MAX_SIZE_IMAGE_MB * (1024 * 1024)) (getsize fs p)).
  { right. split; [|done]. intros (_ & _ & _ & ?). lia. }
  left. split; [lia|]. split; [done|]. reflexivity.
Qed.

End AddImage.

(** X1. [add_image] succeeds exactly when the activity has fewer than
    five images and the file exists, has an allowed extension and is at
    most 10 MB; it then appends the path after the images already there
    and changes nothing else; when it fails the activity is unchanged. *)
Theorem X1_add_image_spec (fs : filesystem) (a : Activity.t) (p : string) :
  (fst (snd (Activity.add_image fs a p)) = true <->
     Z.of_nat (length (Activity.images a)) < 5 /\ image_ok fs p)
  /\ (fst (snd (Activity.add_image fs a p)) = true ->
      fst (Activity.add_image fs a p)
      = Activity.set_images a (Activity.images a ++ [p]))
  /\ (fst (snd (Activity.add_image fs a p)) = false ->
      fst (Activity.add_image fs a p) = a).
Proof.
  destruct (add_image_cases fs a p) as [(H1 & H2 & E)|(N & E1 & E2)].
  - rewrite E. cbn [fst snd].
    split; [split; [intros _; split; [exact H1|done]|done]|].
    split; [done|discriminate].
  - rewrite E1, E2. split; [|split; [discriminate|done]].
    split; [discriminate|]. intros H. by destruct N.
Qed.

Lemma X1_add_image_spec_witness :
  fst (Activity.add_image big_image_fs
         (Activity.mk "t" "d" "09:00" "10:00" [] "01:00") "big.png")
  = Activity.mk "t" "d" "09:00" "10:00" [] "01:00".
Proof.
  apply (proj2 (proj2 (X1_add_image_spec big_image_fs
                         (Activity.mk "t" "d" "09:00" "10:00" [] "01:00") "big.png"))).
  vm_compute. reflexivity.
Defined.

Section RemoveImage.

Lemma list_remove_Some x l l' :
  Py.list_remove x l = Some l' ->
  exists l1 l2, l = l1 ++ x :: l2 /\ l' = l1 ++ l2 /\ (x ∉ l1).
Proof.
  revert l'. induction l as [|y r IH]; intros l'; cbn [Py.list_remove]; [done|].
  destruct (String.eqb_spec y x) as [->|Hne].
  - intros [= <-]. exists [], r. repeat split; [done..|]. apply not_elem_of_nil.
  - destruct (Py.list_remove x r) as [r'|]; [|done].
    intros [= <-]. destruct (IH r' eq_refl) as (l1 & l2 & -> & -> & Hn).
    exists (y :: l1), l2. repeat split; [done..|].
    rewrite not_elem_of_cons. split; [congruence|done].
Qed.

Lemma list_remove_None x l : Py.list_remove x l = None <-> x ∉ l.
Proof.
  induction l as [|y r IH]; cbn [Py.list_remove].
  - split; [intros _; apply not_elem_of_nil|done].
  - rewrite not_elem_of_cons. destruct (String.eqb_spec y x) as [->|Hne].
    + split; [done|]. by intros [? _].
    + destruct (Py.list_remove x r).
      * split; [done|]. intros [_ H]. by apply IH in H.
      * split; [|done]. intros _. split; [congruence|by apply IH].
Qed.

Lemma delete_image_by_path_cases a p :
  (exists l1 l2,
     Activity.images a = l1 ++ p :: l2 /\ (p ∉ l1)
     /\ Activity.delete_image_by_path a p
        = (Activity.set_images a (l1 ++ l2), (true, "Image deleted")))
  \/ ((p ∉ Activity.images a)
      /\ Activity.delete_image_by_path a p = (a, (false, "Image not found"))).
Proof.
  unfold Activity.delete_image_by_path.
  destruct (decide (p ∈ Activity.images a)) as [Hin|Hn].
  - rewrite bool_decide_eq_true_2 by done.
    destruct (Py.list_remove p (Activity.images a)) as [l'|] eqn:E.
    + destruct (list_remove_Some _ _ _ E) as (l1 & l2 & E1 & -> & Hn).
      left. by exists l1, l2.
    + apply list_remove_None in E. done.
  - rewrite bool_decide_eq_false_2 by done. by right.
Qed.

Lemma Forall_of_sublist {A : Type} (P : A -> Prop) (k l : list A) :
  k `sublist_of` l -> Forall P l -> Forall P k.
Proof.
  rewrite !Forall_forall. intros S H x Hx. apply H. by eapply elem_of_sublist.
Qed.

Lemma delete_image_cases a i :
  (0 <= i < Z.of_nat (length (Activity.images a))
   /\ Activity.delete_image a i
      = (Activity.set_images a (delete (Z.to_nat i) (Activity.images a)),
         (true, "Image deleted")))
  \/ (~ (0 <= i < Z.of_nat (length (Activity.images a)))
      /\ Activity.delete_image a i = (a, (false, "Invalid index"))).
Proof.
  unfold Activity.delete_image.
  destruct (Z.leb_spec 0 i); destruct (Z.ltb_spec i (Z.of_nat (length (Activity.images a))));
    cbn [andb]; first [left; split; [lia|done] | right; split; [lia|done]].
Qed.

End RemoveImage.

(** X2. An activity with at most five images, each of them a file
    [add_image] would take, stays so under every image operation
    ([add_image], [delete_image], [delete_image_by_path],
    [reorganize_images], [clean_images]), and it passes
    [validate_images]. *)
Theorem X2_image_operations_keep_limits (fs : filesystem) (a : Activity.t) :
  images_within_limits fs a ->
  (forall p, images_within_limits fs (fst (Activity.add_image fs a p)))
  /\ (forall i, images_within_limits fs (fst (Activity.delete_image a i)))
  /\ (forall p, images_within_limits fs (fst (Activity.delete_image_by_path a p)))
  /\ (forall o, images_within_limits fs (fst (Activity.reorganize_images a o)))
  /\ images_within_limits fs (Activity.clean_images a)
  /\ fst (Activity.validate_images fs a) = true.
Proof.
  intros [Hn Hall]. unfold images_within_limits.
  split; [|split; [|split; [|split; [|split]]]].
  - intros p. destruct (add_image_cases fs a p) as [(H1 & H2 & ->)|(_ & -> & _)];
      [|done].
    cbn [fst Activity.images Activity.set_images]. split.
    + rewrite length_app. cbn [length]. unfold Activity.MAX_IMAGES in *. lia.
    + apply Forall_app. split; [done|]. by constructor.
  - intros i. destruct (delete_image_cases a i) as [(Hi & ->)|(_ & ->)]; [|done].
    cbn [fst Activity.images Activity.set_images]. split.
    + rewrite length_delete by (apply lookup_lt_is_Some; lia). lia.
    + eapply Forall_of_sublist; [apply sublist_delete|exact Hall].
  - intros p.
    destruct (delete_image_by_path_cases a p) as [(l1 & l2 & E & _ & ->)|(_ & ->)];
      [|done].
    cbn [fst Activity.images Activity.set_images]. rewrite E in Hn, Hall. split.
    + rewrite length_app in *. cbn [length] in Hn. lia.
    + apply Forall_app in Hall as [H1 H2]. apply Forall_app. split; [done|].
      by inversion H2.
  - intros o. pose proof (reorganize_images_spec a o) as S.
    destruct (Activity.reorganize_images a o) as [a' [[] msg]]; cbn [fst].
    + destruct S as (P & _ & F). split.
      * rewrite <- (Forall2_length _ _ _ F), P, length_seqZ. lia.
      * rewrite Forall_forall in Hall. apply Forall_forall. intros p Hp.
        apply list_elem_of_lookup in Hp as [k Hk].
        destruct (Forall2_lookup_r _ _ _ _ _ F Hk) as (j & _ & Hj).
        apply Hall. by eapply list_elem_of_lookup_2.
    + by destruct S as [_ ->].
  - cbn. split; [unfold Activity.MAX_IMAGES; lia|constructor].
  - apply validate_images_true. split; [done|].
    eapply Forall_impl; [exact Hall|]. intros p (He & Hx & _).
    split; [by apply bool_decide_eq_true|done].
Qed.

Lemma X2_image_operations_keep_limits_witness :
  images_within_limits small_image_fs
    (fst (Activity.add_image small_image_fs one_image_activity "b.jpg"))
  /\ Activity.images
       (fst (Activity.add_image small_image_fs one_image_activity "b.jpg"))
     = ["a.png"; "b.jpg"]
  /\ images_within_limits small_image_fs
       (fst (Activity.delete_image one_image_activity 0))
  /\ Activity.images (fst (Activity.delete_image one_image_activity 0)) = [].
Proof.
  assert (H : images_within_limits small_image_fs one_image_activity).
  { split; [vm_compute; discriminate|].
    constructor; [|constructor].
    split; [|split; [vm_compute; reflexivity|vm_compute; discriminate]].
    exists 1000. vm_compute. reflexivity. }
  split; [exact (proj1 (X2_image_operations_keep_limits _ _ H) "b.jpg")|].
  split; [vm_compute; reflexivity|].
  split; [exact (proj1 (proj2 (X2_image_operations_keep_limits _ _ H)) 0)|].
  vm_compute. reflexivity.
Defined.

(** X3. [delete_image] with an index in range removes the image at that
    index and no other: the images before it keep their place, those
    after it move up by one.  With any other index it fails and changes
    nothing. *)
Theorem X3_delete_image_spec (a : Activity.t) (index : Z) :
  (fst (snd (Activity.delete_image a index)) = true <->
     0 <= index < Z.of_nat (length (Activity.images a)))
  /\ (fst (snd (Activity.delete_image a index)) = true ->
      let l := Activity.images (fst (Activity.delete_image a index)) in
      S (length l) = length (Activity.images a)
      /\ (forall j : nat, (j < Z.to_nat index)%nat -> l !! j = Activity.images a !! j)
      /\ (forall j : nat, (Z.to_nat index <= j)%nat ->
            l !! j = Activity.images a !! S j)
      /\ fst (Activity.delete_image a index) = Activity.set_images a l)
  /\ (fst (snd (Activity.delete_image a index)) = false ->
      Activity.delete_image a index = (a, (false, "Invalid index"))).
Proof.
  destruct (delete_image_cases a index) as [(Hi & ->)|(Hn & ->)]; cbn [fst snd].
  - split; [done|]. split; [|discriminate]. intros _.
    cbn [Activity.images Activity.set_images].
    assert (Z.to_nat index < length (Activity.images a))%nat by lia.
    split; [rewrite length_delete by (by apply lookup_lt_is_Some); lia|].
    split; [intros j Hj; by apply list_lookup_delete_lt|].
    split; [intros j Hj; by apply list_lookup_delete_ge|done].
  - split; [split; [discriminate|done]|]. split; [discriminate|done].
Qed.

Lemma X3_delete_image_spec_witness :
  Activity.delete_image (Activity.mk "t" "d" "09:00" "10:00" ["a.png"] "01:00") 1
  = (Activity.mk "t" "d" "09:00" "10:00" ["a.png"] "01:00", (false, "Invalid index")).
Proof.
  apply (proj2 (proj2 (X3_delete_image_spec
                  (Activity.mk "t" "d" "09:00" "10:00" ["a.png"] "01:00") 1))).
  reflexivity.
Defined.

(** X4. [delete_image_by_path] succeeds exactly when the path is among
    the images; it removes its first occurrence only and keeps the order
    of the others; when the path is absent the activity is unchanged. *)
Theorem X4_delete_image_by_path_spec (a : Activity.t) (path : string) :
  (fst (snd (Activity.delete_image_by_path a path)) = true <->
     path ∈ Activity.images a)
  /\ (path ∈ Activity.images a ->
      exists l1 l2,
        Activity.images a = l1 ++ path :: l2 /\ (path ∉ l1)
        /\ Activity.delete_image_by_path a path
           = (Activity.set_images a (l1 ++ l2), (true, "Image deleted")))
  /\ (path ∉ Activity.images a ->
      Activity.delete_image_by_path a path = (a, (false, "Image not found"))).
Proof.
  destruct (delete_image_by_path_cases a path)
    as [(l1 & l2 & E & Hn & Hd)|(Hn & Hd)]; rewrite Hd; cbn [fst snd].
  - assert (path ∈ Activity.images a) by (rewrite E; set_solver).
    split; [done|]. split; [|done]. intros _. by exists l1, l2.
  - split; [split; [discriminate|done]|]. split; done.
Qed.

Lemma X4_delete_image_by_path_spec_witness :
  Activity.delete_image_by_path
    (Activity.mk "t" "d" "09:00" "10:00" ["a.png"] "01:00") "b.png"
  = (Activity.mk "t" "d" "09:00" "10:00" ["a.png"] "01:00",
     (false, "Image not found")).
Proof.
  apply (proj2 (proj2 (X4_delete_image_by_path_spec
                  (Activity.mk "t" "d" "09:00" "10:00" ["a.png"] "01:00") "b.png"))).
  set_solver.
Defined.

(** * More on activities *)

Section ActivityChecks.

Lemma validate_hours_cases a :
  Activity.validate_hours a
  = match Py.strptime_HM (Activity.start_time a),
          Py.strptime_HM (Activity.end_time a) with
    | None, _ =>
        (false, "Invalid start time: '" +:+ Activity.start_time a +:+
                "'. Use HH:MM format (00:00 - 23:59)")
    | Some _, None =>
        (false, "Invalid end time: '" +:+ Activity.end_time a +:+
                "'. Use HH:MM format (00:00 - 23:59)")
    | Some _, Some _ => (true, "Valid hours")
    end.
Proof.
  unfold Activity.validate_hours.
  destruct (Py.strptime_HM (Activity.start_time a)) as [t1|] eqn:E1.
  - rewrite (_validate_format_hour_Some _ _ E1). cbn [negb].
    destruct (Py.strptime_HM (Activity.end_time a)) as [t2|] eqn:E2.
    + rewrite (_validate_format_hour_Some _ _ E2). cbn [negb].
      destruct (strptime_HM_props _ _ E1) as (R1 & -> & _).
      destruct (strptime_HM_props _ _ E2) as (R2 & -> & _).
      by rewrite R1, R2.
    + by rewrite (_validate_format_hour_None _ E2).
  - by rewrite (_validate_format_hour_None _ E1).
Qed.

Lemma validate_times_cases r :
  Report.validate_times r
  = match Py.strptime_HM (Report.entry_time r),
          Py.strptime_HM (Report.exit_time r) with
    | None, _ =>
        (false, "Invalid entry time: '" +:+ Report.entry_time r +:+
                "'. Use HH:MM format (00:00 - 23:59)")
    | Some _, None =>
        (false, "Invalid exit time: '" +:+ Report.exit_time r +:+
                "'. Use HH:MM format (00:00 - 23:59)")
    | Some _, Some _ => (true, "Valid times")
    end.
Proof.
  unfold Report.validate_times.
  destruct (Py.strptime_HM (Report.entry_time r)) as [t1|] eqn:E1.
  - rewrite (report_validate_format_hour_Some _ _ E1). cbn [negb].
    destruct (Py.strptime_HM (Report.exit_time r)) as [t2|] eqn:E2.
    + rewrite (report_validate_format_hour_Some _ _ E2). cbn [negb].
      destruct (strptime_HM_props _ _ E1) as (R1 & -> & _).
      destruct (strptime_HM_props _ _ E2) as (R2 & -> & _).
      by rewrite R1, R2.
    + by rewrite (report_validate_format_hour_None _ E2).
  - by rewrite (report_validate_format_hour_None _ E1).
Qed.

Lemma activity_required_fields_true a :
  fst (Activity.validate_required_fields a) = true <->
  Py.strip (Activity.title a) <> EmptyString
  /\ Py.strip (Activity.description a) <> EmptyString
  /\ Activity.start_time a <> EmptyString
  /\ Activity.end_time a <> EmptyString.
Proof.
  unfold Activity.validate_required_fields.
  destruct (String.eqb (Activity.title a) EmptyString
            || String.eqb (Py.strip (Activity.title a)) EmptyString) eqn:E1.
  { cbn [fst]. split; [discriminate|]. intros (H & _).
    apply blank_test in H. congruence. }
  apply blank_test in E1.
  destruct (String.eqb (Activity.description a) EmptyString
            || String.eqb (Py.strip (Activity.description a)) EmptyString) eqn:E2.
  { cbn [fst]. split; [discriminate|]. intros (_ & H & _).
    apply blank_test in H. congruence. }
  apply blank_test in E2.
  destruct (String.eqb_spec (Activity.start_time a) EmptyString) as [E3|E3].
  { cbn [fst]. split; [discriminate|]. by intros (_ & _ & ? & _). }
  destruct (String.eqb_spec (Activity.end_time a) EmptyString) as [E4|E4].
  { cbn [fst]. split; [discriminate|]. by intros (_ & _ & _ & ?). }
  cbn [fst]. done.
Qed.

Lemma validate_hours_true a :
  fst (Activity.validate_hours a) = true <->
  well_formed_time (Activity.start_time a) /\ well_formed_time (Activity.end_time a).
Proof.
  rewrite validate_hours_cases, !well_formed_time_parses.
  destruct (Py.strptime_HM (Activity.start_time a)),
           (Py.strptime_HM (Activity.end_time a)); cbn [fst];
    split; try discriminate; try (intros [[? ?] [? ?]]; discriminate); eauto.
Qed.

End ActivityChecks.

(** X5. The time checks of an activity and of a report pass exactly when
    both times parse, and otherwise name the first time that does not: the
    messages about a time out of range and about an error while processing
    are never returned, since a time that parses is in range. *)
Theorem X5_time_checks_never_out_of_range (a : Activity.t) (r : Report.t) :
  snd (Activity.validate_hours a) <> "Start time out of range (00:00 - 23:59)"
  /\ snd (Activity.validate_hours a) <> "End time out of range (00:00 - 23:59)"
  /\ snd (Activity.validate_hours a) <> "Error processing times"
  /\ snd (Report.validate_times r) <> "Entry time out of range (00:00 - 23:59)"
  /\ snd (Report.validate_times r) <> "Exit time out of range (00:00 - 23:59)"
  /\ snd (Report.validate_times r) <> "Error processing times"
  /\ (fst (Activity.validate_hours a) = true <->
      well_formed_time (Activity.start_time a)
      /\ well_formed_time (Activity.end_time a))
  /\ (Py.strptime_HM (Activity.start_time a) = None ->
      Activity.validate_hours a
      = (false, "Invalid start time: '" +:+ Activity.start_time a +:+
                "'. Use HH:MM format (00:00 - 23:59)"))
  /\ (is_Some (Py.strptime_HM (Activity.start_time a)) ->
      Py.strptime_HM (Activity.end_time a) = None ->
      Activity.validate_hours a
      = (false, "Invalid end time: '" +:+ Activity.end_time a +:+
                "'. Use HH:MM format (00:00 - 23:59)")).
Proof.
  split; [|split; [|split; [|split; [|split; [|split; [|split; [|split]]]]]]].
  1-3: rewrite validate_hours_cases; repeat case_match; cbn [snd];
         intros Hm; discriminate Hm.
  1-3: rewrite validate_times_cases; repeat case_match; cbn [snd];
         intros Hm; discriminate Hm.
  - apply validate_hours_true.
  - intros H. by rewrite validate_hours_cases, H.
  - intros [t H1] H2. by rewrite validate_hours_cases, H1, H2.
Qed.

Lemma X5_time_checks_never_out_of_range_witness :
  Activity.validate_hours (Activity.mk "t" "d" "24:00" "10:00" [] EmptyString)
  = (false, "Invalid start time: '24:00'. Use HH:MM format (00:00 - 23:59)").
Proof.
  apply (proj1 (proj2 (proj2 (proj2 (proj2 (proj2 (proj2 (proj2
           (X5_time_checks_never_out_of_range
              (Activity.mk "t" "d" "24:00" "10:00" [] EmptyString)
              blank_report))))))))).
  reflexivity.
Defined.

(** X6. An activity passes [complete_validate] exactly when its title and
    description are not blank, both times are well formed, it has at most
    five images, and each image exists with an allowed extension.  The
    checks run in the order required fields, times, images, and the first
    that fails gives the message. *)
Theorem X6_activity_complete_validate (fs : filesystem) (a : Activity.t) :
  (fst (Activity.complete_validate fs a) = true <->
     Py.strip (Activity.title a) <> EmptyString
     /\ Py.strip (Activity.description a) <> EmptyString
     /\ well_formed_time (Activity.start_time a)
     /\ well_formed_time (Activity.end_time a)
     /\ Z.of_nat (length (Activity.images a)) <= 5
     /\ Forall (fun p => is_Some (fs !! p) /\ Activity.allowed_extension p = true)
               (Activity.images a))
  /\ (fst (Activity.validate_required_fields a) = false ->
      Activity.complete_validate fs a
      = (false, snd (Activity.validate_required_fields a)))
  /\ (fst (Activity.validate_required_fields a) = true ->
      fst (Activity.validate_hours a) = false ->
      Activity.complete_validate fs a = (false, snd (Activity.validate_hours a)))
  /\ (fst (Activity.validate_required_fields a) = true ->
      fst (Activity.validate_hours a) = true ->
      fst (Activity.validate_images fs a) = false ->
      Activity.complete_validate fs a
      = (false, snd (Activity.validate_images fs a))).
Proof.
  split; [|split; [|split]].
  - rewrite activity_complete_validate_true, activity_required_fields_true,
      validate_hours_true, validate_images_true.
    split.
    + intros ((? & ? & _ & _) & (W1 & W2) & Hn & Hall).
      repeat (split; [assumption|]).
      eapply Forall_impl; [exact Hall|]. intros p [E ?].
      split; [by apply bool_decide_eq_true in E|done].
    + intros (? & ? & W1 & W2 & Hn & Hall).
      pose proof (well_formed_time_not_blank _ W1) as [_ ?].
      pose proof (well_formed_time_not_blank _ W2) as [_ ?].
      repeat split; try assumption.
      eapply Forall_impl; [exact Hall|]. intros p [E ?].
      split; [by apply bool_decide_eq_true|done].
  - unfold Activity.complete_validate.
    destruct (Activity.validate_required_fields a) as [[] m1]; cbn [negb fst snd];
      [discriminate|reflexivity].
  - unfold Activity.complete_validate.
    destruct (Activity.validate_required_fields a) as [[] m1]; cbn [negb fst snd];
      [|discriminate].
    destruct (Activity.validate_hours a) as [[] m2]; cbn [negb fst snd];
      [discriminate|reflexivity].
  - unfold Activity.complete_validate.
    destruct (Activity.validate_required_fields a) as [[] m1]; cbn [negb fst snd];
      [|discriminate].
    destruct (Activity.validate_hours a) as [[] m2]; cbn [negb fst snd];
      [|discriminate].
    destruct (Activity.validate_images fs a) as [[] m3]; cbn [negb fst snd];
      [discriminate|reflexivity].
Qed.

Lemma X6_activity_complete_validate_witness :
  Activity.complete_validate ∅ (Activity.mk " " "d" "09:00" "10:00" [] EmptyString)
  = (false, "Title is required").
Proof.
  apply (proj1 (proj2 (X6_activity_complete_validate ∅
                         (Activity.mk " " "d" "09:00" "10:00" [] EmptyString)))).
  reflexivity.
Defined.

Section FreshMemo.

Lemma append_colon_nonempty s t : s +:+ ":" +:+ t <> EmptyString.
Proof. by destruct s. Qed.

Lemma duration_after_store a v :
  v <> EmptyString ->
  Activity.duration (fst (Activity.store a v)) = (Activity.set__duration a v, v).
Proof. intros H. cbn [fst Activity.store]. by rewrite duration_memo. Qed.

Lemma instance_hours_after_store r v :
  v <> EmptyString ->
  Report.instance_hours (fst (Report.store r v))
  = (Report.set__instance_hours r v, v).
Proof. intros H. cbn [fst Report.store]. by rewrite instance_hours_memo. Qed.

Lemma fmt_minutes_nonempty n : fmt_minutes n <> EmptyString.
Proof. unfold fmt_minutes, Py.hhmm. apply append_colon_nonempty. Qed.

End FreshMemo.

(** X7. After [calculate_duration] the [duration] property returns the
    value of the times the activity has now, whatever its memo held
    before: the minutes elapsed from start to end, written as hours and
    minutes, when both times parse, and the message about the first time
    that does not parse otherwise; the object is the activity with that
    value as its memo.  The same holds of [calculate_instance_hours] and
    the [instance_hours] property of a report.  So a call to
    [calculate_duration] after a time was assigned brings the property up
    to date. *)
Theorem X7_calculate_refreshes_memo (a : Activity.t) (r : Report.t) :
  (forall t1 t2,
     Py.strptime_HM (Activity.start_time a) = Some t1 ->
     Py.strptime_HM (Activity.end_time a) = Some t2 ->
     Activity.duration (fst (Activity.calculate_duration a))
     = (Activity.set__duration a
          (fmt_minutes (elapsed (minute_of_day t1) (minute_of_day t2))),
        fmt_minutes (elapsed (minute_of_day t1) (minute_of_day t2))))
  /\ (Py.strptime_HM (Activity.start_time a) = None ->
      Activity.duration (fst (Activity.calculate_duration a))
      = (Activity.set__duration a "Invalid start time", "Invalid start time"))
  /\ (is_Some (Py.strptime_HM (Activity.start_time a)) ->
      Py.strptime_HM (Activity.end_time a) = None ->
      Activity.duration (fst (Activity.calculate_duration a))
      = (Activity.set__duration a "Invalid end time", "Invalid end time"))
  /\ (forall t1 t2,
        Py.strptime_HM (Report.entry_time r) = Some t1 ->
        Py.strptime_HM (Report.exit_time r) = Some t2 ->
        Report.instance_hours (fst (Report.calculate_instance_hours r))
        = (Report.set__instance_hours r
             (fmt_minutes (elapsed (minute_of_day t1) (minute_of_day t2))),
           fmt_minutes (elapsed (minute_of_day t1) (minute_of_day t2))))
  /\ (Py.strptime_HM (Report.entry_time r) = None ->
      Report.instance_hours (fst (Report.calculate_instance_hours r))
      = (Report.set__instance_hours r "Invalid entry time", "Invalid entry time"))
  /\ (is_Some (Py.strptime_HM (Report.entry_time r)) ->
      Py.strptime_HM (Report.exit_time r) = None ->
      Report.instance_hours (fst (Report.calculate_instance_hours r))
      = (Report.set__instance_hours r "Invalid exit time", "Invalid exit time")).
Proof.
  split; [|split; [|split; [|split; [|split]]]].
  - intros t1 t2 H1 H2. rewrite (calculate_duration_Some a t1 t2 H1 H2).
    apply duration_after_store, fmt_minutes_nonempty.
  - intros H. unfold Activity.calculate_duration.
    rewrite (_validate_format_hour_None _ H). cbn [negb].
    by apply duration_after_store.
  - intros [t1 H1] H2. unfold Activity.calculate_duration.
    rewrite (_validate_format_hour_Some _ _ H1), (_validate_format_hour_None _ H2).
    cbn [negb]. by apply duration_after_store.
  - intros t1 t2 H1 H2. rewrite (calculate_instance_hours_Some r t1 t2 H1 H2).
    apply instance_hours_after_store, fmt_minutes_nonempty.
  - intros H. unfold Report.calculate_instance_hours.
    rewrite (report_validate_format_hour_None _ H). cbn [negb].
    by apply instance_hours_after_store.
  - intros [t1 H1] H2. unfold Report.calculate_instance_hours.
    rewrite (report_validate_format_hour_Some _ _ H1),
      (report_validate_format_hour_None _ H2).
    cbn [negb]. by apply instance_hours_after_store.
Qed.

Lemma X7_calculate_refreshes_memo_witness :
  snd (Activity.duration
         (Activity.set_start_time
            (Activity.init "Reading" "Notes" "09:00" "11:30" None) "10:00"))
  = "02:30"
  /\ Activity.duration
       (fst (Activity.calculate_duration
               (Activity.set_start_time
                  (Activity.init "Reading" "Notes" "09:00" "11:30" None) "10:00")))
     = (Activity.mk "Reading" "Notes" "10:00" "11:30" [] "01:30", "01:30").
Proof.
  split; [vm_compute; reflexivity|].
  rewrite (proj1 (X7_calculate_refreshes_memo
                    (Activity.set_start_time
                       (Activity.init "Reading" "Notes" "09:00" "11:30" None)
                       "10:00")
                    blank_report) (10, 0) (11, 30) eq_refl eq_refl).
  vm_compute. reflexivity.
Defined.

(** X8. An activity built by the constructor from two times that parse
    lasts the minutes elapsed from the first to the second, between 1 and
    1440: it never lasts 0 minutes, and two equal times count for a whole
    day. *)
Theorem X8_constructed_activity_minutes
    (x y s e : string) (imgs : option (list string)) (t1 t2 : Z * Z) :
  Py.strptime_HM s = Some t1 -> Py.strptime_HM e = Some t2 ->
  snd (Activity.get_duration_in_minutes (Activity.init x y s e imgs))
  = elapsed (minute_of_day t1) (minute_of_day t2)
  /\ 1 <= snd (Activity.get_duration_in_minutes (Activity.init x y s e imgs))
       <= 24 * 60
  /\ (t1 = t2 ->
      snd (Activity.get_duration_in_minutes (Activity.init x y s e imgs))
      = 24 * 60).
Proof.
  intros H1 H2.
  pose proof (duration_minutes_init x y s e imgs t1 t2 H1 H2) as E.
  unfold duration_minutes in E. rewrite E.
  pose proof (elapsed_bounds _ _ (proj1 (strptime_HM_props _ _ H1))
                (proj1 (strptime_HM_props _ _ H2))) as B.
  split; [done|]. split; [lia|].
  intros ->. unfold elapsed. rewrite Z.ltb_irrefl. lia.
Qed.

Lemma X8_constructed_activity_minutes_witness :
  snd (Activity.get_duration_in_minutes
         (Activity.init "t" "d" "7:05" "07:05" None)) = 24 * 60.
Proof.
  apply (proj2 (proj2 (X8_constructed_activity_minutes "t" "d" "7:05" "07:05" None
                         (7, 5) (7, 5) eq_refl eq_refl))).
  reflexivity.
Defined.

(** X9. Reading the minutes of an activity changes nothing but its memo,
    and a second reading returns the same object and the same minutes. *)
Theorem X9_get_duration_in_minutes_stable (a : Activity.t) :
  same_activity a (fst (Activity.get_duration_in_minutes a))
  /\ Activity.get_duration_in_minutes (fst (Activity.get_duration_in_minutes a))
     = Activity.get_duration_in_minutes a.
Proof.
  split; [|apply get_duration_in_minutes_idem].
  rewrite get_duration_in_minutes_fst.
  destruct (_ || _); [apply calculate_duration_fields|by repeat split].
Qed.

Section AcceptedTimes.

Lemma strptime_HM_of_fields H M :
  (String.length H = 1%nat \/ String.length H = 2%nat) ->
  (String.length M = 1%nat \/ String.length M = 2%nat) ->
  Py.all_digits H = true -> Py.all_digits M = true ->
  Py.strptime_HM (H +:+ ":" +:+ M) = parse_of_fields H M.
Proof.
  intros LH LM DH DM.
  destruct H as [|c1 [|c2 [|? ?]]]; cbn in LH; try (destruct LH; discriminate);
  destruct M as [|c3 [|c4 [|? ?]]]; cbn in LM; try (destruct LM; discriminate);
  unfold Py.all_digits in DH, DM; cbn [forallb list_ascii_of_string] in DH, DM;
  rewrite ?andb_true_r in DH, DM;
  repeat match goal with
         | D : _ && _ = true |- _ => apply andb_true_iff in D as [? ?]
         end;
  eapply bool_decide_eq_true_1.
  - assert (D1 : Py.is_digit c1 = true) by assumption.
    assert (D3 : Py.is_digit c3 = true) by assumption.
    clear - D1 D3. revert c1 c3 D1 D3.
    apply (forall_digit2 (fun c1 c3 => bool_decide
      (Py.strptime_HM (String c1 EmptyString +:+ ":" +:+ String c3 EmptyString)
       = parse_of_fields (String c1 EmptyString) (String c3 EmptyString)))).
    vm_compute. reflexivity.
  - assert (D1 : Py.is_digit c1 = true) by assumption.
    assert (D3 : Py.is_digit c3 = true) by assumption.
    assert (D4 : Py.is_digit c4 = true) by assumption.
    clear - D1 D3 D4. revert c1 c3 c4 D1 D3 D4.
    apply (forall_digit3 (fun c1 c3 c4 => bool_decide
      (Py.strptime_HM (String c1 EmptyString +:+ ":" +:+ String c3 (String c4 EmptyString))
       = parse_of_fields (String c1 EmptyString) (String c3 (String c4 EmptyString))))).
    vm_compute. reflexivity.
  - assert (D1 : Py.is_digit c1 = true) by assumption.
    assert (D2 : Py.is_digit c2 = true) by assumption.
    assert (D3 : Py.is_digit c3 = true) by assumption.
    clear - D1 D2 D3. revert c1 c2 c3 D1 D2 D3.
    apply (forall_digit3 (fun c1 c2 c3 => bool_decide
      (Py.strptime_HM (String c1 (String c2 EmptyString) +:+ ":" +:+ String c3 EmptyString)
       = parse_of_fields (String c1 (String c2 EmptyString)) (String c3 EmptyString)))).
    vm_compute. reflexivity.
  - assert (D1 : Py.is_digit c1 = true) by assumption.
    assert (D2 : Py.is_digit c2 = true) by assumption.
    assert (D3 : Py.is_digit c3 = true) by assumption.
    assert (D4 : Py.is_digit c4 = true) by assumption.
    clear - D1 D2 D3 D4. revert c1 c2 c3 c4 D1 D2 D3 D4.
    apply (forall_digit4 (fun c1 c2 c3 c4 => bool_decide
      (Py.strptime_HM (String c1 (String c2 EmptyString) +:+ ":"
                       +:+ String c3 (String c4 EmptyString))
       = parse_of_fields (String c1 (String c2 EmptyString))
                         (String c3 (String c4 EmptyString))))).
    vm_compute. reflexivity.
Qed.

Lemma time_shape_fields s :
  time_shape s ->
  exists H M,
    s = H +:+ ":" +:+ M
    /\ (String.length H = 1%nat \/ String.length H = 2%nat)
    /\ (String.length M = 1%nat \/ String.length M = 2%nat)
    /\ Py.all_digits H = true /\ Py.all_digits M = true.
Proof.
  destruct 1 as [c1 c3 H1 H3|c1 c3 c4 H1 H3 H4|c1 c2 c3 H1 H2 H3
                |c1 c2 c3 c4 H1 H2 H3 H4].
  - exists (String c1 EmptyString), (String c3 EmptyString).
    unfold Py.all_digits. cbn. rewrite H1, H3. repeat split; auto.
  - exists (String c1 EmptyString), (String c3 (String c4 EmptyString)).
    unfold Py.all_digits. cbn. rewrite H1, H3, H4. repeat split; auto.
  - exists (String c1 (String c2 EmptyString)), (String c3 EmptyString).
    unfold Py.all_digits. cbn. rewrite H1, H2, H3. repeat split; auto.
  - exists (String c1 (String c2 EmptyString)), (String c3 (String c4 EmptyString)).
    unfold Py.all_digits. cbn. rewrite H1, H2, H3, H4. repeat split; auto.
Qed.

End AcceptedTimes.

(** X10. The times that [_validate_format_hour] accepts are exactly the
    strings made of an hour of one or two digits that reads at most 23, a
    colon, and a minute of one or two digits that reads at most 59; the
    parsed hour and minute are what the digits read.  So 9:5 is accepted
    as 09:05, and nothing with a sign, a blank or a third digit is. *)
Theorem X10_accepted_times (s : string) (h m : Z) :
  (Py.strptime_HM s = Some (h, m) <->
     exists H M, s = H +:+ ":" +:+ M /\ time_field H h 23 /\ time_field M m 59)
  /\ (Activity._validate_format_hour s = true <->
      exists H M h' m',
        s = H +:+ ":" +:+ M /\ time_field H h' 23 /\ time_field M m' 59).
Proof.
  assert (A : forall h m, Py.strptime_HM s = Some (h, m) <->
     exists H M, s = H +:+ ":" +:+ M /\ time_field H h 23 /\ time_field M m 59).
  { clear h m. intros h m. split.
    - intros E. destruct (time_shape_fields s (strptime_HM_shape _ _ E))
        as (H & M & -> & LH & LM & DH & DM).
      rewrite (strptime_HM_of_fields H M LH LM DH DM) in E.
      unfold parse_of_fields in E.
      destruct (Z.leb_spec (Py.digits_value 0 H) 23);
        destruct (Z.leb_spec (Py.digits_value 0 M) 59); cbn [andb] in E;
        try discriminate.
      injection E as <- <-. exists H, M. by repeat split.
    - intros (H & M & -> & (LH & DH & <- & BH) & (LM & DM & <- & BM)).
      rewrite (strptime_HM_of_fields H M LH LM DH DM). unfold parse_of_fields.
      destruct (Z.leb_spec (Py.digits_value 0 H) 23); [|lia].
      destruct (Z.leb_spec (Py.digits_value 0 M) 59); [|lia]. reflexivity. }
  split; [apply A|].
  rewrite _validate_format_hour_true. split.
  - intros [[h' m'] E]. apply A in E as (H & M & ?). by exists H, M, h', m'.
  - intros (H & M & h' & m' & E). exists (h', m'). apply A. by exists H, M.
Qed.

Lemma X10_accepted_times_witness :
  Py.strptime_HM "9:5" = Some (9, 5).
Proof.
  apply (proj2 (proj1 (X10_accepted_times "9:5" 9 5))).
  exists "9", "5". split; [reflexivity|].
  split; (split; [by left|]; split; [reflexivity|]; split; [reflexivity|lia]).
Defined.

(** * More on dictionaries and copies *)

Section Copies.

Lemma same_activity_eq a b : same_activity a b -> Activity.eq b a = true.
Proof.
  intros (E1 & E2 & E3 & E4 & E5). unfold Activity.eq.
  rewrite E1, E2, E3, E4, E5, !String.eqb_refl.
  by rewrite bool_decide_eq_true_2.
Qed.

Lemma same_activity_sym a b : same_activity a b -> same_activity b a.
Proof. intros (? & ? & ? & ? & ?). by repeat split. Qed.

Lemma same_activity_trans a b c :
  same_activity a b -> same_activity b c -> same_activity a c.
Proof.
  intros (? & ? & ? & ? & ?) (? & ? & ? & ? & ?).
  repeat split; congruence.
Qed.

Lemma duration_fields a : same_activity a (fst (Activity.duration a)).
Proof.
  unfold Activity.duration. cbn [fst].
  destruct (String.eqb _ _); [apply calculate_duration_fields|by repeat split].
Qed.

Lemma to_dict_fst a : fst (Activity.to_dict a) = fst (Activity.duration a).
Proof. unfold Activity.to_dict. by destruct (Activity.duration a). Qed.

Lemma date_eqb_refl d : Py.date_eqb d d = true.
Proof. unfold Py.date_eqb. by rewrite !Z.eqb_refl. Qed.

End Copies.

(** X11. [copy] returns an activity equal to the original under [==]
    (same title, description, times and images), and the original is
    itself unchanged under [==]. *)
Theorem X11_activity_copy_equal (a : Activity.t) :
  exists a' b,
    Activity.copy a = (a', Py.Returns b)
    /\ Activity.eq b a = true
    /\ Activity.eq a' a = true
    /\ Activity.eq b a' = true.
Proof.
  exists (fst (Activity.to_dict a)), (reloaded a). split; [|split; [|split]].
  - unfold Activity.copy. pose proof (activity_from_to_dict a) as E.
    destruct (Activity.to_dict a) as [a' d]. cbn [fst snd] in *. by rewrite E.
  - apply same_activity_eq, reloaded_same.
  - rewrite to_dict_fst. apply same_activity_eq, duration_fields.
  - rewrite to_dict_fst. apply same_activity_eq.
    eapply same_activity_trans; [|apply reloaded_same].
    apply same_activity_sym, duration_fields.
Qed.

(** X12. [copy] of a report returns a report equal to the original under
    [==], whose activities are, position by position, equal under [==] to
    those of the original. *)
Theorem X12_report_copy_equal (today : Py.date) (r : Report.t) :
  Py.valid_date (Report.date r) = true ->
  exists r' c,
    Report.copy today r = (r', Py.Returns c)
    /\ Report.eq c r = true
    /\ Forall2 (fun b a => Activity.eq b a = true)
               (Report.activities c) (Report.activities r).
Proof.
  intros V. unfold Report.copy.
  pose proof (report_from_to_dict today r V) as E.
  destruct (Report.to_dict r) as [r' d]. cbn [snd] in E. rewrite E.
  eexists _, _. split; [reflexivity|].
  destruct (report_init_fields today (Report.responsible r) (Report.student r)
              (Report.date r) (Report.entry_time r) (Report.exit_time r)
              (map reloaded (Report.activities r))) as (E1 & E2 & E3 & E4 & E5 & E6).
  split.
  - unfold Report.eq. rewrite E1, E2, E3, E4, E5, E6, !String.eqb_refl,
      date_eqb_refl, length_map, Nat.eqb_refl. reflexivity.
  - rewrite E6. apply Forall2_fmap_l, Forall_Forall2_diag, Forall_forall.
    intros a _. apply same_activity_eq, reloaded_same.
Qed.

Lemma X12_report_copy_equal_witness :
  exists r' c,
    Report.copy (Py.mkdate 2026 11 3) two_activities = (r', Py.Returns c)
    /\ Report.eq c two_activities = true
    /\ Forall2 (fun b a => Activity.eq b a = true)
               (Report.activities c) (Report.activities two_activities).
Proof.
  apply (X12_report_copy_equal (Py.mkdate 2026 11 3) two_activities).
  reflexivity.
Defined.

(** X13. [==] on reports looks at the number of activities only: a
    report stays equal to itself when its activities are replaced by as
    many others, whatever they are, and differs as soon as the number
    changes. *)
Theorem X13_report_eq_counts_activities (r : Report.t) (acts : list Activity.t) :
  Report.eq (Report.set_activities r acts) r
  = bool_decide (length acts = length (Report.activities r)).
Proof.
  unfold Report.eq. destruct r as [re st d en ex l ih].
  cbn [Report.set_activities Report.responsible Report.student Report.date
       Report.entry_time Report.exit_time Report.activities].
  rewrite !String.eqb_refl, date_eqb_refl. cbn [andb].
  destruct (Nat.eqb_spec (length acts) (length l)).
  - by rewrite bool_decide_eq_true_2.
  - by rewrite bool_decide_eq_false_2.
Qed.

Section MissingKeys.

Lemma init_fields x y s e imgs :
  same_activity (Activity.mk x y s e (default [] imgs) EmptyString)
                (Activity.init x y s e imgs).
Proof.
  unfold Activity.init. destruct (_ && _); [|by repeat split].
  apply calculate_duration_fields.
Qed.

Lemma init_midnight x y imgs :
  Activity._duration (Activity.init x y "00:00" "00:00" imgs) = "24:00".
Proof.
  unfold Activity.init. cbn [String.eqb Ascii.eqb Bool.eqb negb andb].
  by rewrite (calculate_duration_Some _ (0, 0) (0, 0)).
Qed.

Lemma activity_from_dict_inv d b :
  Activity.from_dict (Py.PDict d) = Py.Returns b ->
  exists x y s e imgs,
    b = Activity.init x y s e (Some imgs)
    /\ Activity.images_of d = Py.Returns imgs
    /\ Py.dict_get d "title" (Py.PStr EmptyString) = Py.PStr x
    /\ Py.dict_get d "description" (Py.PStr EmptyString) = Py.PStr y
    /\ Py.dict_get d "start_time" (Py.PStr "00:00") = Py.PStr s
    /\ Py.dict_get d "end_time" (Py.PStr "00:00") = Py.PStr e.
Proof.
  unfold Activity.from_dict.
  destruct (Activity.images_of d) as [imgs| |]; try discriminate.
  destruct (Py.dict_get d "title" _) as [| | |x| |]; try discriminate.
  destruct (Py.dict_get d "description" _) as [| | |y| |]; try discriminate.
  destruct (Py.dict_get d "start_time" _) as [| | |s| |]; try discriminate.
  destruct (Py.dict_get d "end_time" _) as [| | |e| |]; try discriminate.
  cbn [Py.as_str]. intros [= <-]. by exists x, y, s, e, imgs.
Qed.

Lemma dict_get_missing d k v : Py.dict_lookup d k = None -> Py.dict_get d k v = v.
Proof. intros H. unfold Py.dict_get. by rewrite H. Qed.

Lemma images_of_missing d :
  Py.dict_lookup d "images" = None -> Activity.images_of d = Py.Returns [].
Proof. intros H. unfold Activity.images_of. by rewrite !dict_get_missing. Qed.

End MissingKeys.

(** X14. An activity read by [from_dict] takes the empty string for a
    missing title or description, 00:00 for a missing time and no image
    for missing images.  So an activity read without its two times lasts
    24:00, that is 1440 minutes, and an activity read without a title
    never passes [complete_validate]. *)
Theorem X14_activity_from_dict_defaults (d : Py.pydict) (b : Activity.t) :
  Activity.from_dict (Py.PDict d) = Py.Returns b ->
  (Py.dict_lookup d "title" = None -> Activity.title b = EmptyString)
  /\ (Py.dict_lookup d "description" = None -> Activity.description b = EmptyString)
  /\ (Py.dict_lookup d "start_time" = None -> Activity.start_time b = "00:00")
  /\ (Py.dict_lookup d "end_time" = None -> Activity.end_time b = "00:00")
  /\ (Py.dict_lookup d "images" = None -> Activity.images b = [])
  /\ (Py.dict_lookup d "start_time" = None -> Py.dict_lookup d "end_time" = None ->
      Activity._duration b = "24:00"
      /\ snd (Activity.get_duration_in_minutes b) = 24 * 60)
  /\ (Py.dict_lookup d "title" = None ->
      forall fs, Activity.complete_validate fs b = (false, "Title is required")).
Proof.
  intros E. apply activity_from_dict_inv in E
    as (x & y & s & e & imgs & -> & Hi & Hx & Hy & Hs & He).
  destruct (init_fields x y s e (Some imgs)) as (Ex & Ey & Es & Ee & Ei).
  cbn [Activity.title Activity.description Activity.start_time Activity.end_time
       Activity.images default] in *.
  split; [|split; [|split; [|split; [|split; [|split]]]]].
  - intros H. rewrite dict_get_missing in Hx by done. injection Hx as <-. exact Ex.
  - intros H. rewrite dict_get_missing in Hy by done. injection Hy as <-. exact Ey.
  - intros H. rewrite dict_get_missing in Hs by done. injection Hs as <-. exact Es.
  - intros H. rewrite dict_get_missing in He by done. injection He as <-. exact Ee.
  - intros H. rewrite images_of_missing in Hi by done. injection Hi as <-. exact Ei.
  - intros H1 H2. rewrite dict_get_missing in Hs, He by done.
    injection Hs as <-. injection He as <-. split; [apply init_midnight|].
    apply (duration_minutes_init x y "00:00" "00:00" (Some imgs) (0, 0) (0, 0));
      reflexivity.
  - intros H fs. rewrite dict_get_missing in Hx by done. injection Hx as <-.
    unfold Activity.complete_validate, Activity.validate_required_fields.
    by rewrite Ex.
Qed.

Lemma X14_activity_from_dict_defaults_witness :
  snd (Activity.get_duration_in_minutes
         (Activity.init "Reading" EmptyString "00:00" "00:00" (Some []))) = 24 * 60.
Proof.
  assert (E : Activity.from_dict (Py.PDict [("title", Py.PStr "Reading")])
               = Py.Returns
                   (Activity.init "Reading" EmptyString "00:00" "00:00" (Some [])))
    by (vm_compute; reflexivity).
  exact (proj2 (proj1 (proj2 (proj2 (proj2 (proj2 (proj2
           (X14_activity_from_dict_defaults _ _ E)))))) eq_refl eq_refl)).
Defined.

Section ReportMissingKeys.

Variable today : Py.date.

Lemma report_from_dict_inv d r :
  Report.from_dict today (Py.PDict d) = Py.Returns r ->
  exists report_date acts x y s e,
    r = Report.init today x y report_date s e (Some acts)
    /\ Report.parse_date today d = Py.Returns report_date
    /\ Report.parse_activities d = Py.Returns acts
    /\ Py.dict_get d "responsible" (Py.PStr EmptyString) = Py.PStr x
    /\ Py.dict_get d "student" (Py.PStr EmptyString) = Py.PStr y
    /\ Py.dict_get d "entry_time" (Py.PStr "00:00") = Py.PStr s
    /\ Py.dict_get d "exit_time" (Py.PStr "00:00") = Py.PStr e.
Proof.
  unfold Report.from_dict.
  destruct (Report.parse_date today d) as [rd| |]; try discriminate.
  destruct (Report.parse_activities d) as [acts| |]; try discriminate.
  destruct (Py.dict_get d "responsible" _) as [| | |x| |]; try discriminate.
  destruct (Py.dict_get d "student" _) as [| | |y| |]; try discriminate.
  destruct (Py.dict_get d "entry_time" _) as [| | |s| |]; try discriminate.
  destruct (Py.dict_get d "exit_time" _) as [| | |e| |]; try discriminate.
  cbn [Py.as_str]. intros [= <-]. by exists rd, acts, x, y, s, e.
Qed.

Lemma report_init_fields_gen x y rd s e acts :
  let r := Report.init today x y rd s e (Some acts) in
  Report.responsible r = x /\ Report.student r = y
  /\ Report.date r = default today rd
  /\ Report.entry_time r = s /\ Report.exit_time r = e
  /\ Report.activities r = acts.
Proof.
  unfold Report.init, Report.calculate_instance_hours, Report.store.
  cbn [default]. repeat case_match; by repeat split.
Qed.

Lemma fromisoformat_without_year s :
  starts_with_year s = false -> Py.fromisoformat s = None.
Proof.
  unfold starts_with_year, Py.fromisoformat. intros H.
  destruct (String.length s =? 10)%nat eqn:L; [|reflexivity].
  apply Nat.eqb_eq in L. rewrite L in H. cbn [Nat.leb andb] in H.
  by rewrite H, andb_false_r.
Qed.

End ReportMissingKeys.

(** X15. A report read by [from_dict] takes today's date for a missing
    date, for a date that is [null], and for a string that does not start
    with the four digits of a year (the empty string, or a text that is
    not a date); it takes the date itself when the string is the ISO form
    of a date.  It takes no activity for missing activities, the empty
    string for a missing responsible or student, and 00:00 for a missing
    time.  So a report read without its activities, or without its
    responsible, never passes [complete_validate]. *)
Theorem X15_report_from_dict_defaults
    (today : Py.date) (d : Py.pydict) (r : Report.t) :
  Report.from_dict today (Py.PDict d) = Py.Returns r ->
  (Py.dict_lookup d "date" = None -> Report.date r = today)
  /\ (Py.dict_lookup d "date" = Some Py.PNone -> Report.date r = today)
  /\ (forall s, Py.dict_lookup d "date" = Some (Py.PStr s) ->
        starts_with_year s = false -> Report.date r = today)
  /\ (forall dt, Py.dict_lookup d "date" = Some (Py.PStr (Py.isoformat dt)) ->
        Py.valid_date dt = true -> Report.date r = dt)
  /\ (Py.dict_lookup d "activities" = None -> Report.activities r = [])
  /\ (Py.dict_lookup d "responsible" = None -> Report.responsible r = EmptyString)
  /\ (Py.dict_lookup d "student" = None -> Report.student r = EmptyString)
  /\ (Py.dict_lookup d "entry_time" = None -> Report.entry_time r = "00:00")
  /\ (Py.dict_lookup d "exit_time" = None -> Report.exit_time r = "00:00")
  /\ (Py.dict_lookup d "activities" = None \/ Py.dict_lookup d "responsible" = None ->
      forall fs, fst (Report.complete_validate fs r) = false).
Proof.
  intros E. apply report_from_dict_inv in E
    as (rd & acts & x & y & s & e & -> & Hd & Ha & Hx & Hy & Hs & He).
  destruct (report_init_fields_gen today x y rd s e acts)
    as (Ex & Ey & Ed & Es & Ee & Eacts).
  assert (A : Py.dict_lookup d "activities" = None -> acts = []).
  { intros H. rewrite parse_activities_missing in Ha by done. by injection Ha. }
  assert (X : Py.dict_lookup d "responsible" = None -> x = EmptyString).
  { intros H. rewrite dict_get_missing in Hx by done. by injection Hx. }
  split; [|split; [|split; [|split; [|split; [|split; [|split; [|split; [|split]]]]]]]].
  - intros H. rewrite parse_date_missing in Hd by done. injection Hd as <-.
    by rewrite Ed.
  - intros H. unfold Report.parse_date, Py.dict_get in Hd. rewrite H in Hd.
    cbn in Hd. injection Hd as <-. by rewrite Ed.
  - intros s' H N.
    rewrite (parse_date_string today d s' H), (fromisoformat_without_year s' N) in Hd.
    destruct (String.eqb s' EmptyString); injection Hd as <-; by rewrite Ed.
  - intros dt H V. pose proof (isoformat_truthy dt V) as T. cbn [Py.truthy] in T.
    apply negb_true_iff in T.
    rewrite (parse_date_string today d _ H), T, (fromisoformat_isoformat dt V) in Hd.
    injection Hd as <-. by rewrite Ed.
  - intros H. rewrite Eacts. by apply A.
  - intros H. rewrite Ex. by apply X.
  - intros H. rewrite dict_get_missing in Hy by done. injection Hy as <-. exact Ey.
  - intros H. rewrite dict_get_missing in Hs by done. injection Hs as <-. exact Es.
  - intros H. rewrite dict_get_missing in He by done. injection He as <-. exact Ee.
  - intros H fs.
    destruct (fst (Report.complete_validate fs _)) eqn:V; [|done]. exfalso.
    apply report_complete_validate_true in V as (V1 & _ & V3).
    destruct H as [H|H].
    + apply validate_activities_true in V3 as [V3 _]. apply V3.
      rewrite Eacts. by apply A.
    + apply report_required_fields_true in V1 as (V1 & _).
      apply V1. rewrite Ex, (X H). reflexivity.
Qed.

Lemma X15_report_from_dict_defaults_witness :
  Report.from_dict (Py.mkdate 2026 11 3)
    (Py.PDict [("responsible", Py.PStr "Dr. Smith"); ("student", Py.PStr "John");
               ("date", Py.PStr "not-a-date"); ("entry_time", Py.PStr "08:00");
               ("exit_time", Py.PStr "17:00")])
  = Py.Returns (Report.mk "Dr. Smith" "John" (Py.mkdate 2026 11 3)
                  "08:00" "17:00" [] "09:00")
  /\ Report.date (Report.mk "Dr. Smith" "John" (Py.mkdate 2026 11 3)
                    "08:00" "17:00" [] "09:00")
     = Py.mkdate 2026 11 3.
Proof.
  assert (E : Report.from_dict (Py.mkdate 2026 11 3)
                (Py.PDict [("responsible", Py.PStr "Dr. Smith");
                           ("student", Py.PStr "John");
                           ("date", Py.PStr "not-a-date");
                           ("entry_time", Py.PStr "08:00");
                           ("exit_time", Py.PStr "17:00")])
              = Py.Returns (Report.mk "Dr. Smith" "John" (Py.mkdate 2026 11 3)
                              "08:00" "17:00" [] "09:00"))
    by (vm_compute; reflexivity).
  split; [exact E|].
  exact (proj1 (proj2 (proj2 (X15_report_from_dict_defaults _ _ _ E)))
           "not-a-date" eq_refl eq_refl).
Defined.

(** X16. A report saved by [to_json] to a path that opens is read back
    by [from_json] from that path, with the same responsible, student,
    date and times and as many activities, each equal under [==] to the
    one saved.  When the path does not open nothing is written, and a
    path that holds no file loads no report. *)
Theorem X16_save_then_load (today : Py.date) (open_error : string -> option string)
    (files : gmap string (option Py.pyval)) (r : Report.t) (path : string) :
  Py.valid_date (Report.date r) = true ->
  (open_error path = None ->
   exists r' files' c,
     Report.to_json open_error files r path
     = (r', files', (true, "Report saved to " +:+ path))
     /\ Report.from_json today files' path
        = Py.Returns (Some c, "Report loaded from " +:+ path)
     /\ Report.eq c r = true
     /\ Forall2 (fun b a => Activity.eq b a = true)
                (Report.activities c) (Report.activities r)
     /\ (forall other, other <> path -> files' !! other = files !! other))
  /\ (forall e, open_error path = Some e ->
        Report.to_json open_error files r path
        = (r, files, (false, "Error saving report: " +:+ e)))
  /\ (files !! path = None ->
      Report.from_json today files path = Py.Returns (None, "File not found")).
Proof.
  intros V. split; [|split].
  - intros O. unfold Report.to_json. rewrite O.
    pose proof (report_from_to_dict today r V) as E.
    destruct (Report.to_dict r) as [r' d]. cbn [snd] in E.
    eexists _, _, _. split; [reflexivity|].
    unfold Report.from_json. rewrite lookup_insert_eq, E.
    split; [reflexivity|].
    destruct (report_init_fields today (Report.responsible r) (Report.student r)
                (Report.date r) (Report.entry_time r) (Report.exit_time r)
                (map reloaded (Report.activities r)))
      as (E1 & E2 & E3 & E4 & E5 & E6).
    split; [|split].
    + unfold Report.eq. rewrite E1, E2, E3, E4, E5, E6, !String.eqb_refl,
        date_eqb_refl, length_map, Nat.eqb_refl. reflexivity.
    + rewrite E6. apply Forall2_fmap_l, Forall_Forall2_diag, Forall_forall.
      intros a _. apply same_activity_eq, reloaded_same.
    + intros other Hne. by rewrite lookup_insert_ne.
  - intros e O. unfold Report.to_json. by rewrite O.
  - intros N. unfold Report.from_json. by rewrite N.
Qed.

Lemma X16_save_then_load_witness :
  Report.to_json (fun _ => Some "Permission denied") ∅ two_activities "r.json"
  = (two_activities, ∅, (false, "Error saving report: Permission denied")).
Proof.
  apply (proj1 (proj2 (X16_save_then_load (Py.mkdate 2026 11 3)
                         (fun _ => Some "Permission denied") ∅ two_activities
                         "r.json" eq_refl))).
  reflexivity.
Defined.

(** * More on the activities of a report *)

Section ReportOperations.

Variable fs : filesystem.

Lemma add_activity_cases r act :
  (fst (Activity.complete_validate fs act) = true
   /\ Report.add_activity fs r act
      = (Report.set_activities r (Report.activities r ++ [act]),
         (true, "Activity added (Total: "
                +:+ Py.str_of_int (Z.of_nat (length (Report.activities r ++ [act])))
                +:+ ")")))
  \/ (fst (Activity.complete_validate fs act) = false
      /\ Report.add_activity fs r act
         = (r, (false, "Invalid activity: "
                       +:+ snd (Activity.complete_validate fs act)))).
Proof.
  unfold Report.add_activity.
  destruct (Activity.complete_validate fs act) as [[] m]; cbn [negb fst snd];
    [left|right]; by split.
Qed.

Lemma in_range_lookup {A : Type} (l : list A) (i : Z) :
  0 <= i < Z.of_nat (length l) -> is_Some (l !! Z.to_nat i).
Proof. intros H. apply lookup_lt_is_Some. lia. Qed.

Lemma in_range_test {A : Type} (l : list A) (i : Z) :
  (0 <=? i) && (i <? Z.of_nat (length l)) = true <-> 0 <= i < Z.of_nat (length l).
Proof. rewrite andb_true_iff, Z.leb_le, Z.ltb_lt. done. Qed.

Lemma edit_activity_cases r i act :
  (exists old,
     0 <= i < Z.of_nat (length (Report.activities r))
     /\ fst (Activity.complete_validate fs act) = true
     /\ Report.activities r !! Z.to_nat i = Some old
     /\ Report.edit_activity fs r i act
        = (Report.set_activities r (<[Z.to_nat i := act]> (Report.activities r)),
           (true, "Activity '" +:+ Activity.title old +:+ "' updated")))
  \/ (~ (0 <= i < Z.of_nat (length (Report.activities r))
         /\ fst (Activity.complete_validate fs act) = true)
      /\ fst (Report.edit_activity fs r i act) = r
      /\ fst (snd (Report.edit_activity fs r i act)) = false).
Proof.
  unfold Report.edit_activity.
  destruct ((0 <=? i) && (i <? Z.of_nat (length (Report.activities r)))) eqn:E;
    cbn [negb].
  2:{ right. split; [|done]. intros [H _]. apply in_range_test in H. congruence. }
  apply in_range_test in E.
  destruct (Activity.complete_validate fs act) as [[] m]; cbn [negb fst snd].
  2:{ right. split; [|done]. by intros [_ ?]. }
  destruct (in_range_lookup _ _ E) as [old Ho]. rewrite Ho.
  left. by exists old.
Qed.

Lemma remove_activity_cases r i :
  (exists removed,
     0 <= i < Z.of_nat (length (Report.activities r))
     /\ Report.activities r !! Z.to_nat i = Some removed
     /\ Report.remove_activity r i
        = (Report.set_activities r (delete (Z.to_nat i) (Report.activities r)),
           (true, "Activity '" +:+ Activity.title removed +:+ "' removed")))
  \/ (~ (0 <= i < Z.of_nat (length (Report.activities r)))
      /\ Report.remove_activity r i = (r, (false, "Invalid index"))).
Proof.
  unfold Report.remove_activity.
  destruct ((0 <=? i) && (i <? Z.of_nat (length (Report.activities r)))) eqn:E.
  - apply in_range_test in E. destruct (in_range_lookup _ _ E) as [x Hx].
    rewrite Hx. left. by exists x.
  - right. split; [|done]. intros H. apply in_range_test in H. congruence.
Qed.

Lemma move_activity_cases r i j :
  (exists moved,
     0 <= i < Z.of_nat (length (Report.activities r))
     /\ 0 <= j < Z.of_nat (length (Report.activities r))
     /\ Report.activities r !! Z.to_nat i = Some moved
     /\ Report.move_activity r i j
        = (Report.set_activities r
             (Py.list_insert_at (Z.to_nat j) moved
                (delete (Z.to_nat i) (Report.activities r))),
           (true, "Activity '" +:+ Activity.title moved +:+ "' moved")))
  \/ (~ (0 <= i < Z.of_nat (length (Report.activities r))
         /\ 0 <= j < Z.of_nat (length (Report.activities r)))
      /\ fst (Report.move_activity r i j) = r
      /\ fst (snd (Report.move_activity r i j)) = false).
Proof.
  unfold Report.move_activity.
  destruct ((0 <=? i) && (i <? Z.of_nat (length (Report.activities r)))) eqn:E;
    cbn [negb].
  2:{ right. split; [|done]. intros [H _]. apply in_range_test in H. congruence. }
  destruct ((0 <=? j) && (j <? Z.of_nat (length (Report.activities r)))) eqn:F;
    cbn [negb].
  2:{ right. split; [|done]. intros [_ H]. apply in_range_test in H. congruence. }
  apply in_range_test in E, F.
  destruct (in_range_lookup _ _ E) as [x Hx]. rewrite Hx. left. by exists x.
Qed.

End ReportOperations.

Section MoveFacts.

Context {A : Type}.

Lemma moved_length (l : list A) (i j : nat) (x : A) :
  l !! i = Some x -> (j < length l)%nat ->
  length (Py.list_insert_at j x (delete i l)) = length l.
Proof.
  intros Hx Hj. unfold Py.list_insert_at.
  rewrite length_app, length_take, length_cons, length_drop.
  rewrite length_delete by eauto. apply lookup_lt_Some in Hx. lia.
Qed.

Lemma moved_permutation (l : list A) (i j : nat) (x : A) :
  l !! i = Some x -> Py.list_insert_at j x (delete i l) ≡ₚ l.
Proof.
  intros Hx. unfold Py.list_insert_at.
  rewrite <- Permutation_middle, take_drop. symmetry. by apply delete_Permutation.
Qed.

Lemma moved_lookup (l : list A) (i j : nat) (x : A) :
  l !! i = Some x -> (j < length l)%nat ->
  Py.list_insert_at j x (delete i l) !! j = Some x.
Proof.
  intros Hx Hj. unfold Py.list_insert_at. apply list_lookup_middle.
  rewrite length_take, length_delete by eauto. apply lookup_lt_Some in Hx. lia.
Qed.

Lemma moved_others (l : list A) (i j : nat) (x : A) :
  l !! i = Some x -> (j < length l)%nat ->
  delete j (Py.list_insert_at j x (delete i l)) = delete i l.
Proof.
  intros Hx Hj. unfold Py.list_insert_at.
  assert (E : j = length (take j (delete i l))).
  { rewrite length_take, length_delete by eauto. apply lookup_lt_Some in Hx. lia. }
  rewrite E at 1. by rewrite delete_middle, take_drop.
Qed.

Lemma moved_same_place (l : list A) (i : nat) (x : A) :
  l !! i = Some x -> Py.list_insert_at i x (delete i l) = l.
Proof.
  intros Hx. pose proof (lookup_lt_Some _ _ _ Hx) as Hlt.
  unfold Py.list_insert_at. rewrite delete_take_drop.
  assert (L : length (take i l) = i) by (rewrite length_take; lia).
  rewrite take_app_le by lia.
  rewrite take_take, Nat.min_id.
  rewrite drop_app_ge by lia.
  rewrite L, Nat.sub_diag. cbn [drop]. by apply take_drop_middle.
Qed.

End MoveFacts.

(** X17. [add_activity] succeeds exactly when the activity passes
    [complete_validate]; it then puts the activity after those already
    there, where [get_activity] finds it at the last index; an activity
    that does not pass is refused with its own message after the prefix,
    and the report is unchanged. *)
Theorem X17_add_activity_spec (fs : filesystem) (r : Report.t) (act : Activity.t) :
  (fst (snd (Report.add_activity fs r act)) = true <->
     fst (Activity.complete_validate fs act) = true)
  /\ (fst (Activity.complete_validate fs act) = true ->
      fst (Report.add_activity fs r act)
      = Report.set_activities r (Report.activities r ++ [act])
      /\ Report.get_activity (fst (Report.add_activity fs r act))
           (Report.get_activity_count r) = Some act
      /\ Report.get_activity_count (fst (Report.add_activity fs r act))
         = Report.get_activity_count r + 1)
  /\ (fst (Activity.complete_validate fs act) = false ->
      Report.add_activity fs r act
      = (r, (false, "Invalid activity: "
                    +:+ snd (Activity.complete_validate fs act)))).
Proof.
  destruct (add_activity_cases fs r act) as [(V & E)|(V & E)]; rewrite E, V;
    cbn [fst snd].
  - split; [done|]. split; [|discriminate]. intros _. split; [done|].
    unfold Report.get_activity, Report.get_activity_count.
    cbn [Report.activities Report.set_activities].
    rewrite length_app. cbn [length]. split; [|lia].
    destruct (Z.leb_spec 0 (Z.of_nat (length (Report.activities r)))); [|lia].
    destruct (Z.ltb_spec (Z.of_nat (length (Report.activities r)))
                (Z.of_nat (length (Report.activities r) + 1))); [|lia].
    cbn [andb]. rewrite Nat2Z.id. by apply list_lookup_middle.
  - split; [split; discriminate|]. split; [discriminate|done].
Qed.

Lemma X17_add_activity_spec_witness :
  Report.add_activity ∅ blank_report
    (Activity.mk " " "d" "09:00" "10:00" [] EmptyString)
  = (blank_report, (false, "Invalid activity: Title is required")).
Proof.
  apply (proj2 (proj2 (X17_add_activity_spec ∅ blank_report
                         (Activity.mk " " "d" "09:00" "10:00" [] EmptyString)))).
  reflexivity.
Defined.

(** X18. [edit_activity] succeeds exactly when the index is in range and
    the new activity passes [complete_validate]; it then replaces the
    activity at that index and no other, and the number of activities is
    the same; otherwise the report is unchanged. *)
Theorem X18_edit_activity_spec (fs : filesystem) (r : Report.t) (index : Z)
    (act : Activity.t) :
  (fst (snd (Report.edit_activity fs r index act)) = true <->
     0 <= index < Z.of_nat (length (Report.activities r))
     /\ fst (Activity.complete_validate fs act) = true)
  /\ (fst (snd (Report.edit_activity fs r index act)) = true ->
      let r' := fst (Report.edit_activity fs r index act) in
      Report.get_activity r' index = Some act
      /\ (forall j, j <> index -> Report.get_activity r' j = Report.get_activity r j)
      /\ Report.get_activity_count r' = Report.get_activity_count r
      /\ r' = Report.set_activities r (Report.activities r'))
  /\ (fst (snd (Report.edit_activity fs r index act)) = false ->
      fst (Report.edit_activity fs r index act) = r).
Proof.
  destruct (edit_activity_cases fs r index act)
    as [(old & Hi & V & Ho & E)|(N & E1 & E2)].
  - rewrite E. cbn [fst snd]. split; [done|]. split; [|discriminate]. intros _.
    unfold Report.get_activity, Report.get_activity_count.
    cbn [Report.activities Report.set_activities]. rewrite length_insert.
    split; [|split; [|done]].
    + rewrite (proj2 (in_range_test _ _) Hi).
      apply list_lookup_insert_eq. lia.
    + intros j Hj. destruct ((0 <=? j) && _) eqn:F; [|done].
      apply in_range_test in F. apply list_lookup_insert_ne. lia.
  - rewrite E1, E2. split; [|split; [discriminate|done]].
    split; [discriminate|]. intros H. by destruct N.
Qed.

Lemma X18_edit_activity_spec_witness :
  fst (Report.edit_activity ∅ two_activities 2
         (Activity.init "Reading" "Notes" "09:00" "11:30" None))
  = two_activities.
Proof.
  apply (proj2 (proj2 (X18_edit_activity_spec ∅ two_activities 2
                         (Activity.init "Reading" "Notes" "09:00" "11:30" None)))).
  reflexivity.
Defined.

(** X19. [remove_activity] with an index in range removes the activity at
    that index and no other (those before keep their index, those after
    move up by one) and names it in the message; with any other index it
    fails and the report is unchanged. *)
Theorem X19_remove_activity_spec (r : Report.t) (index : Z) :
  (fst (snd (Report.remove_activity r index)) = true <->
     0 <= index < Z.of_nat (length (Report.activities r)))
  /\ (fst (snd (Report.remove_activity r index)) = true ->
      let r' := fst (Report.remove_activity r index) in
      Report.get_activity_count r' = Report.get_activity_count r - 1
      /\ (forall j, 0 <= j < index ->
            Report.get_activity r' j = Report.get_activity r j)
      /\ (forall j, index <= j ->
            Report.get_activity r' j = Report.get_activity r (j + 1))
      /\ (exists removed,
            Report.get_activity r index = Some removed
            /\ snd (snd (Report.remove_activity r index))
               = "Activity '" +:+ Activity.title removed +:+ "' removed"))
  /\ (fst (snd (Report.remove_activity r index)) = false ->
      Report.remove_activity r index = (r, (false, "Invalid index"))).
Proof.
  destruct (remove_activity_cases r index) as [(x & Hi & Hx & E)|(N & E)];
    rewrite E; cbn [fst snd].
  2:{ split; [split; [discriminate|done]|]. split; [discriminate|done]. }
  split; [done|]. split; [|discriminate]. intros _.
  assert (L : length (delete (Z.to_nat index) (Report.activities r))
              = (length (Report.activities r) - 1)%nat).
  { apply length_delete. eauto. }
  unfold Report.get_activity, Report.get_activity_count.
  cbn [Report.activities Report.set_activities]. rewrite L.
  split; [lia|]. split; [|split].
  - intros j Hj.
    destruct (Z.leb_spec 0 j); [|lia]. cbn [andb].
    destruct (Z.ltb_spec j (Z.of_nat (length (Report.activities r) - 1)));
      destruct (Z.ltb_spec j (Z.of_nat (length (Report.activities r)))); try lia.
    apply list_lookup_delete_lt. lia.
  - intros j Hj.
    destruct (Z.leb_spec 0 j); [|lia]. destruct (Z.leb_spec 0 (j + 1)); [|lia].
    cbn [andb].
    destruct (Z.ltb_spec j (Z.of_nat (length (Report.activities r) - 1)));
      destruct (Z.ltb_spec (j + 1) (Z.of_nat (length (Report.activities r))));
      try lia; [|done].
    rewrite list_lookup_delete_ge by lia. f_equal. lia.
  - exists x. rewrite (proj2 (in_range_test _ _) Hi). by split.
Qed.

Lemma X19_remove_activity_spec_witness :
  Report.remove_activity two_activities 2 = (two_activities, (false, "Invalid index")).
Proof.
  apply (proj2 (proj2 (X19_remove_activity_spec two_activities 2))).
  reflexivity.
Defined.

(** X20. [move_activity] succeeds exactly when both indices are in range.
    It then rearranges the same activities: the one that was at
    [from_index] is at [to_index], the others keep their order, and moving
    an activity to its own index changes nothing.  Otherwise the report is
    unchanged. *)
Theorem X20_move_activity_spec (r : Report.t) (from_index to_index : Z) :
  (fst (snd (Report.move_activity r from_index to_index)) = true <->
     0 <= from_index < Z.of_nat (length (Report.activities r))
     /\ 0 <= to_index < Z.of_nat (length (Report.activities r)))
  /\ (fst (snd (Report.move_activity r from_index to_index)) = true ->
      let r' := fst (Report.move_activity r from_index to_index) in
      Report.activities r' ≡ₚ Report.activities r
      /\ Report.get_activity r' to_index = Report.get_activity r from_index
      /\ delete (Z.to_nat to_index) (Report.activities r')
         = delete (Z.to_nat from_index) (Report.activities r)
      /\ (from_index = to_index -> r' = r))
  /\ (fst (snd (Report.move_activity r from_index to_index)) = false ->
      fst (Report.move_activity r from_index to_index) = r).
Proof.
  destruct (move_activity_cases r from_index to_index)
    as [(x & Hi & Hj & Hx & E)|(N & E1 & E2)].
  2:{ rewrite E1, E2. split; [|split; [discriminate|done]].
      split; [discriminate|]. intros H. by destruct N. }
  rewrite E. cbn [fst snd]. split; [done|]. split; [|discriminate]. intros _.
  assert (Z.to_nat to_index < length (Report.activities r))%nat by lia.
  cbn [Report.activities Report.set_activities].
  split; [by apply moved_permutation|]. split; [|split].
  - unfold Report.get_activity. cbn [Report.activities Report.set_activities].
    rewrite moved_length by done.
    rewrite (proj2 (in_range_test _ _) Hi), (proj2 (in_range_test _ _) Hj), Hx.
    by apply moved_lookup.
  - by apply moved_others.
  - intros ->. rewrite moved_same_place by done. by destruct r.
Qed.

Lemma X20_move_activity_spec_witness :
  fst (Report.move_activity two_activities 0 2) = two_activities.
Proof.
  apply (proj2 (proj2 (X20_move_activity_spec two_activities 0 2))).
  reflexivity.
Defined.

(** X21. [get_activity] returns the activity at an index from 0 to the
    count less one, and [None] for every other index: a negative index
    does not count from the end. *)
Theorem X21_get_activity_bounds (r : Report.t) (index : Z) :
  (is_Some (Report.get_activity r index) <->
     0 <= index < Report.get_activity_count r)
  /\ (0 <= index < Report.get_activity_count r ->
      Report.get_activity r index = Report.activities r !! Z.to_nat index)
  /\ (index < 0 -> Report.get_activity r index = None).
Proof.
  unfold Report.get_activity, Report.get_activity_count.
  destruct ((0 <=? index) && _) eqn:E.
  - apply in_range_test in E. split; [|split; [done|lia]].
    split; [done|]. intros _. by apply in_range_lookup.
  - assert (N : ~ (0 <= index < Z.of_nat (length (Report.activities r)))).
    { intros H. apply in_range_test in H. congruence. }
    split; [|split; [done|done]]. split; [by intros [? ?]|done].
Qed.

Lemma X21_get_activity_bounds_witness :
  Report.get_activity two_activities (-1) = None.
Proof.
  apply (proj2 (proj2 (X21_get_activity_bounds two_activities (-1)))). lia.
Defined.

(** X22. A report whose activities all pass [complete_validate] keeps
    that property under [add_activity], [edit_activity], [remove_activity],
    [move_activity] and [clear_activities], whether they succeed or fail;
    and after an [add_activity] that succeeds, [validate_activities]
    passes. *)
Theorem X22_activities_stay_valid (fs : filesystem) (r : Report.t) :
  Forall (fun a => fst (Activity.complete_validate fs a) = true)
         (Report.activities r) ->
  let valid r' :=
    Forall (fun a => fst (Activity.complete_validate fs a) = true)
           (Report.activities r') in
  (forall act, valid (fst (Report.add_activity fs r act)))
  /\ (forall i act, valid (fst (Report.edit_activity fs r i act)))
  /\ (forall i, valid (fst (Report.remove_activity r i)))
  /\ (forall i j, valid (fst (Report.move_activity r i j)))
  /\ valid (Report.clear_activities r)
  /\ (forall act, fst (snd (Report.add_activity fs r act)) = true ->
        fst (Report.validate_activities fs (fst (Report.add_activity fs r act)))
        = true).
Proof.
  intros H valid. subst valid. cbn beta.
  assert (ADD : forall act,
            Forall (fun a => fst (Activity.complete_validate fs a) = true)
              (Report.activities (fst (Report.add_activity fs r act)))).
  { intros act. destruct (add_activity_cases fs r act) as [(V & ->)|(V & ->)];
      [|done].
    cbn [fst Report.activities Report.set_activities].
    apply Forall_app. split; [done|]. by constructor. }
  split; [exact ADD|]. split; [|split; [|split; [|split]]].
  - intros i act.
    destruct (edit_activity_cases fs r i act) as [(old & _ & V & _ & ->)|(_ & -> & _)];
      [|done].
    cbn [fst Report.activities Report.set_activities]. by apply Forall_insert.
  - intros i. destruct (remove_activity_cases r i) as [(x & _ & _ & ->)|(_ & ->)];
      [|done].
    cbn [fst Report.activities Report.set_activities].
    eapply Forall_of_sublist; [apply sublist_delete|done].
  - intros i j.
    destruct (move_activity_cases r i j) as [(x & _ & _ & Hx & ->)|(_ & -> & _)];
      [|done].
    cbn [fst Report.activities Report.set_activities].
    by rewrite (moved_permutation _ _ _ _ Hx).
  - constructor.
  - intros act S. apply validate_activities_true. split; [|apply ADD].
    destruct (add_activity_cases fs r act) as [(V & E)|(V & E)]; rewrite E in *;
      [|discriminate].
    cbn [fst Report.activities Report.set_activities]. by destruct (Report.activities r).
Qed.

Lemma X22_activities_stay_valid_witness :
  Forall (fun a => fst (Activity.complete_validate ∅ a) = true)
         (Report.activities (fst (Report.remove_activity two_activities 0)))
  /\ map Activity.title
       (Report.activities (fst (Report.remove_activity two_activities 0)))
     = ["Writing"]
  /\ fst (Report.validate_activities ∅
            (fst (Report.add_activity ∅ two_activities
                    (Activity.init "Review" "Slides" "15:00" "16:00" None))))
     = true
  /\ Report.get_activity_count
       (fst (Report.add_activity ∅ two_activities
               (Activity.init "Review" "Slides" "15:00" "16:00" None)))
     = 3.
Proof.
  assert (H : Forall (fun a => fst (Activity.complete_validate ∅ a) = true)
                (Report.activities two_activities)).
  { repeat constructor. }
  split; [exact (proj1 (proj2 (proj2 (X22_activities_stay_valid ∅ _ H))) 0)|].
  split; [vm_compute; reflexivity|].
  split; [|vm_compute; reflexivity].
  apply (proj2 (proj2 (proj2 (proj2 (proj2 (X22_activities_stay_valid ∅ _ H)))))).
  vm_compute. reflexivity.
Defined.

(** * Searches and statistics *)

Section StringOrder.

Lemma digit_val_range c : Py.is_digit c = true -> 0 <= Py.digit_val c <= 9.
Proof.
  intros H.
  assert (E : (0 <=? Py.digit_val c) && (Py.digit_val c <=? 9) = true).
  { revert c H.
    apply (forall_digit (fun c => (0 <=? Py.digit_val c) && (Py.digit_val c <=? 9))).
    vm_compute. reflexivity. }
  apply andb_true_iff in E as [E1 E2].
  apply Z.leb_le in E1. apply Z.leb_le in E2. lia.
Qed.

Ltac order_cases :=
  repeat match goal with
         | |- context [(?x <? ?y)%N] => destruct (N.ltb_spec x y); cbv iota
         end.

(** On zero-padded times the order of the strings is the order of the
    clock. *)
Lemma str_leb_strict a b h m h' m' :
  strict_HHMM a h m -> strict_HHMM b h' m' ->
  Py.str_leb a b = true <-> minute_of_day (h, m) <= minute_of_day (h', m').
Proof.
  intros (a1 & a2 & a3 & a4 & -> & A1 & A2 & A3 & A4 & -> & Ah & -> & Am)
         (b1 & b2 & b3 & b4 & -> & B1 & B2 & B3 & B4 & -> & Bh & -> & Bm).
  apply digit_val_range in A1, A2, A3, A4, B1, B2, B3, B4.
  unfold minute_of_day. cbn [fst snd Py.str_leb].
  rewrite (N.ltb_irrefl (N_of_ascii ":")).
  unfold Py.digit_val in *.
  order_cases; (split; [intros E; try discriminate E; lia|intros E; try reflexivity; lia]).
Qed.

(** A time written with a one-digit hour from 3 to 9 comes after every
    zero-padded time. *)
Lemma str_leb_short_hour c rest b h m :
  strict_HHMM b h m -> 3 <= Py.digit_val c ->
  Py.str_leb (String c (String ":" rest)) b = false.
Proof.
  intros (b1 & b2 & b3 & b4 & -> & B1 & B2 & B3 & B4 & -> & Bh & -> & Bm) Hc.
  apply digit_val_range in B1, B2, B3, B4.
  cbn [Py.str_leb]. unfold Py.digit_val in *.
  destruct (N.ltb_spec (N_of_ascii c) (N_of_ascii b1)); [lia|].
  destruct (N.ltb_spec (N_of_ascii b1) (N_of_ascii c)); [reflexivity|lia].
Qed.

End StringOrder.

(** X23. [find_activities_by_time_range] returns activities of the
    report in their order.  Between two zero-padded times it finds an
    activity whose start time is zero-padded exactly when that start lies
    between them on the clock; an activity whose start time is written with
    a one-digit hour from 3 to 9, which the validation accepts, is never
    found. *)
Theorem X23_find_activities_by_time_range
    (r : Report.t) (s e : string) (hs ms he me : Z) :
  strict_HHMM s hs ms -> strict_HHMM e he me ->
  Report.find_activities_by_time_range r s e `sublist_of` Report.activities r
  /\ (forall a h m, strict_HHMM (Activity.start_time a) h m ->
        a ∈ Report.find_activities_by_time_range r s e <->
        a ∈ Report.activities r
        /\ minute_of_day (hs, ms) <= minute_of_day (h, m) <= minute_of_day (he, me))
  /\ (forall a c rest, Activity.start_time a = String c (String ":" rest) ->
        3 <= Py.digit_val c ->
        a ∉ Report.find_activities_by_time_range r s e).
Proof.
  intros Hs He. unfold Report.find_activities_by_time_range.
  split; [apply sublist_filter|]. split.
  - intros a h m Ha. rewrite list_elem_of_filter, andb_True, !Is_true_true.
    rewrite (str_leb_strict _ _ _ _ _ _ Hs Ha), (str_leb_strict _ _ _ _ _ _ Ha He).
    tauto.
  - intros a c rest Ea Hc. rewrite list_elem_of_filter, andb_True, !Is_true_true.
    rewrite Ea, (str_leb_short_hour c rest e he me He Hc).
    intros [[_ ?] _]. discriminate.
Qed.

Lemma X23_find_activities_by_time_range_witness :
  Activity.mk "Reading" "Notes" "09:00" "11:30" [] EmptyString
  ∈ Report.find_activities_by_time_range
      (Report.set_activities blank_report
         [Activity.mk "Reading" "Notes" "09:00" "11:30" [] EmptyString])
      "08:00" "10:00".
Proof.
  assert (S1 : strict_HHMM "08:00" 8 0).
  { exists "0"%char, "8"%char, "0"%char, "0"%char.
    repeat split; try reflexivity; lia. }
  assert (S2 : strict_HHMM "10:00" 10 0).
  { exists "1"%char, "0"%char, "0"%char, "0"%char.
    repeat split; try reflexivity; lia. }
  assert (S3 : strict_HHMM "09:00" 9 0).
  { exists "0"%char, "9"%char, "0"%char, "0"%char.
    repeat split; try reflexivity; lia. }
  apply (proj2 (proj1 (proj2 (X23_find_activities_by_time_range
                                (Report.set_activities blank_report
                                   [Activity.mk "Reading" "Notes" "09:00" "11:30" []
                                      EmptyString])
                                "08:00" "10:00" 8 0 10 0 S1 S2))
                  (Activity.mk "Reading" "Notes" "09:00" "11:30" [] EmptyString)
                  9 0 S3)).
  split; [apply list_elem_of_here|unfold minute_of_day; cbn [fst snd]; lia].
Defined.

Section Substrings.

Lemma append_nil t : EmptyString +:+ t = t.
Proof. reflexivity. Qed.

Lemma append_cons c s t : String c s +:+ t = String c (s +:+ t).
Proof. reflexivity. Qed.

Lemma startswith_spec p s :
  Py.startswith p s = true <-> exists post, s = p +:+ post.
Proof.
  revert s. induction p as [|c p IH]; intros s; cbn [Py.startswith].
  - split; [intros _; by exists s|done].
  - destruct s as [|d s].
    + split; [discriminate|]. intros [post E]. rewrite append_cons in E.
      discriminate E.
    + rewrite andb_true_iff, IH. split.
      * intros [E [post ->]]. apply Ascii.eqb_eq in E as ->.
        exists post. by rewrite append_cons.
      * intros [post E]. rewrite append_cons in E. injection E as -> ->.
        split; [apply Ascii.eqb_refl|by exists post].
Qed.

Lemma is_substring_spec needle hay :
  Py.is_substring needle hay = true <->
  exists pre post, hay = pre +:+ needle +:+ post.
Proof.
  induction hay as [|d hay IH]; cbn [Py.is_substring];
    rewrite orb_true_iff, startswith_spec.
  - split.
    + intros [[post E]|E]; [|discriminate E]. by exists EmptyString, post.
    + intros ([|c pre] & post & E); [|rewrite append_cons in E; discriminate E].
      left. by exists post.
  - rewrite IH. split.
    + intros [[post E]|(pre & post & E)].
      * by exists EmptyString, post.
      * exists (String d pre), post. by rewrite append_cons, E.
    + intros ([|c pre] & post & E).
      * left. by exists post.
      * rewrite append_cons in E. injection E as -> ->. right. by exists pre, post.
Qed.

Lemma lower_char_idem c : Py.lower_char (Py.lower_char c) = Py.lower_char c.
Proof. destruct c as [[] [] [] [] [] [] [] []]; vm_compute; reflexivity. Qed.

Lemma lower_idem s : Py.lower (Py.lower s) = Py.lower s.
Proof.
  induction s as [|c s IH]; cbn [Py.lower]; [done|].
  by rewrite lower_char_idem, IH.
Qed.

Lemma is_substring_refl s : Py.is_substring s s = true.
Proof.
  apply is_substring_spec. exists EmptyString, EmptyString.
  rewrite append_nil. clear. induction s as [|c s IH]; [done|].
  by rewrite append_cons, <- IH.
Qed.

Lemma is_substring_empty s : Py.is_substring EmptyString s = true.
Proof. by destruct s. Qed.

End Substrings.

(** X24. [find_activities_by_title] returns activities of the report in
    their order: those whose title, in lower case, contains the query in
    lower case.  The case of the query does not matter, the empty query
    finds every activity, and every activity is found by its own title. *)
Theorem X24_find_activities_by_title (r : Report.t) (title : string) :
  Report.find_activities_by_title r title `sublist_of` Report.activities r
  /\ (forall a, a ∈ Report.find_activities_by_title r title <->
        a ∈ Report.activities r
        /\ exists pre post,
             Py.lower (Activity.title a) = pre +:+ Py.lower title +:+ post)
  /\ Report.find_activities_by_title r (Py.lower title)
     = Report.find_activities_by_title r title
  /\ Report.find_activities_by_title r EmptyString = Report.activities r
  /\ (forall a, a ∈ Report.activities r ->
        a ∈ Report.find_activities_by_title r (Activity.title a)).
Proof.
  unfold Report.find_activities_by_title. cbv zeta.
  split; [apply sublist_filter|]. split; [|split; [|split]].
  - intros a. rewrite list_elem_of_filter, Is_true_true, is_substring_spec. tauto.
  - by rewrite lower_idem.
  - cbn [Py.lower]. induction (Report.activities r) as [|a l IH]; [done|].
    rewrite filter_cons_True, IH; [done|].
    apply Is_true_true, is_substring_empty.
  - intros a Ha. apply list_elem_of_filter. split; [|done].
    apply Is_true_true, is_substring_refl.
Qed.

Section Best.

Context {A : Type}.

(** [first_best] returns the first item whose key is best. *)
Lemma first_best_spec (f : Z -> Z) (better : Z -> Z -> bool) :
  (forall k b, better k b = (f b <? f k)) ->
  forall (l : list (A * Z)) (best : A * Z),
  exists (i : nat) (x : A * Z),
    (best :: l) !! i = Some x
    /\ Report.first_best better best l = fst x
    /\ (forall j y, (best :: l) !! j = Some y -> f (snd y) <= f (snd x))
    /\ (forall j y, (j < i)%nat -> (best :: l) !! j = Some y -> f (snd y) < f (snd x)).
Proof.
  intros Hb. induction l as [|x rest IH]; intros best; cbn [Report.first_best].
  - exists 0%nat, best. split; [done|]. split; [done|]. split.
    + intros [|j] y E; [|done]. injection E as <-. lia.
    + intros j y Hj. lia.
  - rewrite Hb. destruct (Z.ltb_spec (f (snd best)) (f (snd x))) as [Hlt|Hge].
    + destruct (IH x) as (i & z & Ei & -> & Hall & Hbefore).
      pose proof (Hall 0%nat x eq_refl) as Hx.
      exists (S i), z. split; [done|]. split; [done|]. split.
      * intros [|j] y E; [injection E as <-; lia|]. by eapply Hall.
      * intros [|j] y Hj E; [injection E as <-; lia|].
        eapply Hbefore; [|exact E]. lia.
    + destruct (IH best) as (i & z & Ei & -> & Hall & Hbefore).
      pose proof (Hall 0%nat best eq_refl) as H0.
      destruct i as [|i].
      * injection Ei as <-. exists 0%nat, best. split; [done|]. split; [done|].
        split; [|intros j y Hj; lia].
        intros [|[|j]] y E.
        -- injection E as <-. lia.
        -- injection E as <-. lia.
        -- by apply (Hall (S j) y).
      * exists (S (S i)), z. split; [done|]. split; [done|].
        pose proof (Hbefore 0%nat best ltac:(lia) eq_refl) as Hbest.
        split.
        -- intros [|[|j]] y E.
           ++ injection E as <-. lia.
           ++ injection E as <-. lia.
           ++ by apply (Hall (S j) y).
        -- intros [|[|j]] y Hj E.
           ++ injection E as <-. lia.
           ++ injection E as <-. lia.
           ++ apply (Hbefore (S j) y); [lia|done].
Qed.

End Best.

Section Statistics.

Lemma get_duration_in_minutes_title a :
  Activity.title (fst (Activity.get_duration_in_minutes a)) = Activity.title a.
Proof.
  rewrite get_duration_in_minutes_fst.
  destruct (_ || _); [|done].
  by destruct (calculate_duration_fields a) as (<- & _).
Qed.

Lemma keyed_lookup acts i x :
  Report.keyed acts !! i = Some x ->
  exists a, acts !! i = Some a
            /\ Activity.title (fst x) = Activity.title a
            /\ snd x = duration_minutes a.
Proof.
  unfold Report.keyed. rewrite list_lookup_fmap.
  destruct (acts !! i) as [a|]; [|done].
  intros [= <-]. exists a. split; [done|].
  split; [apply get_duration_in_minutes_title|done].
Qed.

Lemma keyed_lookup_of acts i a :
  acts !! i = Some a ->
  exists x, Report.keyed acts !! i = Some x /\ snd x = duration_minutes a.
Proof.
  intros E. exists (Activity.get_duration_in_minutes a).
  unfold Report.keyed. by rewrite list_lookup_fmap, E.
Qed.

(** The item that [max] or [min] over the keyed activities picks. *)
Lemma best_activity (f : Z -> Z) (better : Z -> Z -> bool) acts x rest :
  (forall k b, better k b = (f b <? f k)) ->
  Report.keyed acts = x :: rest ->
  exists i a,
    acts !! i = Some a
    /\ Activity.title (Report.first_best better x rest) = Activity.title a
    /\ (forall k c, acts !! k = Some c ->
          f (duration_minutes c) <= f (duration_minutes a))
    /\ (forall k c, (k < i)%nat -> acts !! k = Some c ->
          f (duration_minutes c) < f (duration_minutes a)).
Proof.
  intros Hb E.
  destruct (first_best_spec f better Hb rest x) as (i & z & Ei & -> & Hall & Hbefore).
  rewrite <- E in Ei, Hall, Hbefore.
  destruct (keyed_lookup _ _ _ Ei) as (a & Ea & Et & Ek).
  exists i, a. split; [done|]. split; [done|]. rewrite <- Ek. split.
  - intros k c Ec. destruct (keyed_lookup_of _ _ _ Ec) as (y & Ey & <-).
    by eapply Hall.
  - intros k c Hk Ec. destruct (keyed_lookup_of _ _ _ Ec) as (y & Ey & <-).
    by eapply Hbefore.
Qed.

Lemma sum_image_counts (acts : list Activity.t) :
  0 <= Report.sum (map (fun a => Z.of_nat (length (Activity.images a))) acts)
  /\ Z.of_nat (length (filter (fun a => (0 < length (Activity.images a))%nat) acts))
     <= Report.sum (map (fun a => Z.of_nat (length (Activity.images a))) acts)
  /\ (Report.sum (map (fun a => Z.of_nat (length (Activity.images a))) acts) = 0 ->
      filter (fun a => (0 < length (Activity.images a))%nat) acts = []).
Proof.
  unfold Report.sum. induction acts as [|a l (IH1 & IH2 & IH3)]; [done|].
  cbn [map foldl]. rewrite foldl_add, filter_cons.
  destruct (decide (0 < length (Activity.images a))%nat) as [Hp|Hn].
  - cbn [length]. split; [lia|]. split; [lia|]. intros E. lia.
  - split; [lia|]. split; [lia|]. intros E. apply IH3. lia.
Qed.

Lemma get_duration_in_minutes_images a :
  Activity.images (fst (Activity.get_duration_in_minutes a)) = Activity.images a.
Proof.
  rewrite get_duration_in_minutes_fst.
  destruct (_ || _); [|done].
  by destruct (calculate_duration_fields a) as (_ & _ & _ & _ & <-).
Qed.

Lemma refreshed_image_counts acts :
  map (fun a => Z.of_nat (length (Activity.images a))) (Report.refreshed acts)
  = map (fun a => Z.of_nat (length (Activity.images a))) acts.
Proof.
  unfold Report.refreshed. rewrite map_map. apply map_ext. intros a.
  by rewrite get_duration_in_minutes_images.
Qed.

Lemma refreshed_with_images acts :
  length (filter (fun a => (0 < length (Activity.images a))%nat)
                 (Report.refreshed acts))
  = length (filter (fun a => (0 < length (Activity.images a))%nat) acts).
Proof.
  unfold Report.refreshed. induction acts as [|a l IH]; [done|].
  cbn [map]. rewrite !filter_cons, get_duration_in_minutes_images.
  destruct (decide (0 < length (Activity.images a))%nat); cbn [length];
    by rewrite IH.
Qed.

(** The three counts that [get_statistics] reports are those of the
    report it is called on: filling the memos changes no image. *)
Lemma get_statistics_counts r :
  Py.dict_lookup (snd (Report.get_statistics r)) "total_images"
  = Some (Py.PInt (Report.get_total_images_count r))
  /\ Py.dict_lookup (snd (Report.get_statistics r)) "activities_with_images"
     = Some (Py.PInt (Z.of_nat (length (Report.get_activities_with_images r))))
  /\ Py.dict_lookup (snd (Report.get_statistics r)) "total_activities"
     = Some (Py.PInt (Report.get_activity_count r)).
Proof.
  unfold Report.get_statistics.
  destruct (Report.calculate_total_activity_hours r) as [r1 total] eqn:E1.
  destruct (Report.instance_hours r1) as [r2 ih] eqn:E2.
  destruct (Report._calculate_average_duration r2) as [r3 avg].
  destruct (Report._get_longest_activity r3) as [r4 longest].
  destruct (Report._get_shortest_activity r4) as [r5 shortest].
  cbn [snd Py.dict_lookup String.eqb Ascii.eqb Bool.eqb].
  assert (A : Report.activities r2 = Report.refreshed (Report.activities r)).
  { change r2 with (fst (r2, ih)). rewrite <- E2, instance_hours_activities.
    unfold Report.calculate_total_activity_hours in E1. by inversion E1. }
  unfold Report.get_total_images_count, Report.get_activities_with_images,
    Report.get_activity_count.
  by rewrite A, refreshed_image_counts, refreshed_with_images.
Qed.

End Statistics.

(** X25. Without activities the longest and the shortest activity are
    [None].  Otherwise the longest is the title of the first activity that
    lasts at least as long as every other, and the shortest the title of
    the first activity that lasts at most as long as every other. *)
Theorem X25_longest_and_shortest (r : Report.t) :
  (Report.activities r = [] ->
   snd (Report._get_longest_activity r) = None
   /\ snd (Report._get_shortest_activity r) = None)
  /\ (Report.activities r <> [] ->
      exists i j a b,
        Report.activities r !! i = Some a
        /\ Report.activities r !! j = Some b
        /\ snd (Report._get_longest_activity r) = Some (Activity.title a)
        /\ snd (Report._get_shortest_activity r) = Some (Activity.title b)
        /\ (forall k c, Report.activities r !! k = Some c ->
              duration_minutes b <= duration_minutes c <= duration_minutes a)
        /\ (forall k c, (k < i)%nat -> Report.activities r !! k = Some c ->
              duration_minutes c < duration_minutes a)
        /\ (forall k c, (k < j)%nat -> Report.activities r !! k = Some c ->
              duration_minutes b < duration_minutes c)).
Proof.
  unfold Report._get_longest_activity, Report._get_shortest_activity. split.
  - intros ->. by split.
  - intros Hne. destruct (Report.keyed (Report.activities r)) as [|x rest] eqn:E.
    { unfold Report.keyed in E. apply fmap_nil_inv in E. done. }
    destruct (best_activity (fun z => z) (fun k b => b <? k)
                (Report.activities r) x rest ltac:(done) E)
      as (i & a & Ea & Ta & Amax & Afirst).
    destruct (best_activity Z.opp (fun k b => k <? b)
                (Report.activities r) x rest)
      as (j & b & Eb & Tb & Bmin & Bfirst); [|exact E|].
    { intros k b. destruct (Z.ltb_spec k b), (Z.ltb_spec (- b) (- k)); lia || done. }
    exists i, j, a, b. cbn [snd]. rewrite Ta, Tb.
    repeat (split; [done|]). split; [|split].
    + intros k c Ec. pose proof (Amax k c Ec). pose proof (Bmin k c Ec).
      cbn beta in *. lia.
    + intros k c Hk Ec. by apply (Afirst k c).
    + intros k c Hk Ec. pose proof (Bfirst k c Hk Ec). cbn beta in *. lia.
Qed.

Lemma X25_longest_and_shortest_witness :
  snd (Report._get_longest_activity blank_report) = None
  /\ snd (Report._get_shortest_activity blank_report) = None.
Proof.
  apply (proj1 (X25_longest_and_shortest blank_report)). reflexivity.
Defined.

(** X26. The counts of images that [get_statistics] reports are the
    number of images of all activities, the number of activities that
    have an image, and the number of activities, of the report as it is
    (the other statistics are computed first and change no image).  They
    fit together: there are at most as many activities with images as
    images and as activities, there is no image exactly when no activity
    has one, and a report whose activities pass [validate_images] has at
    most five images for each activity. *)
Theorem X26_image_counts (fs : filesystem) (r : Report.t) :
  Py.dict_lookup (snd (Report.get_statistics r)) "total_images"
  = Some (Py.PInt (Report.get_total_images_count r))
  /\ Py.dict_lookup (snd (Report.get_statistics r)) "activities_with_images"
     = Some (Py.PInt (Z.of_nat (length (Report.get_activities_with_images r))))
  /\ Py.dict_lookup (snd (Report.get_statistics r)) "total_activities"
     = Some (Py.PInt (Report.get_activity_count r))
  /\ Report.get_total_images_count r
     = total_images (Report.activities r)
  /\ Report.get_activities_with_images r
     = filter (fun a => Activity.images a <> []) (Report.activities r)
  /\ Z.of_nat (length (Report.get_activities_with_images r))
       <= Report.get_total_images_count r
  /\ Z.of_nat (length (Report.get_activities_with_images r))
       <= Report.get_activity_count r
  /\ (Report.get_total_images_count r = 0 <->
      Report.get_activities_with_images r = [])
  /\ (Forall (fun a => fst (Activity.validate_images fs a) = true)
             (Report.activities r) ->
      Report.get_total_images_count r <= 5 * Report.get_activity_count r).
Proof.
  destruct (get_statistics_counts r) as (C1 & C2 & C3).
  split; [exact C1|]. split; [exact C2|]. split; [exact C3|].
  unfold Report.get_activities_with_images, Report.get_total_images_count,
    Report.get_activity_count.
  destruct (sum_image_counts (Report.activities r)) as (S0 & S1 & S2).
  split; [|split; [|split; [exact S1|split; [|split]]]].
  - clear. unfold Report.sum.
    induction (Report.activities r) as [|a l IH]; [done|].
    cbn [map foldl total_images]. rewrite foldl_add, IH. lia.
  - apply list_filter_iff. intros a. destruct (Activity.images a); cbn [length].
    + split; [lia|done].
    + split; [done|lia].
  - pose proof (length_filter (fun a => (0 < length (Activity.images a))%nat)
                  (Report.activities r)). lia.
  - split; [exact S2|]. intros E. clear S0 S1 S2 C1 C2 C3.
    unfold Report.sum. induction (Report.activities r) as [|a l IH]; [done|].
    rewrite filter_cons in E.
    destruct (decide (0 < length (Activity.images a))%nat) as [Hp|Hn]; [done|].
    cbn [map foldl]. rewrite foldl_add, (IH E). lia.
  - clear S0 S1 S2 C1 C2 C3. unfold Report.sum.
    induction 1 as [|a l Ha _ IH]; [done|].
    apply validate_images_true in Ha as [Ha _]. unfold Activity.MAX_IMAGES in Ha.
    cbn [map foldl length]. rewrite foldl_add. lia.
Qed.

Lemma X26_image_counts_witness :
  Report.get_total_images_count illustrated_report
  <= 5 * Report.get_activity_count illustrated_report
  /\ Py.dict_lookup (snd (Report.get_statistics illustrated_report)) "total_images"
     = Some (Py.PInt 2)
  /\ Py.dict_lookup (snd (Report.get_statistics illustrated_report))
       "activities_with_images"
     = Some (Py.PInt 1).
Proof.
  assert (H : Forall (fun a => fst (Activity.validate_images small_image_fs a) = true)
                (Report.activities illustrated_report)).
  { repeat (constructor; [vm_compute; reflexivity|]). constructor. }
  pose proof (X26_image_counts small_image_fs illustrated_report)
    as (C1 & C2 & _ & _ & _ & _ & _ & _ & C9).
  split; [exact (C9 H)|]. rewrite C1, C2.
  split; vm_compute; reflexivity.
Defined.
